(** * SubstrateOS ai-assistant: the RAG pipeline

    A shallow embedding of [rag/chunking.py], [rag/embed.py],
    [rag/ingest.py], [rag/retrieve.py] and the endpoints of
    [apps/api/routers/rag.py], and the properties of the design document
    that concern them.

    Conventions of the embedding:
    - Python [int] is [Z]; Python [str] is [string], a character being a
      code point below 256, with Python's character classes on that range;
    - Python [float] and NumPy [float32] scores, distances and vector
      components are rationals in canonical form, [Qc]; the properties
      below use only the order of scores and the identities [x * 1 = x],
      [x * 0 = 0], [x + 0 = x], which floating point arithmetic keeps on
      finite values. Where the fusion of the hybrid retriever adds a
      keyword score, a Python [float], to a semantic score, a [float32],
      the code rounds and the embedding does not: the properties of the
      fusion with weight 0 speak of the ids and of the scores the keyword
      search returns, not of the score fields of the fused results;
    - insertion-ordered [dict]s are association lists; the files written by
      ingestion live in a [gmap] from path to file content (directories,
      and so the [mkdir] of the output path, are not part of it);
    - a [while] loop is a function with fuel, [None] meaning that the fuel
      ran out before the loop condition turned false;
    - exceptions are the [Raise] case of [Result]. *)

From Stdlib Require Import ZArith QArith Qcanon Ascii String List Lia Bool.
From Stdlib Require Import Permutation Sorting.Sorted ZifyBool.
From Stdlib Require Import DecimalString.
From stdpp Require Import base option list sorting gmap strings.

Open Scope string_scope.
Open Scope list_scope.
Open Scope Z_scope.

(** ** Python strings *)

Module Py.

Definition len (s : string) : Z := Z.of_nat (String.length s).

(** [str.isspace] on one character: TAB..CR, FS..US, the space, NEL and
    the no-break space. *)
Definition isspace (c : ascii) : bool :=
  let n := nat_of_ascii c in
  ((9 <=? n)%nat && (n <=? 13)%nat) || ((28 <=? n)%nat && (n <=? 32)%nat)
  || (n =? 133)%nat || (n =? 160)%nat.

(** [str.lower] on one character: A..Z, and the capital letters of
    U+00C0..U+00DE (U+00D7 is the multiplication sign). *)
Definition lower_char (c : ascii) : ascii :=
  let n := nat_of_ascii c in
  if ((65 <=? n)%nat && (n <=? 90)%nat)
     || ((192 <=? n)%nat && (n <=? 222)%nat && negb (n =? 215)%nat)
  then ascii_of_nat (n + 32)
  else c.

Fixpoint lower (s : string) : string :=
  match s with
  | EmptyString => EmptyString
  | String c r => String (lower_char c) (lower r)
  end.

Fixpoint lstrip (s : string) : string :=
  match s with
  | EmptyString => EmptyString
  | String c r => if isspace c then lstrip r else s
  end.

Fixpoint rstrip (s : string) : string :=
  match s with
  | EmptyString => EmptyString
  | String c r =>
      let r' := rstrip r in
      if isspace c && String.eqb r' EmptyString then EmptyString
      else String c r'
  end.

(** [s.strip()] *)
Definition strip (s : string) : string := rstrip (lstrip s).

(** Truth value of a string: [if s:] *)
Definition truthy (s : string) : bool := negb (String.eqb s EmptyString).

(** Index adjustment of a slice bound [s[i:j]] (step 1). *)
Definition slice_index (n i : Z) : Z :=
  if i <? 0 then Z.max 0 (i + n) else Z.min i n.

(** [s[start:stop]] *)
Definition slice (s : string) (start stop : Z) : string :=
  let n := len s in
  let a := slice_index n start in
  let b := slice_index n stop in
  substring (Z.to_nat a) (Z.to_nat (b - a)) s.

(** [l[start:stop]] on a list *)
Definition list_slice {A} (l : list A) (start stop : Z) : list A :=
  let n := Z.of_nat (length l) in
  let a := slice_index n start in
  let b := slice_index n stop in
  take (Z.to_nat (b - a)) (drop (Z.to_nat a) l).

(** [l[:stop]] on a list *)
Definition list_upto {A} (l : list A) (stop : Z) : list A :=
  take (Z.to_nat (slice_index (Z.of_nat (length l)) stop)) l.

(** [range(0, stop, step)] for a positive [step] *)
Definition range_step (stop step : Z) : list Z :=
  map (fun j => Z.of_nat j * step)
    (seq 0 (Z.to_nat ((stop + step - 1) / step))).

(** [s[i:i+len(sub)] == sub] for an in-range [i]. *)
Definition match_at (s sub : string) (i : Z) : bool :=
  String.eqb (substring (Z.to_nat i) (String.length sub) s) sub.

(** Bounds of [find]/[rfind]: the end is clamped to [len], a negative
    bound counts from the end, the start has no upper clamp. *)
Definition adjust_end (n e : Z) : Z :=
  if e >? n then n else if e <? 0 then Z.max 0 (e + n) else e.
Definition adjust_start (n b : Z) : Z :=
  if b <? 0 then Z.max 0 (b + n) else b.

(** Candidates [lo + k - 1], ..., [lo], highest first. *)
Fixpoint rfind_down (s sub : string) (lo : Z) (k : nat) : Z :=
  match k with
  | O => -1
  | S k' =>
      if match_at s sub (lo + Z.of_nat k') then lo + Z.of_nat k'
      else rfind_down s sub lo k'
  end.

(** [s.rfind(sub, start, stop)] *)
Definition rfind (s sub : string) (start stop : Z) : Z :=
  let n := len s in
  let a := adjust_start n start in
  let b := adjust_end n stop in
  rfind_down s sub a (Z.to_nat (b - len sub - a + 1)).

(** Candidates [i], [i + 1], ..., lowest first. *)
Fixpoint find_up (s sub : string) (i : Z) (k : nat) : Z :=
  match k with
  | O => -1
  | S k' => if match_at s sub i then i else find_up s sub (i + 1) k'
  end.


(** [s.find(sub)] *)
Definition find (s sub : string) : Z :=
  find_up s sub 0 (Z.to_nat (len s - len sub + 1)).

(** [sub in s] *)
Definition contains (s sub : string) : bool :=
  negb (find s sub =? -1).

(** Pieces of [s.split()]: maximal runs of non-whitespace characters.
    [cur] is the run being read, last character first. *)
Fixpoint split_ws_aux (s : string) (cur : list ascii) : list string :=
  match s with
  | EmptyString =>
      match cur with
      | [] => []
      | _ => [string_of_list_ascii (rev cur)]
      end
  | String c r =>
      if isspace c then
        match cur with
        | [] => split_ws_aux r []
        | _ => string_of_list_ascii (rev cur) :: split_ws_aux r []
        end
      else split_ws_aux r (c :: cur)
  end.

(** [s.split()] *)
Definition split_ws (s : string) : list string := split_ws_aux s [].

(** [set(l)], as the list of the distinct elements of [l]. *)
Definition set_of (l : list string) : list string := remove_dups l.

(** [len(a & b)] for two sets *)
Definition inter_size (a b : list string) : Z :=
  Z.of_nat (length (List.filter (fun x => existsb (String.eqb x) b) a)).

(** [sorted(l, key=key, reverse=True)] and [l.sort(key=key, reverse=True)]:
    descending, elements of equal key in their original order. *)
Fixpoint insert_desc {A} (key : A -> Qc) (x : A) (l : list A) : list A :=
  match l with
  | [] => [x]
  | y :: r =>
      if bool_decide (key y <= key x)%Qc then x :: y :: r
      else y :: insert_desc key x r
  end.

Fixpoint sorted_desc {A} (key : A -> Qc) (l : list A) : list A :=
  match l with
  | [] => []
  | x :: r => insert_desc key x (sorted_desc key r)
  end.

(** [a] may come before [b] in descending order of [key]; strictly so. *)
Definition desc {A} (key : A -> Qc) (a b : A) : Prop := (key b <= key a)%Qc.
Definition strict_desc {A} (key : A -> Qc) (a b : A) : Prop :=
  (key b < key a)%Qc.

(** [str(n)] for an [int] *)
Definition str_of_int (z : Z) : string :=
  NilZero.string_of_int (Z.to_int z).

End Py.

(** ** Dictionaries and chunks *)

Inductive PyVal : Type :=
| VStr (s : string)
| VInt (z : Z).

Global Instance PyVal_eq_dec : EqDecision PyVal.
Proof. solve_decision. Defined.

(** A [dict] with string keys, in insertion order. *)
Definition PyDict (V : Type) : Type := list (string * V).

(** [d.get(k)] *)
Fixpoint dict_get {V} (d : PyDict V) (k : string) : option V :=
  match d with
  | [] => None
  | (k', v) :: r => if String.eqb k' k then Some v else dict_get r k
  end.

(** [d[k] = v]: an existing key keeps its position, a new one goes last. *)
Fixpoint dict_set {V} (d : PyDict V) (k : string) (v : V) : PyDict V :=
  match d with
  | [] => [(k, v)]
  | (k', v') :: r =>
      if String.eqb k' k then (k', v) :: r else (k', v') :: dict_set r k v
  end.

(** [d.values()] *)
Definition dict_values {V} (d : PyDict V) : list V := map snd d.

Definition Dict : Type := PyDict PyVal.

Record Chunk : Type := mkChunk {
  id : string;
  content : string;
  metadata : Dict;
  start_index : Z;
  end_index : Z
}.

(** [f"{doc_id}_chunk_{chunk_idx}"] *)
Definition chunk_id (doc_id : string) (chunk_idx : Z) : string :=
  doc_id +:+ "_chunk_" +:+ Py.str_of_int chunk_idx.

(** [metadata = metadata or {}] *)
Definition or_empty (metadata : option Dict) : Dict :=
  match metadata with
  | Some d => d
  | None => []
  end.

(** ** rag/chunking.py: FixedSizeChunker *)

Module FixedSizeChunker.

Record t : Type := mk { chunk_size : Z; overlap : Z }.

(** [FixedSizeChunker()] *)
Definition default : t := mk 512 50.

(** Local variables of [chunk] across iterations of the loop. *)
Record Locals : Type := mkLocals {
  chunks : list Chunk;
  start : Z;
  chunk_idx : Z
}.

Definition init : Locals := mkLocals [] 0 0.

(** One iteration of the body of [while start < len(text)]. *)
Definition body (self : t) (text doc_id : string) (md : Dict)
    (st : Locals) : Locals :=
  let end0 := Z.min (start st + chunk_size self) (Py.len text) in
  let end1 :=
    if end0 <? Py.len text then
      let sentence_end :=
        Py.rfind text ". " (start st + chunk_size self - 50) end0 in
      if sentence_end >? start st then sentence_end + 1 else end0
    else end0 in
  let chunk_text := Py.strip (Py.slice text (start st) end1) in
  let st1 :=
    if Py.truthy chunk_text then
      mkLocals
        (chunks st ++
           [mkChunk (chunk_id doc_id (chunk_idx st)) chunk_text
              (dict_set md "chunk_index" (VInt (chunk_idx st)))
              (start st) end1])
        (start st) (chunk_idx st + 1)
    else st in
  mkLocals (chunks st1) (end1 - overlap self) (chunk_idx st1).

Fixpoint loop (fuel : nat) (self : t) (text doc_id : string) (md : Dict)
    (st : Locals) : option (list Chunk) :=
  if start st <? Py.len text then
    match fuel with
    | O => None
    | S fuel' => loop fuel' self text doc_id md (body self text doc_id md st)
    end
  else Some (chunks st).

(** [chunk(text, doc_id, metadata)] run for at most [fuel] iterations. *)
Definition chunk (fuel : nat) (self : t) (text doc_id : string)
    (metadata : option Dict) : option (list Chunk) :=
  loop fuel self text doc_id (or_empty metadata) init.

End FixedSizeChunker.

(** ** rag/chunking.py: SemanticChunker *)

Module SemanticChunker.

Record t : Type := mk { max_chunk_size : Z; min_chunk_size : Z }.

(** [SemanticChunker()] *)
Definition default : t := mk 1000 100.

Definition newline : ascii := ascii_of_nat 10.
Definition hash : ascii := ascii_of_nat 35.

(** The lookahead [(?=#{1,3}\s)] read at the head of [s]: one to three
    hashes, then a whitespace character. *)
Definition heading_ahead (s : string) : bool :=
  match s with
  | String h1 (String c1 r1) =>
      Ascii.eqb h1 hash &&
      (Py.isspace c1 ||
       (Ascii.eqb c1 hash &&
        match r1 with
        | String c2 r2 =>
            Py.isspace c2 ||
            (Ascii.eqb c2 hash &&
             match r2 with
             | String c3 _ => Py.isspace c3
             | EmptyString => false
             end)
        | EmptyString => false
        end))
  | _ => false
  end.

(** Put [c] in front of the first piece. *)
Definition cons_first (c : ascii) (pieces : list string) : list string :=
  match pieces with
  | h :: t => String c h :: t
  | [] => [String c EmptyString]
  end.

(** [re.split(r'\n(?=#{1,3}\s)', text)] *)
Fixpoint split_sections (s : string) : list string :=
  match s with
  | EmptyString => [EmptyString]
  | String c r =>
      if Ascii.eqb c newline && heading_ahead r
      then EmptyString :: split_sections r
      else cons_first c (split_sections r)
  end.

(** [section.split('\n\n')] *)
Fixpoint split_paragraphs (s : string) : list string :=
  match s with
  | EmptyString => [EmptyString]
  | String c1 r1 =>
      match r1 with
      | String c2 r2 =>
          if Ascii.eqb c1 newline && Ascii.eqb c2 newline
          then EmptyString :: split_paragraphs r2
          else cons_first c1 (split_paragraphs r1)
      | EmptyString => [String c1 EmptyString]
      end
  end.

(** Local variables of [chunk] across the loops. *)
Record Locals : Type := mkLocals {
  chunks : list Chunk;
  current_chunk : string;
  current_start : Z;
  chunk_idx : Z
}.

Definition init : Locals := mkLocals [] EmptyString 0 0.

(** The guarded [chunks.append(...)] inside the loops. *)
Definition flush_if_min (self : t) (doc_id : string) (md : Dict)
    (st : Locals) : Locals :=
  if Py.len (current_chunk st) >=? min_chunk_size self then
    mkLocals
      (chunks st ++
         [mkChunk (chunk_id doc_id (chunk_idx st))
            (Py.strip (current_chunk st))
            (dict_set md "chunk_index" (VInt (chunk_idx st)))
            (current_start st)
            (current_start st + Py.len (current_chunk st))])
      (current_chunk st) (current_start st) (chunk_idx st + 1)
  else st.

(** A unit (paragraph or whole section) that does not fit the buffer
    replaces it; [sep] joins it to the buffer otherwise. *)
Definition add_unit (self : t) (text doc_id : string) (md : Dict)
    (sep : string) (st : Locals) (unit : string) : Locals :=
  if Py.len (current_chunk st) + Py.len unit >? max_chunk_size self then
    let st1 := flush_if_min self doc_id md st in
    mkLocals (chunks st1) unit (Py.find text unit) (chunk_idx st1)
  else
    mkLocals (chunks st) (current_chunk st +:+ sep +:+ unit)
      (current_start st) (chunk_idx st).

Definition nl : string := String newline EmptyString.

(** Body of [for section in sections]. *)
Definition section_step (self : t) (text doc_id : string) (md : Dict)
    (st : Locals) (section : string) : Locals :=
  if Py.len section >? max_chunk_size self then
    fold_left (add_unit self text doc_id md (nl +:+ nl))
      (split_paragraphs section) st
  else add_unit self text doc_id md nl st section.

(** The locals when the loop over the sections is over. *)
Definition after_sections (self : t) (text doc_id : string) (md : Dict)
    : Locals :=
  fold_left (section_step self text doc_id md) (split_sections text) init.

(** The chunk of the final buffer. *)
Definition last_chunk (text doc_id : string) (md : Dict) (st : Locals)
    : Chunk :=
  mkChunk (chunk_id doc_id (chunk_idx st)) (Py.strip (current_chunk st))
    (dict_set md "chunk_index" (VInt (chunk_idx st)))
    (current_start st) (Py.len text).

(** [chunk(text, doc_id, metadata)] *)
Definition chunk (self : t) (text doc_id : string)
    (metadata : option Dict) : list Chunk :=
  let md := or_empty metadata in
  let st := after_sections self text doc_id md in
  if Py.len (current_chunk st) >=? min_chunk_size self
  then chunks st ++ [last_chunk text doc_id md st]
  else chunks st.

End SemanticChunker.

(** The claim of the design document: a final buffer that holds text is
    flushed as the last chunk. *)
Definition final_buffer_always_flushed (self : SemanticChunker.t)
    (text doc_id : string) (metadata : option Dict) : Prop :=
  let st :=
    SemanticChunker.after_sections self text doc_id (or_empty metadata) in
  Py.strip (SemanticChunker.current_chunk st) <> EmptyString ->
  exists c,
    last (SemanticChunker.chunk self text doc_id metadata) = Some c /\
    content c = Py.strip (SemanticChunker.current_chunk st).

(** ** Exceptions *)

Inductive Exn : Type :=
| RuntimeError (msg : string)
| IndexError
| AttributeError.

Inductive Result (A : Type) : Type :=
| Ok (a : A)
| Raise (e : Exn).
Arguments Ok {A} a.
Arguments Raise {A} e.

(** ** rag/embed.py *)

(** An embedding vector, and the rows of an embedding array. *)
Definition Vec : Type := list Qc.

Module OpenAIEmbedding.

(** [create model batch] stands for the embeddings
    [[item.embedding for item in response.data]] of the response to
    [client.embeddings.create(model=model, input=batch)]. *)
Record t : Type := mk {
  model : string;
  create : string -> list string -> list Vec
}.

Definition batch_size : Z := 100.

(** [embed(texts)]: the batches of [range(0, len(texts), batch_size)],
    their embeddings appended to [all_embeddings] in turn. *)
Definition embed (self : t) (texts : list string) : list Vec :=
  fold_left
    (fun all_embeddings i =>
       let batch := Py.list_slice texts i (i + batch_size) in
       all_embeddings ++ create self (model self) batch)
    (Py.range_step (Z.of_nat (length texts)) batch_size)
    [].

End OpenAIEmbedding.

(** ** The snapshot files *)

(** The flat L2 index: its dimension and the vectors added, in order. *)
Record FaissIndex : Type := mkIndex {
  d : nat;
  xb : list Vec
}.

(** A record of [chunks.json]; a key may be missing in a file that was not
    written by ingestion, which [chunk.get(key, default)] covers. *)
Record ChunkRecord : Type := mkRecord {
  rec_id : option string;
  rec_content : option string;
  rec_metadata : option Dict
}.

(** The manifest [metadata.json]. *)
Record Manifest : Type := mkManifest {
  ingested_at : string;
  source : string;
  chunk_size : Z;
  chunk_overlap : Z;
  total_chunks : Z;
  embedding_model_name : string;
  dimensions : nat
}.

Inductive File : Type :=
| IndexFile (index : FaissIndex)
| ChunksFile (records : list ChunkRecord)
| ManifestFile (manifest : Manifest).

(** [path / name] *)
Definition path_join (path name : string) : string :=
  path +:+ "/" +:+ name.

Definition index_file (path : string) : string := path_join path "index.faiss".
Definition chunks_file (path : string) : string := path_join path "chunks.json".
Definition metadata_file (path : string) : string :=
  path_join path "metadata.json".

(** ** The environment of the pipeline *)

(** What the pipeline reads from outside: the source tree, the clock, the
    hash, the configured embedding backend and the index search. *)
Record World : Type := mkWorld {
  (** [str(Path(s))]: the spelling [pathlib] gives the path [s] *)
  path_str : string -> string;
  (** [Path.is_file()] *)
  is_file : string -> bool;
  (** the paths of [dir_path.rglob("*")], in the order they come *)
  rglob : string -> list string;
  (** [open(path, encoding="utf-8").read()]; [None]: UnicodeDecodeError *)
  read_text : string -> option string;
  (** [hashlib.md5(s.encode()).hexdigest()] *)
  md5_hexdigest : string -> string;
  (** [datetime.utcnow().isoformat()] at the n-th reading of the clock *)
  utcnow : nat -> string;
  (** [os.getenv("EMBEDDING_MODEL", "text-embedding-3-small")] *)
  EMBEDDING_MODEL : string;
  (** [embed] of the model [get_embedding_model] returns *)
  embed : list string -> list Vec;
  (** one component through [astype('float32')] *)
  float32 : Qc -> Qc;
  (** [zip(distances[0], indices[0])] of [index.search(query, k)] *)
  search : FaissIndex -> Vec -> Z -> list (Qc * Z)
}.

Definition astype_float32 (w : World) (rows : list Vec) : list Vec :=
  map (map (float32 w)) rows.

(** What ingestion changes: the files, the number of clock readings, and
    the texts handed to the embedding model. *)
Record State : Type := mkState {
  files : gmap string File;
  clock : nat;
  embed_calls : list (list string)
}.

Definition tick (st : State) : State :=
  mkState (files st) (S (clock st)) (embed_calls st).

Definition write_file (path : string) (f : File) (st : State) : State :=
  mkState (<[path := f]> (files st)) (clock st) (embed_calls st).

Definition log_embed (texts : list string) (st : State) : State :=
  mkState (files st) (clock st) (embed_calls st ++ [texts]).

(** ** rag/ingest.py *)

(** [Path.name]: the last component. *)
Definition path_name (p : string) : string :=
  Py.slice p (Py.rfind p "/" 0 (Py.len p) + 1) (Py.len p).

(** [Path.suffix]: the last extension of the name, if any. *)
Definition path_suffix (p : string) : string :=
  let name := path_name p in
  let i := Py.rfind name "." 0 (Py.len name) in
  if (0 <? i) && (i <? Py.len name - 1)
  then Py.slice name i (Py.len name)
  else EmptyString.

(** [x in l] for a list of strings *)
Definition in_list (x : string) (l : list string) : bool :=
  existsb (String.eqb x) l.

(** [l or default] *)
Definition or_default (l : option (list string)) (default : list string)
    : list string :=
  match l with
  | Some (x :: r) => x :: r
  | _ => default
  end.

(** The bound method [chunker.chunk]. *)
Definition ChunkMethod : Type := string -> string -> option Dict -> list Chunk.

Definition detect_file_type (file_path file_type : string) : string :=
  if String.eqb file_type "auto" then
    let suffix := Py.lower (path_suffix file_path) in
    if in_list suffix [".md"; ".txt"; ".rst"] then "text"
    else if in_list suffix [".py"; ".ts"; ".js"; ".tsx"; ".jsx"] then "code"
    else if String.eqb suffix ".json" then "json"
    else "text"
  else file_type.

Definition ingest_file (w : World) (file_path : string)
    (chunker : ChunkMethod) (file_type : string) (st : State)
    : list Chunk * State :=
  let file_type := detect_file_type file_path file_type in
  match read_text w file_path with
  | None => ([], st)
  | Some content =>
      if negb (Py.truthy (Py.strip content)) then ([], st)
      else
        let doc_id := Py.slice (md5_hexdigest w file_path) 0 12 in
        let metadata : Dict :=
          [("source", VStr file_path);
           ("file_type", VStr file_type);
           ("size", VInt (Py.len content));
           ("ingested_at", VStr (utcnow w (clock st)))] in
        (chunker content doc_id (Some metadata), tick st)
  end.

Definition default_extensions : list string :=
  [".md"; ".txt"; ".py"; ".ts"; ".js"; ".tsx"; ".rst"].
Definition default_exclude_patterns : list string :=
  ["node_modules"; "__pycache__"; ".git"; "dist"].

Definition ingest_directory (w : World) (dir_path : string)
    (chunker : ChunkMethod) (extensions exclude_patterns : option (list string))
    (st : State) : list Chunk * State :=
  let extensions := or_default extensions default_extensions in
  let exclude_patterns := or_default exclude_patterns default_exclude_patterns in
  fold_left
    (fun (acc : list Chunk * State) file_path =>
       let (all_chunks, st) := acc in
       if existsb (fun pattern => Py.contains file_path pattern) exclude_patterns
       then acc
       else if negb (in_list (Py.lower (path_suffix file_path)) extensions)
       then acc
       else if is_file w file_path then
         let (chunks, st') := ingest_file w file_path chunker "auto" st in
         (all_chunks ++ chunks, st')
       else acc)
    (rglob w dir_path) ([], st).

(** The dictionary [ingest_documents] returns. *)
Record IngestResult : Type := mkResult {
  documents : Z;
  chunks : Z;
  errors : list string
}.

(** [get_chunker("semantic", max_chunk_size=chunk_size)] *)
Definition get_semantic_chunker (chunk_size : Z) : SemanticChunker.t :=
  SemanticChunker.mk chunk_size
    (SemanticChunker.min_chunk_size SemanticChunker.default).

(** The chunks of the source: a file is ingested alone, anything else is
    walked as a directory. The functions below [source_path = Path(source)]
    see the path in the spelling of [pathlib]. *)
Definition load_chunks (w : World) (source : string) (chunk_size : Z)
    (st : State) : list Chunk * State :=
  let source_path := path_str w source in
  let chunker := SemanticChunker.chunk (get_semantic_chunker chunk_size) in
  if is_file w source_path then ingest_file w source_path chunker "auto" st
  else ingest_directory w source_path chunker None None st.

Definition chunk_record (c : Chunk) : ChunkRecord :=
  mkRecord (Some (id c)) (Some (content c)) (Some (metadata c)).

Definition ingest_documents (w : World) (source : string)
    (chunk_size chunk_overlap : Z) (output_path : string) (st : State)
    : Result IngestResult * State :=
  let (chunks, st) := load_chunks w source chunk_size st in
  match chunks with
  | [] => (Ok (mkResult 0 0 ["No documents found"]), st)
  | _ :: _ =>
      let texts := map content chunks in
      let embeddings := embed w texts in
      let st := log_embed texts st in
      match embeddings with
      | [] => (Raise IndexError, st)   (* embeddings.shape[1] *)
      | row :: _ =>
          let dimension := length row in
          let index := mkIndex dimension (astype_float32 w embeddings) in
          let st := write_file (index_file output_path) (IndexFile index) st in
          let chunk_data := map chunk_record chunks in
          let st :=
            write_file (chunks_file output_path) (ChunksFile chunk_data) st in
          let manifest :=
            mkManifest (utcnow w (clock st)) source chunk_size chunk_overlap
              (Z.of_nat (length chunks)) (EMBEDDING_MODEL w) dimension in
          let st :=
            write_file (metadata_file output_path) (ManifestFile manifest)
              (tick st) in
          (Ok (mkResult
                 (Z.of_nat
                    (length
                       (remove_dups
                          (map (fun c => dict_get (metadata c) "source")
                             chunks))))
                 (Z.of_nat (length chunks))
                 []),
           st)
      end
  end.

(** ** rag/retrieve.py *)

Module RetrievalResult.
Record t : Type := mk {
  id : string;
  content : string;
  score : Qc;
  metadata : Dict
}.
End RetrievalResult.

(** The result of [chunk.get("id", f"chunk_{idx}")] and the like. *)
Definition result_of_chunk (chunk : ChunkRecord) (idx : Z) (score : Qc)
    : RetrievalResult.t :=
  RetrievalResult.mk
    (default ("chunk_" +:+ Py.str_of_int idx) (rec_id chunk))
    (default EmptyString (rec_content chunk))
    score
    (default [] (rec_metadata chunk)).

(** [set(s.lower().split())] *)
Definition words (s : string) : list string :=
  Py.set_of (Py.split_ws (Py.lower s)).

Module RAGRetriever.

Record t : Type := mk {
  vector_path : string;
  index : option FaissIndex;
  chunks : list ChunkRecord;
  embedding_model : option (list string -> list Vec)
}.

(** [_load_index]: nothing is loaded when the index file is missing. A file
    of another kind at one of the two paths is refused by its reader. *)
Definition _load_index (w : World) (fs : gmap string File) (self : t)
    : Result t :=
  match fs !! index_file (vector_path self) with
  | None => Ok self
  | Some (IndexFile idx) =>
      match fs !! chunks_file (vector_path self) with
      | None =>
          Ok (mk (vector_path self) (Some idx) (chunks self) (Some (embed w)))
      | Some (ChunksFile records) =>
          Ok (mk (vector_path self) (Some idx) records (Some (embed w)))
      | Some _ => Raise (RuntimeError "chunks file not readable")
      end
  | Some _ => Raise (RuntimeError "index file not readable")
  end.

(** [RAGRetriever(vector_path)] *)
Definition __init__ (w : World) (fs : gmap string File) (vector_path : string)
    : Result t :=
  _load_index w fs (mk vector_path None [] None).

(** [1.0 / (1.0 + dist)] *)
Definition similarity (dist : Qc) : Qc := (1 / (1 + dist))%Qc.

(** The guard [idx < 0 or idx >= len(self.chunks)], negated. *)
Definition in_range (self : t) (pair : Qc * Z) : bool :=
  negb ((snd pair <? 0) || (snd pair >=? Z.of_nat (length (chunks self)))).

(** One round of the loop over [zip(distances[0], indices[0])]: the result
    appended for the pair, if any. *)
Definition candidate (self : t) (threshold : Qc) (pair : Qc * Z)
    : option RetrievalResult.t :=
  let (dist, idx) := pair in
  if (idx <? 0) || (idx >=? Z.of_nat (length (chunks self))) then None
  else
    match chunks self !! Z.to_nat idx with
    | None => None
    | Some chunk =>
        let score := similarity dist in
        if bool_decide (threshold <= score)%Qc
        then Some (result_of_chunk chunk idx score)
        else None
    end.

Definition keyword_boost : Qc := Q2Qc (5 # 100).

(** An [int] as a [float]. *)
Definition of_int (z : Z) : Qc := Q2Qc (inject_Z z).

Definition _rerank (query : string) (results : list RetrievalResult.t)
    (top_k : Z) : list RetrievalResult.t :=
  let query_words := words query in
  let boosted :=
    map (fun result =>
           let content_words := words (RetrievalResult.content result) in
           let overlap := Py.inter_size query_words content_words in
           RetrievalResult.mk (RetrievalResult.id result)
             (RetrievalResult.content result)
             (RetrievalResult.score result + of_int overlap * keyword_boost)%Qc
             (RetrievalResult.metadata result))
        results in
  Py.list_upto (Py.sorted_desc RetrievalResult.score boosted) top_k.

(** The pairs the index search of a call of [retrieve] returns. *)
Definition hits (w : World) (self : t) (query : string) (top_k : Z)
    (rerank : bool) : list (Qc * Z) :=
  match index self, embedding_model self with
  | Some index, Some model =>
      match model [query] with
      | query_embedding :: _ =>
          search w index (map (float32 w) query_embedding)
            (if rerank then top_k * 3 else top_k)
      | [] => []
      end
  | _, _ => []
  end.

Definition retrieve (w : World) (self : t) (query : string) (top_k : Z)
    (threshold : Qc) (rerank : bool) : Result (list RetrievalResult.t) :=
  match index self with
  | None => Raise (RuntimeError "Index not loaded")
  | Some index =>
      match embedding_model self with
      | None => Raise AttributeError
      | Some model =>
          match model [query] with
          | [] => Raise IndexError
          | query_embedding :: _ =>
              let search_k := if rerank then top_k * 3 else top_k in
              let found :=
                search w index (map (float32 w) query_embedding) search_k in
              let results := omap (candidate self threshold) found in
              let results :=
                if rerank && (Z.of_nat (length results) >? top_k)
                then _rerank query results top_k
                else results in
              Ok (Py.list_upto results top_k)
          end
      end
  end.

End RAGRetriever.

Module HybridRetriever.

Definition _keyword_search (self : RAGRetriever.t) (query : string)
    (top_k : Z) : list RetrievalResult.t :=
  let query_words := words query in
  let scores :=
    omap (fun ic : nat * ChunkRecord =>
            let (i, chunk) := ic in
            let content := Py.lower (default EmptyString (rec_content chunk)) in
            let content_words := Py.set_of (Py.split_ws content) in
            let matches := Py.inter_size query_words content_words in
            if matches >? 0
            then Some (Z.of_nat i,
                       (RAGRetriever.of_int matches
                        / RAGRetriever.of_int
                            (Z.of_nat (length query_words)))%Qc)
            else None)
         (imap pair (RAGRetriever.chunks self)) in
  let scores := Py.sorted_desc snd scores in
  omap (fun p : Z * Qc =>
          let (idx, score) := p in
          match RAGRetriever.chunks self !! Z.to_nat idx with
          | Some chunk => Some (result_of_chunk chunk idx score)
          | None => None
          end)
       (Py.list_upto scores top_k).

Definition scaled (r : RetrievalResult.t) (weight : Qc) : RetrievalResult.t :=
  RetrievalResult.mk (RetrievalResult.id r) (RetrievalResult.content r)
    (RetrievalResult.score r * weight)%Qc (RetrievalResult.metadata r).

Definition add_score (r : RetrievalResult.t) (x : Qc) : RetrievalResult.t :=
  RetrievalResult.mk (RetrievalResult.id r) (RetrievalResult.content r)
    (RetrievalResult.score r + x)%Qc (RetrievalResult.metadata r).

(** The first loop over [semantic_results]. *)
Definition merge_semantic (semantic_weight : Qc)
    (semantic_results : list RetrievalResult.t)
    : PyDict RetrievalResult.t :=
  fold_left
    (fun result_map r =>
       dict_set result_map (RetrievalResult.id r) (scaled r semantic_weight))
    semantic_results [].

(** The second loop, over [keyword_results]. *)
Definition merge_keyword (semantic_weight : Qc)
    (keyword_results : list RetrievalResult.t)
    (result_map : PyDict RetrievalResult.t) : PyDict RetrievalResult.t :=
  fold_left
    (fun result_map r =>
       match dict_get result_map (RetrievalResult.id r) with
       | Some entry =>
           dict_set result_map (RetrievalResult.id r)
             (add_score entry
                (RetrievalResult.score r * (1 - semantic_weight))%Qc)
       | None =>
           dict_set result_map (RetrievalResult.id r)
             (scaled r (1 - semantic_weight)%Qc)
       end)
    keyword_results result_map.

Definition retrieve (w : World) (self : RAGRetriever.t) (query : string)
    (top_k : Z) (threshold : Qc) (rerank : bool) (semantic_weight : Qc)
    : Result (list RetrievalResult.t) :=
  match RAGRetriever.retrieve w self query (top_k * 2) threshold false with
  | Raise e => Raise e
  | Ok semantic_results =>
      let keyword_results := _keyword_search self query (top_k * 2) in
      let result_map :=
        merge_keyword semantic_weight keyword_results
          (merge_semantic semantic_weight semantic_results) in
      let results :=
        Py.sorted_desc RetrievalResult.score (dict_values result_map) in
      Ok (Py.list_upto results top_k)
  end.

(** What the second loop does to one entry of [result_map]: the keyword
    result of the same id, if any, adds its weighted score. *)
Definition by_id (l : list RetrievalResult.t) : PyDict RetrievalResult.t :=
  map (fun r => (RetrievalResult.id r, r)) l.

Definition add_keyword (semantic_weight : Qc)
    (keyword_results : list RetrievalResult.t)
    (entry : string * RetrievalResult.t) : string * RetrievalResult.t :=
  match dict_get (by_id keyword_results) (fst entry) with
  | Some r =>
      (fst entry,
       add_score (snd entry)
         (RetrievalResult.score r * (1 - semantic_weight))%Qc)
  | None => entry
  end.

(** [r.id not in result_map] *)
Definition fresh_in (result_map : PyDict RetrievalResult.t)
    (r : RetrievalResult.t) : bool :=
  negb (bool_decide (RetrievalResult.id r ∈ map fst result_map)).

(** The keyword score of the id [i], [0] for no hit. *)
Definition keyword_score_of (keyword_results : list RetrievalResult.t)
    (i : string) : Qc :=
  match dict_get (by_id keyword_results) i with
  | Some r => RetrievalResult.score r
  | None => 0%Qc
  end.

(** The result [r] with score [0.0]. *)
Definition zero_score (r : RetrievalResult.t) : RetrievalResult.t :=
  RetrievalResult.mk (RetrievalResult.id r) (RetrievalResult.content r) 0%Qc
    (RetrievalResult.metadata r).

(** [r.id in {x.id for x in l}] *)
Definition has_id (l : list RetrievalResult.t) (r : RetrievalResult.t) : bool :=
  bool_decide (RetrievalResult.id r ∈ map RetrievalResult.id l).

Definition id_score (r : RetrievalResult.t) : string * Qc :=
  (RetrievalResult.id r, RetrievalResult.score r).

(** The semantic results, then the keyword hits that are not among them,
    those with score 0. *)
Definition semantic_then_keyword (semantic keyword : list RetrievalResult.t)
    : list RetrievalResult.t :=
  semantic
  ++ map zero_score (List.filter (fun r => negb (has_id semantic r)) keyword).

(** The boundary claims of the design document, for one call. *)
Definition weight_one_is_semantic (w : World) (self : RAGRetriever.t)
    (query : string) (top_k : Z) (threshold : Qc) (rerank : bool) : Prop :=
  retrieve w self query top_k threshold rerank 1%Qc
  = RAGRetriever.retrieve w self query top_k threshold false.

Definition weight_zero_is_keyword (w : World) (self : RAGRetriever.t)
    (query : string) (top_k : Z) (threshold : Qc) (rerank : bool) : Prop :=
  exists results,
    retrieve w self query top_k threshold rerank 0%Qc = Ok results /\
    map RetrievalResult.id results
    = map RetrievalResult.id (_keyword_search self query top_k).

End HybridRetriever.

(** ** The exact flat index

    Modelled from the spec: the search of the vector index library, which
    is not part of the repository. It returns the [k] stored vectors
    nearest to the query by squared L2 distance, nearest first, as pairs
    of distance and position; when fewer than [k] vectors are stored the
    missing places hold position [-1] (their distance, which [retrieve]
    never reads, is left at 0). *)

Definition l2_sqr (x y : Vec) : Qc :=
  fold_left Qcplus
    (map (fun ab : Qc * Qc => ((fst ab - snd ab) * (fst ab - snd ab))%Qc)
       (combine x y))
    0%Qc.

Definition flat_search (index : FaissIndex) (query : Vec) (k : Z)
    : list (Qc * Z) :=
  let scored := imap (fun i v => (l2_sqr query v, Z.of_nat i)) (xb index) in
  let nearest := Py.sorted_desc (fun p : Qc * Z => (- fst p)%Qc) scored in
  take (Z.to_nat k) (nearest ++ repeat (0%Qc, -1) (Z.to_nat k)).

(** A file with the [chunk_overlap] field of a manifest blanked, to compare
    snapshots up to that field. *)
Definition erase_overlap (f : File) : File :=
  match f with
  | ManifestFile m =>
      ManifestFile
        (mkManifest (ingested_at m) (source m) (chunk_size m) 0
           (total_chunks m) (embedding_model_name m) (dimensions m))
  | _ => f
  end.

(** ** A small world to run the pipeline in *)

Module Demo.

Definition guide : string :=
  "# Guide" +:+ SemanticChunker.nl +:+
  "The retriever embeds the query, searches the index and ranks the chunks by similarity to it."
  +:+ SemanticChunker.nl +:+
  "## Section two" +:+ SemanticChunker.nl +:+
  "The ingestion pipeline walks the source tree, chunks every file and writes one snapshot.".

Definition notes : string := "short note".

Definition tree : list (string * string) :=
  [("docs/guide.md", guide); ("docs/notes.txt", notes)].

(** A vector of dimension two for every text. *)
Definition embed_text (s : string) : Vec :=
  [RAGRetriever.of_int (Py.len s); RAGRetriever.of_int 1].

(** [str(Path(s))] on a POSIX system: empty and [.] components go, and so
    do repeated and trailing slashes; exactly two leading slashes stay. *)
Fixpoint split_slash (s : string) : list string :=
  match s with
  | EmptyString => [EmptyString]
  | String c r =>
      if Ascii.eqb c "/" then EmptyString :: split_slash r
      else
        match split_slash r with
        | x :: xs => String c x :: xs
        | [] => [String c EmptyString]
        end
  end.

Definition posix_str (s : string) : string :=
  let parts :=
    List.filter (fun c => negb (String.eqb c "" || String.eqb c "."))
      (split_slash s) in
  let root :=
    if String.prefix "//" s && negb (String.prefix "///" s) then "//"
    else if String.prefix "/" s then "/" else "" in
  match parts with
  | [] => if String.eqb root "" then "." else root
  | _ :: _ => root +:+ String.concat "/" parts
  end.

Definition world : World :=
  mkWorld
    posix_str
    (fun p => in_list p (map fst tree))
    (fun dir => if String.eqb dir "docs" then map fst tree else [])
    (fun p => snd <$> List.find (fun e => String.eqb (fst e) p) tree)
    (fun s => "9e107d9d372bb6826bd81d3542a419d6")
    (fun n => "2024-01-01T00:00:0" +:+ Py.str_of_int (Z.of_nat n))
    "text-embedding-3-small"
    (map embed_text)
    (fun x => x)
    flat_search.

Definition empty_state : State := mkState ∅ 0 [].


(** A provider that embeds every text of a batch, in order. *)
Definition openai : OpenAIEmbedding.t :=
  OpenAIEmbedding.mk "text-embedding-3-small"
    (fun _ batch => map embed_text batch).

(** The decimal numerals of 0 to 249. *)
Definition numerals : list string :=
  map (fun n => Py.str_of_int (Z.of_nat n)) (seq 0 250).

(** Three chunk records, and loaded retrievers over all three and over the
    first two; the vector of a record is the embedding of its content. *)
Definition three_chunks : list ChunkRecord :=
  [mkRecord (Some "a") (Some "alpha beta") (Some []);
   mkRecord (Some "b") (Some "beta gamma delta") (Some []);
   mkRecord (Some "c") (Some "gamma") (Some [])].

Definition retriever_over (records : list ChunkRecord) : RAGRetriever.t :=
  RAGRetriever.mk "vectors"
    (Some (mkIndex 2 (map (fun r => embed_text (default "" (rec_content r)))
                        records)))
    records (Some (embed world)).

(** A fixed-size chunker without overlap, and a text of two sentences. *)
Definition fixed10 : FixedSizeChunker.t := FixedSizeChunker.mk 10 0.
Definition two_sentences : string := "Hello world. This is a test of it.".

(** A code text of two definitions. *)
Definition two_definitions : string :=
  "import os" +:+ SemanticChunker.nl +:+ "def f():" +:+ SemanticChunker.nl
  +:+ "    return 1" +:+ SemanticChunker.nl +:+ "class A:" +:+
  SemanticChunker.nl +:+ "    pass".

Definition retriever : RAGRetriever.t := retriever_over three_chunks.
Definition retriever2 : RAGRetriever.t := retriever_over (take 2 three_chunks).

End Demo.

(** ** Further code of the pipeline *)

(** *** rag/chunking.py: CodeAwareChunker and get_chunker *)

Module CodeAwareChunker.

Record t : Type := mk { max_chunk_size : Z }.

(** [CodeAwareChunker()] *)
Definition default : t := mk 1500.

(** The lookahead [(?=(?:def |class |function |const |export ))] read at
    the head of [s]. *)
Definition definition_ahead (s : string) : bool :=
  String.prefix "def " s || String.prefix "class " s
  || String.prefix "function " s || String.prefix "const " s
  || String.prefix "export " s.

(** [re.split(pattern, text)] *)
Fixpoint split_definitions (s : string) : list string :=
  match s with
  | EmptyString => [EmptyString]
  | String c r =>
      if Ascii.eqb c SemanticChunker.newline && definition_ahead r
      then EmptyString :: split_definitions r
      else SemanticChunker.cons_first c (split_definitions r)
  end.

Record Locals : Type := mkLocals {
  chunks : list Chunk;
  current_chunk : string;
  chunk_idx : Z
}.

Definition init : Locals := mkLocals [] EmptyString 0.

(** [{**metadata, "chunk_index": chunk_idx, "type": "code"}] *)
Definition code_metadata (md : Dict) (chunk_idx : Z) : Dict :=
  dict_set (dict_set md "chunk_index" (VInt chunk_idx)) "type" (VStr "code").

(** The guarded [chunks.append(...)], in the loop and after it. *)
Definition flush (doc_id : string) (md : Dict) (st : Locals) : Locals :=
  if Py.truthy (Py.strip (current_chunk st)) then
    mkLocals
      (chunks st ++
         [mkChunk (chunk_id doc_id (chunk_idx st))
            (Py.strip (current_chunk st))
            (code_metadata md (chunk_idx st)) 0 0])
      (current_chunk st) (chunk_idx st + 1)
  else st.

(** Body of [for section in sections]. *)
Definition section_step (self : t) (doc_id : string) (md : Dict)
    (st : Locals) (section : string) : Locals :=
  if Py.len (current_chunk st) + Py.len section >? max_chunk_size self then
    let st1 := flush doc_id md st in
    mkLocals (chunks st1) section (chunk_idx st1)
  else
    mkLocals (chunks st) (current_chunk st +:+ section) (chunk_idx st).

(** [chunk(text, doc_id, metadata)] *)
Definition chunk (self : t) (text doc_id : string)
    (metadata : option Dict) : list Chunk :=
  let md := or_empty metadata in
  let st :=
    fold_left (section_step self doc_id md) (split_definitions text) init in
  chunks (flush doc_id md st).

End CodeAwareChunker.

(** The strategies of [get_chunker]. *)
Inductive ChunkingStrategy : Type :=
| Fixed (c : FixedSizeChunker.t)
| Semantic (c : SemanticChunker.t)
| CodeAware (c : CodeAwareChunker.t).

(** The two ways [get_chunker] fails: the name is unknown, or the
    constructor refuses a keyword argument. *)
Inductive ConfigError : Type :=
| ValueError (msg : string)
| TypeError.

(** [kwargs.get(k, default)] of a constructor's keyword argument. *)
Definition kwarg (kwargs : PyDict Z) (k : string) (default : Z) : Z :=
  match dict_get kwargs k with
  | Some v => v
  | None => default
  end.

(** Every keyword is one of the constructor's parameters. *)
Definition accepts (params : list string) (kwargs : PyDict Z) : bool :=
  forallb (fun k => in_list k params) (map fst kwargs).

(** [get_chunker(strategy, **kwargs)] *)
Definition get_chunker (strategy : string) (kwargs : PyDict Z)
    : ConfigError + ChunkingStrategy :=
  if String.eqb strategy "fixed" then
    if accepts ["chunk_size"; "overlap"] kwargs
    then inr (Fixed (FixedSizeChunker.mk (kwarg kwargs "chunk_size" 512)
                       (kwarg kwargs "overlap" 50)))
    else inl TypeError
  else if String.eqb strategy "semantic" then
    if accepts ["max_chunk_size"; "min_chunk_size"] kwargs
    then inr (Semantic (SemanticChunker.mk
                          (kwarg kwargs "max_chunk_size" 1000)
                          (kwarg kwargs "min_chunk_size" 100)))
    else inl TypeError
  else if String.eqb strategy "code" then
    if accepts ["max_chunk_size"] kwargs
    then inr (CodeAware (CodeAwareChunker.mk
                           (kwarg kwargs "max_chunk_size" 1500)))
    else inl TypeError
  else inl (ValueError ("Unknown chunking strategy: " +:+ strategy)).

(** *** rag/embed.py: the batches and the dimensions *)

(** The batches [texts[i:i + batch_size]] of [OpenAIEmbedding.embed], in the
    order of the loop. *)
Definition embed_batches (texts : list string) : list (list string) :=
  map (fun i => Py.list_slice texts i (i + OpenAIEmbedding.batch_size))
    (Py.range_step (Z.of_nat (length texts)) OpenAIEmbedding.batch_size).

(** [self._dimensions] *)
Definition openai_dimensions : PyDict Z :=
  [("text-embedding-3-small", 1536);
   ("text-embedding-3-large", 3072);
   ("text-embedding-ada-002", 1536)].

(** The property [OpenAIEmbedding.dimensions] *)
Definition dimensions_of (self : OpenAIEmbedding.t) : Z :=
  kwarg openai_dimensions (OpenAIEmbedding.model self) 1536.

(** *** rag/retrieve.py: get_stats *)

(** [get_stats()]; [env_model] is [os.getenv("EMBEDDING_MODEL")]. *)
Definition get_stats (w : World) (env_model : option string)
    (self : RAGRetriever.t) : Dict :=
  [("total_chunks", VInt (Z.of_nat (length (RAGRetriever.chunks self))));
   ("embedding_model", VStr (default "unknown" env_model));
   ("dimensions",
    VInt (match RAGRetriever.index self with
          | Some index => Z.of_nat (d index)
          | None => 0
          end));
   ("vector_path", VStr (path_str w (RAGRetriever.vector_path self)))].

(** *** apps/api/routers/rag.py *)

Module Router.

(** What an endpoint answers: its response, or [HTTPException]. *)
Inductive Http (A : Type) : Type :=
| Response (a : A)
| HTTPException (status_code : Z) (detail : string).
Arguments Response {A} a.
Arguments HTTPException {A} status_code detail.

(** The request bodies, as they are after validation. *)
Record QueryRequest : Type := mkQuery {
  query : string;
  top_k : Z;
  threshold : Qc;
  rerank : bool
}.

Record QueryResponse : Type := mkQueryResponse {
  response_query : string;
  response_chunks : list RetrievalResult.t;
  latency_ms : Z
}.



(** [RetrievedChunk(id=r.id, content=r.content, score=r.score,
    metadata=r.metadata)] *)
Definition retrieved_chunk (r : RetrievalResult.t) : RetrievalResult.t :=
  RetrievalResult.mk (RetrievalResult.id r) (RetrievalResult.content r)
    (RetrievalResult.score r) (RetrievalResult.metadata r).

(** [rag_query]; [str_exn] is [str(e)] and [latency] the measured
    [latency_ms]; [rag_retriever] is [request.app.state.rag_retriever]. *)
Definition rag_query (w : World) (str_exn : Exn -> string) (latency : Z)
    (rag_retriever : option RAGRetriever.t) (body : QueryRequest)
    : Http QueryResponse :=
  match rag_retriever with
  | None =>
      HTTPException 503 "RAG not initialized. Run 'make ingest' first."
  | Some retriever =>
      match RAGRetriever.retrieve w retriever (query body) (top_k body)
              (threshold body) (rerank body) with
      | Ok results =>
          Response
            (mkQueryResponse (query body) (map retrieved_chunk results)
               latency)
      | Raise e => HTTPException 500 (str_exn e)
      end
  end.



(** [stats.get(key, default)] *)
Definition get_or (stats : Dict) (key : string) (default : PyVal) : PyVal :=
  match dict_get stats key with
  | Some v => v
  | None => default
  end.

(** [rag_stats]; a value [None] of the returned dictionary is Python's
    [None]. *)
Definition rag_stats (w : World) (env_model : option string)
    (rag_retriever : option RAGRetriever.t) : PyDict (option PyVal) :=
  match rag_retriever with
  | None =>
      [("status", Some (VStr "not_initialized"));
       ("message", Some (VStr "Run 'make ingest' to initialize"))]
  | Some retriever =>
      let stats := get_stats w env_model retriever in
      [("status", Some (VStr "initialized"));
       ("total_chunks", Some (get_or stats "total_chunks" (VInt 0)));
       ("embedding_model",
        Some (get_or stats "embedding_model" (VStr "unknown")));
       ("vector_dimensions", Some (get_or stats "dimensions" (VInt 0)));
       ("last_updated", dict_get stats "last_updated")]
  end.

End Router.

(** *** Vocabulary of the further properties *)

(** The chunks of [l] carry the ids [doc_id_chunk_0], [doc_id_chunk_1], ...
    in order, and the metadata [mdf 0], [mdf 1], ... *)
Definition numbered (doc_id : string) (mdf : Z -> Dict) (l : list Chunk)
    : Prop :=
  map id l = map (fun i => chunk_id doc_id (Z.of_nat i)) (seq 0 (length l)) /\
  map metadata l = map (fun i => mdf (Z.of_nat i)) (seq 0 (length l)).

(** The paths [load_chunks] may take chunks from: the source itself, as
    [Path(source)] spells it, when it is a file; otherwise the paths of the
    walk below it that hold no excluded pattern, end in an allowed
    extension and are files. *)
Definition eligible (w : World) (source path : string) : Prop :=
  if is_file w (path_str w source) then path = path_str w source
  else
    In path (rglob w (path_str w source)) /\
    existsb (fun pattern => Py.contains path pattern)
      default_exclude_patterns = false /\
    in_list (Py.lower (path_suffix path)) default_extensions = true /\
    is_file w path = true.

(** The chunks so far are numbered, cut out of the text where they say, and
    not empty. *)
Definition fixed_inv (text doc_id : string) (md : Dict)
    (st : FixedSizeChunker.Locals) : Prop :=
  FixedSizeChunker.chunk_idx st = Z.of_nat (length (FixedSizeChunker.chunks st)) /\
  numbered doc_id (fun i => dict_set md "chunk_index" (VInt i)) (FixedSizeChunker.chunks st) /\
  Forall (fun c =>
            content c <> EmptyString /\
            content c = Py.strip (Py.slice text (start_index c) (end_index c)))
    (FixedSizeChunker.chunks st).

(** The windows so far lie inside the text, one after the other, and end
    at or before the next start. *)
Definition windows_inv (text : string) (st : FixedSizeChunker.Locals)
    : Prop :=
  0 <= FixedSizeChunker.start st /\
  Forall (fun c => 0 <= start_index c < end_index c /\
                   end_index c <= Py.len text /\
                   end_index c <= FixedSizeChunker.start st) (FixedSizeChunker.chunks st) /\
  StronglySorted (fun a b => end_index a <= start_index b) (FixedSizeChunker.chunks st).

(** The locals of the semantic and of the code-aware chunker keep their
    chunks numbered, the next number being [chunk_idx]. *)
Definition semantic_inv (doc_id : string) (md : Dict)
    (st : SemanticChunker.Locals) : Prop :=
  SemanticChunker.chunk_idx st
  = Z.of_nat (length (SemanticChunker.chunks st)) /\
  numbered doc_id (fun i => dict_set md "chunk_index" (VInt i))
    (SemanticChunker.chunks st).

Definition code_inv (doc_id : string) (md : Dict)
    (st : CodeAwareChunker.Locals) : Prop :=
  CodeAwareChunker.chunk_idx st
  = Z.of_nat (length (CodeAwareChunker.chunks st)) /\
  numbered doc_id (CodeAwareChunker.code_metadata md)
    (CodeAwareChunker.chunks st) /\
  Forall (fun c => content c <> EmptyString /\
                   start_index c = 0 /\ end_index c = 0)
    (CodeAwareChunker.chunks st).

(** The sections of a code text put together again, as the buffer of the
    code-aware chunker does: without the newlines the split took out. *)
Definition glued (text : string) : string :=
  fold_right String.append EmptyString
    (CodeAwareChunker.split_definitions text).

(** The result [r] shows a chunk record of the retriever: its id (or
    [chunk_<position>] when the record has none), its content and its
    metadata. *)
Definition from_chunk (self : RAGRetriever.t) (r : RetrievalResult.t) : Prop :=
  exists (idx : nat) (chunk : ChunkRecord),
    RAGRetriever.chunks self !! idx = Some chunk /\
    RetrievalResult.id r
    = default ("chunk_" +:+ Py.str_of_int (Z.of_nat idx)) (rec_id chunk) /\
    RetrievalResult.content r = default EmptyString (rec_content chunk) /\
    RetrievalResult.metadata r = default [] (rec_metadata chunk).

(** The chunk [c] was cut from the file at [path]: the file reads as a text
    that is not blank, and [c] carries the document id of the path and the
    path, the size of the text and its own number in its metadata. *)
Definition from_file (w : World) (path : string) (c : Chunk) : Prop :=
  exists (text : string) (i : Z),
    read_text w path = Some text /\
    Py.strip text <> EmptyString /\
    id c = chunk_id (Py.slice (md5_hexdigest w path) 0 12) i /\
    dict_get (metadata c) "source" = Some (VStr path) /\
    dict_get (metadata c) "size" = Some (VInt (Py.len text)) /\
    dict_get (metadata c) "chunk_index" = Some (VInt i).

(** The entries of [result_map] have distinct keys, each the id of its
    value. *)
Definition keyed (result_map : PyDict RetrievalResult.t) : Prop :=
  NoDup (map fst result_map) /\
  Forall (fun entry => RetrievalResult.id (snd entry) = fst entry) result_map.

(** * Properties *)

(** ** Python string facts *)

Lemma len_nonneg (s : string) : 0 <= Py.len s.
Proof. unfold Py.len. lia. Qed.

Lemma rfind_down_range (s sub : string) (lo : Z) (k : nat) :
  Py.rfind_down s sub lo k = -1 \/
  lo <= Py.rfind_down s sub lo k < lo + Z.of_nat k.
Proof.
  induction k as [|k IH]; simpl; [now left|].
  destruct (Py.match_at s sub (lo + Z.of_nat k)); [right; lia|].
  destruct IH as [IH|IH]; [now left | right; lia].
Qed.

(** A match of [rfind] lies inside the string. *)
Lemma rfind_range (s sub : string) (a b : Z) :
  Py.rfind s sub a b = -1 \/
  (0 <= Py.rfind s sub a b /\ Py.rfind s sub a b + Py.len sub <= Py.len s).
Proof.
  unfold Py.rfind.
  pose proof (len_nonneg s) as Hn.
  set (a' := Py.adjust_start (Py.len s) a).
  set (b' := Py.adjust_end (Py.len s) b).
  assert (Ha : 0 <= a').
  { unfold a', Py.adjust_start. destruct (a <? 0) eqn:E; lia. }
  assert (Hb : b' <= Py.len s).
  { unfold b', Py.adjust_end.
    destruct (b >? Py.len s) eqn:E1; [lia|].
    destruct (b <? 0) eqn:E2; lia. }
  destruct (rfind_down_range s sub a' (Z.to_nat (b' - Py.len sub - a' + 1)))
    as [H|H]; [now left|].
  right. lia.
Qed.

(** ** FixedSizeChunker: when the loop ends *)

Section FixedSizeLoop.

Import FixedSizeChunker.

Variable self : t.
Variables text doc_id : string.
Variable md : Dict.

(** The window never ends beyond the text. *)
Lemma body_start_le (st : Locals) :
  start (body self text doc_id md st) + overlap self <= Py.len text.
Proof.
  unfold body. cbn [start].
  pose proof (len_nonneg text) as Hn.
  set (end0 := Z.min (start st + chunk_size self) (Py.len text)).
  destruct (end0 <? Py.len text) eqn:E; [|lia].
  destruct (rfind_range text ". " (start st + chunk_size self - 50) end0)
    as [H|[H1 H2]].
  - rewrite H. destruct (-1 >? start st) eqn:E2; lia.
  - change (Py.len ". ") with 2 in H2.
    destruct (Py.rfind text ". " (start st + chunk_size self - 50) end0
              >? start st); lia.
Qed.

(** The window ends after its start as soon as the size is positive. *)
Lemma body_start_gt (st : Locals) :
  0 < chunk_size self -> start st < Py.len text ->
  start st < start (body self text doc_id md st) + overlap self.
Proof.
  intros Hc Hs. unfold body. cbn [start].
  set (end0 := Z.min (start st + chunk_size self) (Py.len text)).
  destruct (end0 <? Py.len text) eqn:E; [|lia].
  destruct (Py.rfind text ". " (start st + chunk_size self - 50) end0
            >? start st) eqn:E2; lia.
Qed.

(** With a positive overlap the loop condition, once true, stays true. *)
Lemma loop_never_ends (fuel : nat) (st : Locals) :
  0 < overlap self -> start st < Py.len text ->
  loop fuel self text doc_id md st = None.
Proof.
  intros Ho. revert st.
  induction fuel as [|fuel IH]; intros st Hs; simpl;
    destruct (start st <? Py.len text) eqn:E; try lia; [reflexivity|].
  apply IH. pose proof (body_start_le st). lia.
Qed.

(** Without overlap the start advances, and the loop ends. *)
Lemma loop_ends_without_overlap (fuel : nat) (st : Locals) :
  overlap self = 0 -> 0 < chunk_size self ->
  (Z.to_nat (Py.len text - start st) <= fuel)%nat ->
  exists l, loop fuel self text doc_id md st = Some l.
Proof.
  intros Ho Hc. revert st.
  induction fuel as [|fuel IH]; intros st Hf; simpl;
    destruct (start st <? Py.len text) eqn:E; eauto; try lia.
  apply IH. pose proof (body_start_gt st Hc). lia.
Qed.

End FixedSizeLoop.

(** Every non-empty text makes [chunk] loop for ever when the overlap is
    positive, whatever the chunk size. *)
Lemma FixedSizeChunker_diverges (self : FixedSizeChunker.t)
    (text doc_id : string) (metadata : option Dict) (fuel : nat) :
  0 < FixedSizeChunker.overlap self -> text <> EmptyString ->
  FixedSizeChunker.chunk fuel self text doc_id metadata = None.
Proof.
  intros Ho Ht. unfold FixedSizeChunker.chunk.
  apply loop_never_ends; [exact Ho|].
  destruct text; [congruence|]. unfold Py.len. simpl. lia.
Qed.

(** Without overlap [chunk] returns, for every text. *)
Lemma FixedSizeChunker_terminates_without_overlap
    (self : FixedSizeChunker.t) (text doc_id : string)
    (metadata : option Dict) :
  FixedSizeChunker.overlap self = 0 -> 0 < FixedSizeChunker.chunk_size self ->
  exists l,
    FixedSizeChunker.chunk (String.length text) self text doc_id metadata
    = Some l.
Proof.
  intros Ho Hc. unfold FixedSizeChunker.chunk.
  apply loop_ends_without_overlap; auto.
  unfold FixedSizeChunker.init, Py.len. simpl. lia.
Qed.

(** C2 (as the code behaves): with the default configuration, chunk size
    512 and overlap 50, which meets [0 <= overlap < chunk_size], the call of
    [chunk] on the text "hello" never returns: no number of iterations
    brings the loop to its end. *)
Theorem C2_fixed_chunker_default_loops_forever (fuel : nat) :
  FixedSizeChunker.chunk fuel FixedSizeChunker.default "hello" "doc" None
  = None.
Proof.
  apply FixedSizeChunker_diverges; [reflexivity | discriminate].
Qed.

(** ** SemanticChunker: the final buffer *)

(** C3 (as the code behaves): on the text "hello" the default chunker ends
    its loop with the buffer holding "hello" behind a newline, six characters
    against [min_chunk_size = 100]; the guard of the final flush drops it and
    no chunk comes out, so the final buffer, which holds text, is not
    flushed. *)
Theorem C3_short_final_buffer_dropped :
  Py.strip
    (SemanticChunker.current_chunk
       (SemanticChunker.after_sections SemanticChunker.default "hello" "doc"
          (or_empty None)))
  = "hello" /\
  SemanticChunker.chunk SemanticChunker.default "hello" "doc" None = [] /\
  ~ final_buffer_always_flushed SemanticChunker.default "hello" "doc" None.
Proof.
  split; [vm_compute; reflexivity|]. split; [vm_compute; reflexivity|].
  unfold final_buffer_always_flushed. intros H.
  destruct H as [c [Hlast _]].
  - vm_compute. discriminate.
  - vm_compute in Hlast. discriminate.
Qed.

Section SemanticFinalFlush.

Import SemanticChunker.

Variable self : t.
Variables text doc_id : string.
Variable metadata : option Dict.

Let st := after_sections self text doc_id (or_empty metadata).

(** What the guard of the final flush does: the buffer is flushed exactly
    when its length, before stripping, reaches [min_chunk_size]: then the
    chunk of its stripped content is the last element of the returned list,
    after the chunks of the loops; a shorter final buffer is dropped,
    whatever it holds, and the chunks of the loops are returned alone. *)
Lemma SemanticChunker_final_flush_guard :
  (min_chunk_size self <= Py.len (current_chunk st) ->
   chunk self text doc_id metadata
   = chunks st ++ [last_chunk text doc_id (or_empty metadata) st] /\
   last (chunk self text doc_id metadata)
   = Some (last_chunk text doc_id (or_empty metadata) st) /\
   content (last_chunk text doc_id (or_empty metadata) st)
   = Py.strip (current_chunk st)) /\
  (Py.len (current_chunk st) < min_chunk_size self ->
   chunk self text doc_id metadata = chunks st).
Proof.
  unfold chunk. fold st. split; intros H.
  - destruct (Py.len (current_chunk st) >=? min_chunk_size self) eqn:E;
      [|lia].
    repeat split. apply last_snoc.
  - destruct (Py.len (current_chunk st) >=? min_chunk_size self) eqn:E;
      [lia|reflexivity].
Qed.

(** Every run that ends with a buffer of text shorter than [min_chunk_size]
    loses that text: the claim fails on it. *)
Lemma SemanticChunker_short_tail_lost :
  Py.len (current_chunk st) < min_chunk_size self ->
  Py.strip (current_chunk st) <> EmptyString ->
  Forall (fun c => content c <> Py.strip (current_chunk st)) (chunks st) ->
  ~ final_buffer_always_flushed self text doc_id metadata.
Proof.
  intros Hshort Htext Hother Hclaim.
  destruct (Hclaim Htext) as (c & Hlast & Hc).
  destruct SemanticChunker_final_flush_guard as [_ Hdrop].
  fold st in Hlast. rewrite (Hdrop Hshort) in Hlast.
  rewrite Forall_forall in Hother. apply (Hother c); [|exact Hc].
  apply last_Some in Hlast as [l' ->]. apply elem_of_app. right. left.
Qed.

End SemanticFinalFlush.

(** A buffer of six characters against a minimum of three: flushed. *)
Example SemanticChunker_final_flush_at_min_3 :
  last (SemanticChunker.chunk (SemanticChunker.mk 10 3) "hello" "doc" None)
  = Some (mkChunk "doc_chunk_0" "hello" [("chunk_index", VInt 0)] 0 5).
Proof.
  refine (proj1 (proj2 (proj1
    (SemanticChunker_final_flush_guard
       (SemanticChunker.mk 10 3) "hello" "doc" None) _))).
  vm_compute. discriminate.
Qed.

(** ** OpenAIEmbedding.embed: the batches put together *)

Lemma slice_index_nonneg (n i : Z) : 0 <= n -> 0 <= Py.slice_index n i <= n.
Proof. intros Hn. unfold Py.slice_index. destruct (i <? 0) eqn:E; lia. Qed.

(** A batch that starts inside the list. *)
Lemma list_slice_batch {A} (l : list A) (i b : nat) :
  (i < length l)%nat ->
  Py.list_slice l (Z.of_nat i) (Z.of_nat i + Z.of_nat b) = take b (drop i l).
Proof.
  intros Hi. unfold Py.list_slice, Py.slice_index.
  destruct (Z.of_nat i <? 0) eqn:E1; [exfalso; lia|].
  destruct (Z.of_nat i + Z.of_nat b <? 0) eqn:E2; [exfalso; lia|].
  replace (Z.to_nat (Z.min (Z.of_nat i) (Z.of_nat (length l)))) with i by lia.
  replace (Z.to_nat
             (Z.min (Z.of_nat i + Z.of_nat b) (Z.of_nat (length l))
              - Z.min (Z.of_nat i) (Z.of_nat (length l))))
    with (Nat.min b (length (drop i l))) by (rewrite length_drop; lia).
  rewrite <- take_take. f_equal. apply take_ge. reflexivity.
Qed.

Section Batching.

Variable A : Type.
Variable f : list string -> list A.
Variable e : string -> A.
Variable b : nat.
Hypothesis b_pos : (0 < b)%nat.
Hypothesis f_batch :
  forall batch, batch <> [] -> (length batch <= b)%nat -> f batch = map e batch.

Variable texts : list string.

Local Abbreviation batch_step :=
  (fun (acc : list A) (i : Z) =>
     acc ++ f (Py.list_slice texts i (i + Z.of_nat b))).

(** After [m] batches that all start inside the list, the first [m * b]
    texts are embedded, in order. *)
Lemma fold_batches (m : nat) :
  (m = 0 \/ (m - 1) * b < length texts)%nat ->
  fold_left batch_step
    (map (fun j => Z.of_nat j * Z.of_nat b) (seq 0 m)) []
  = map e (take (m * b) texts).
Proof.
  induction m as [|m IH]; intros Hm.
  - reflexivity.
  - rewrite seq_S, map_app, fold_left_app. simpl.
    assert (Hlt : (m * b < length texts)%nat) by (destruct Hm; [lia|nia]).
    rewrite IH by (destruct m; [now left | right; nia]).
    replace (Z.of_nat m * Z.of_nat b) with (Z.of_nat (m * b)) by lia.
    rewrite list_slice_batch by exact Hlt.
    rewrite f_batch.
    + rewrite <- map_app, take_take_drop. f_equal. f_equal. lia.
    + intros Hnil. apply take_nil_inv in Hnil. destruct Hnil as [Hnil|Hnil].
      * lia.
      * apply drop_nil_inv in Hnil. lia.
    + rewrite length_take. lia.
Qed.

End Batching.

Lemma range_step_count (n b : nat) :
  (0 < b)%nat ->
  let m := Z.to_nat ((Z.of_nat n + Z.of_nat b - 1) / Z.of_nat b) in
  (m = 0 \/ (m - 1) * b < n)%nat /\ (n <= m * b)%nat.
Proof.
  intros Hb m.
  assert (Hq : 0 <= (Z.of_nat n + Z.of_nat b - 1) / Z.of_nat b)
    by (apply Z.div_pos; lia).
  pose proof (Z.mul_div_le (Z.of_nat n + Z.of_nat b - 1) (Z.of_nat b)) as H1.
  pose proof (Z.mul_succ_div_gt (Z.of_nat n + Z.of_nat b - 1) (Z.of_nat b))
    as H2.
  assert (Hm : Z.of_nat m = (Z.of_nat n + Z.of_nat b - 1) / Z.of_nat b)
    by (unfold m; lia).
  split.
  - destruct m as [|m']; [now left|right]. nia.
  - nia.
Qed.

(** C7: when the provider answers every batch of one to a hundred texts with
    one embedding per text, in order, [embed(texts)] is the list of the
    embeddings of the texts, in order: it has the length of [texts] and its
    i-th vector is the embedding of [texts[i]], for every number of texts,
    below or above the batch size. *)
Theorem C7_embed_preserves_length_and_order (self : OpenAIEmbedding.t)
    (e : string -> Vec) (texts : list string) :
  (forall batch,
      batch <> [] -> (length batch <= 100)%nat ->
      OpenAIEmbedding.create self (OpenAIEmbedding.model self) batch
      = map e batch) ->
  OpenAIEmbedding.embed self texts = map e texts /\
  length (OpenAIEmbedding.embed self texts) = length texts /\
  (forall i, OpenAIEmbedding.embed self texts !! i = e <$> texts !! i).
Proof.
  intros Hcreate.
  assert (Heq : OpenAIEmbedding.embed self texts = map e texts).
  { unfold OpenAIEmbedding.embed, Py.range_step, OpenAIEmbedding.batch_size.
    destruct (range_step_count (length texts) 100 ltac:(lia)) as [H1 H2].
    change 100 with (Z.of_nat 100).
    pose proof (fold_batches Vec
      (OpenAIEmbedding.create self (OpenAIEmbedding.model self)) e 100
      ltac:(lia) Hcreate texts _ H1) as Hfold.
    rewrite Hfold.
    f_equal. apply take_ge. exact H2. }
  rewrite Heq. split; [reflexivity|]. split.
  - apply length_map.
  - intros i. apply list_lookup_fmap.
Qed.

(** The batches of 250 texts: 100, 100 and 50. *)
Lemma C7_embed_250_texts_witness :
  OpenAIEmbedding.embed Demo.openai Demo.numerals
  = map Demo.embed_text Demo.numerals.
Proof.
  apply (C7_embed_preserves_length_and_order Demo.openai Demo.embed_text).
  intros batch _ _. reflexivity.
Defined.

(** ** Ingestion *)

Lemma append_inj_l (p x y : string) : p +:+ x = p +:+ y -> x = y.
Proof. induction p as [|c p IH]; simpl; intros H; [exact H|]. injection H. auto. Qed.

Lemma path_join_inj (p a b : string) : path_join p a = path_join p b -> a = b.
Proof.
  unfold path_join. intros H. apply append_inj_l in H.
  apply (append_inj_l "/") in H. exact H.
Qed.

Lemma snapshot_paths_distinct (p : string) :
  index_file p <> chunks_file p /\ index_file p <> metadata_file p /\
  chunks_file p <> metadata_file p.
Proof.
  unfold index_file, chunks_file, metadata_file.
  repeat split; intros H; apply path_join_inj in H; discriminate.
Qed.

Section IngestFrame.

Variable w : World.

(** Reading the source writes no file and calls no embedding. *)
Lemma ingest_file_frame file_path chunker file_type st :
  files (snd (ingest_file w file_path chunker file_type st)) = files st /\
  embed_calls (snd (ingest_file w file_path chunker file_type st))
  = embed_calls st.
Proof.
  unfold ingest_file. destruct (read_text w file_path); [|auto].
  destruct (negb _); auto.
Qed.

Lemma ingest_directory_frame dir_path chunker exts excl st :
  files (snd (ingest_directory w dir_path chunker exts excl st)) = files st /\
  embed_calls (snd (ingest_directory w dir_path chunker exts excl st))
  = embed_calls st.
Proof.
  unfold ingest_directory.
  generalize (@nil Chunk) as acc. revert st.
  induction (rglob w dir_path) as [|file_path paths IH]; intros st acc;
    [auto|]. cbn [fold_left].
  destruct (existsb _ _); [apply IH|].
  destruct (negb _); [apply IH|].
  destruct (is_file w file_path); [|apply IH].
  pose proof (ingest_file_frame file_path chunker "auto" st) as [Hf He].
  destruct (ingest_file w file_path chunker "auto" st) as [cs st'].
  simpl in Hf, He. rewrite <- Hf, <- He. apply IH.
Qed.

Lemma load_chunks_frame source chunk_size st :
  files (snd (load_chunks w source chunk_size st)) = files st /\
  embed_calls (snd (load_chunks w source chunk_size st)) = embed_calls st.
Proof.
  unfold load_chunks. destruct (is_file w (path_str w source)).
  - apply ingest_file_frame.
  - apply ingest_directory_frame.
Qed.

End IngestFrame.

(** C8: when the source yields no chunk, [ingest_documents] returns, without
    raising, the result with zero documents, zero chunks and the error list
    ["No documents found"]; no file is written and nothing is embedded. *)
Theorem C8_empty_corpus_is_reported (w : World) (source : string)
    (chunk_size chunk_overlap : Z) (output_path : string) (st : State) :
  fst (load_chunks w source chunk_size st) = [] ->
  fst (ingest_documents w source chunk_size chunk_overlap output_path st)
  = Ok (mkResult 0 0 ["No documents found"]) /\
  files (snd (ingest_documents w source chunk_size chunk_overlap output_path st))
  = files st /\
  embed_calls
    (snd (ingest_documents w source chunk_size chunk_overlap output_path st))
  = embed_calls st.
Proof.
  intros Hempty. unfold ingest_documents.
  pose proof (load_chunks_frame w source chunk_size st) as [Hf He].
  destruct (load_chunks w source chunk_size st) as [cs st'].
  simpl in Hempty. subst cs. simpl in *. auto.
Qed.

(** A directory without files, and a file shorter than the minimum chunk. *)
Lemma C8_empty_corpus_witness :
  fst (ingest_documents Demo.world "nowhere" 512 50 "out" Demo.empty_state)
  = Ok (mkResult 0 0 ["No documents found"]) /\
  fst (ingest_documents Demo.world "docs/notes.txt" 512 50 "out"
         Demo.empty_state)
  = Ok (mkResult 0 0 ["No documents found"]).
Proof.
  split.
  - apply (C8_empty_corpus_is_reported Demo.world "nowhere" 512 50 "out"
             Demo.empty_state).
    vm_compute. reflexivity.
  - apply (C8_empty_corpus_is_reported Demo.world "docs/notes.txt" 512 50
             "out" Demo.empty_state).
    vm_compute. reflexivity.
Defined.

(** C9: when no index file exists under [vector_path], the construction of
    the retriever succeeds and leaves it unloaded (no index, no chunks, no
    embedding model), and every later [retrieve], plain or hybrid, raises
    the error "Index not loaded" and returns no result. *)
Theorem C9_missing_index_not_loaded (w : World) (fs : gmap string File)
    (vector_path : string) :
  fs !! index_file vector_path = None ->
  exists self,
    RAGRetriever.__init__ w fs vector_path = Ok self /\
    RAGRetriever.index self = None /\
    RAGRetriever.chunks self = [] /\
    RAGRetriever.embedding_model self = None /\
    (forall query top_k threshold rerank,
        RAGRetriever.retrieve w self query top_k threshold rerank
        = Raise (RuntimeError "Index not loaded")) /\
    (forall query top_k threshold rerank semantic_weight,
        HybridRetriever.retrieve w self query top_k threshold rerank
          semantic_weight
        = Raise (RuntimeError "Index not loaded")).
Proof.
  intros Hmissing.
  exists (RAGRetriever.mk vector_path None [] None).
  unfold RAGRetriever.__init__, RAGRetriever._load_index.
  cbn [RAGRetriever.vector_path]. rewrite Hmissing.
  repeat split.
Qed.

Lemma C9_missing_index_witness :
  exists self,
    RAGRetriever.__init__ Demo.world ∅ "vectors" = Ok self /\
    RAGRetriever.index self = None /\
    RAGRetriever.chunks self = [] /\
    RAGRetriever.embedding_model self = None /\
    (forall query top_k threshold rerank,
        RAGRetriever.retrieve Demo.world self query top_k threshold rerank
        = Raise (RuntimeError "Index not loaded")) /\
    (forall query top_k threshold rerank semantic_weight,
        HybridRetriever.retrieve Demo.world self query top_k threshold rerank
          semantic_weight
        = Raise (RuntimeError "Index not loaded")).
Proof.
  apply (C9_missing_index_not_loaded Demo.world ∅ "vectors").
  reflexivity.
Defined.

(** ** The snapshot of an ingestion run *)

Section Snapshot.

Variable w : World.
Variables source output_path : string.
Variables chunk_size chunk_overlap : Z.
Variable st : State.

Let loaded := load_chunks w source chunk_size st.
Let run := ingest_documents w source chunk_size chunk_overlap output_path st.

(** The three files of a run that found chunks and got one row at least
    from the embedding model. *)
Lemma ingest_documents_snapshot (row : Vec) (rows : list Vec) :
  fst loaded <> [] ->
  embed w (map content (fst loaded)) = row :: rows ->
  fst run
  = Ok (mkResult
          (Z.of_nat
             (length
                (remove_dups
                   (map (fun c => dict_get (metadata c) "source")
                      (fst loaded)))))
          (Z.of_nat (length (fst loaded))) []) /\
  files (snd run) !! index_file output_path
  = Some (IndexFile
            (mkIndex (length row) (astype_float32 w (row :: rows)))) /\
  files (snd run) !! chunks_file output_path
  = Some (ChunksFile (map chunk_record (fst loaded))) /\
  files (snd run) !! metadata_file output_path
  = Some (ManifestFile
            (mkManifest (utcnow w (clock (snd loaded))) source chunk_size
               chunk_overlap (Z.of_nat (length (fst loaded)))
               (EMBEDDING_MODEL w) (length row))) /\
  (forall p,
      p <> index_file output_path -> p <> chunks_file output_path ->
      p <> metadata_file output_path ->
      files (snd run) !! p = files st !! p) /\
  clock (snd run) = S (clock (snd loaded)) /\
  embed_calls (snd run) = embed_calls st ++ [map content (fst loaded)].
Proof.
  intros Hne Hrows. subst run. unfold ingest_documents.
  pose proof (load_chunks_frame w source chunk_size st) as [Hf He].
  subst loaded.
  destruct (load_chunks w source chunk_size st) as [cs st'].
  cbn [fst snd] in *.
  destruct cs as [|c cs]; [congruence|].
  rewrite Hrows.
  destruct (snapshot_paths_distinct output_path) as (H1 & H2 & H3).
  cbn [fst snd files clock embed_calls write_file tick log_embed].
  repeat split.
  - rewrite lookup_insert_ne by congruence.
    rewrite lookup_insert_ne by congruence.
    apply lookup_insert_eq.
  - rewrite lookup_insert_ne by congruence. apply lookup_insert_eq.
  - apply lookup_insert_eq.
  - intros p Hp1 Hp2 Hp3.
    rewrite !lookup_insert_ne by congruence. now rewrite Hf.
  - now rewrite He.
Qed.

End Snapshot.

(** C1: under an embedding model that returns one vector per text, in
    order, every run of [ingest_documents] that finds at least one chunk
    leaves a snapshot of three files in which the index holds as many
    vectors as [chunks.json] holds records, that number is the manifest's
    [total_chunks], and the vector at position [i] is the embedding (cast
    to float32) of the content of the record at position [i]. *)
Theorem C1_snapshot_vectors_aligned_with_chunks (w : World)
    (e : string -> Vec) (source : string) (chunk_size chunk_overlap : Z)
    (output_path : string) (st : State) :
  (forall texts, embed w texts = map e texts) ->
  fst (load_chunks w source chunk_size st) <> [] ->
  let run := ingest_documents w source chunk_size chunk_overlap output_path st in
  exists index records manifest,
    files (snd run) !! index_file output_path = Some (IndexFile index) /\
    files (snd run) !! chunks_file output_path = Some (ChunksFile records) /\
    files (snd run) !! metadata_file output_path
    = Some (ManifestFile manifest) /\
    length (xb index) = length records /\
    Z.of_nat (length records) = total_chunks manifest /\
    (forall i r,
        records !! i = Some r ->
        exists c,
          rec_content r = Some c /\
          xb index !! i = Some (map (float32 w) (e c))) /\
    exists n, fst run = Ok (mkResult n (total_chunks manifest) []).
Proof.
  intros Hembed Hne run.
  destruct (fst (load_chunks w source chunk_size st)) as [|c cs] eqn:Hcs;
    [congruence|].
  pose proof (ingest_documents_snapshot w source output_path chunk_size
                chunk_overlap st (e (content c)) (map e (map content cs)))
    as Hsnap.
  rewrite Hcs in Hsnap.
  destruct Hsnap as (Hres & Hi & Hc & Hm & _); [congruence| |].
  { rewrite Hembed. reflexivity. }
  eexists _, _, _. split; [exact Hi|]. split; [exact Hc|].
  split; [exact Hm|]. cbn [xb total_chunks].
  split; [|split; [|split]].
  - unfold astype_float32. rewrite !length_map.
    change (e (content c) :: map e (map content cs))
      with (map e (map content (c :: cs))).
    now rewrite !length_map.
  - now rewrite length_map.
  - intros i r Hr.
    rewrite list_lookup_fmap in Hr.
    destruct ((c :: cs) !! i) as [ci|] eqn:Hci; [|discriminate].
    injection Hr as <-. exists (content ci). split; [reflexivity|].
    unfold astype_float32.
    change (e (content c) :: map e (map content cs))
      with (map e (map content (c :: cs))).
    rewrite !list_lookup_fmap, Hci. reflexivity.
  - eexists. exact Hres.
Qed.

(** The run over the demo tree: one chunk, one vector. *)
Lemma C1_snapshot_alignment_witness :
  let run := ingest_documents Demo.world "docs" 512 50 "out" Demo.empty_state in
  exists index records manifest,
    files (snd run) !! index_file "out" = Some (IndexFile index) /\
    files (snd run) !! chunks_file "out" = Some (ChunksFile records) /\
    files (snd run) !! metadata_file "out" = Some (ManifestFile manifest) /\
    length (xb index) = length records /\
    Z.of_nat (length records) = total_chunks manifest /\
    (forall i r,
        records !! i = Some r ->
        exists c,
          rec_content r = Some c /\
          xb index !! i = Some (map (float32 Demo.world) (Demo.embed_text c))) /\
    exists n, fst run = Ok (mkResult n (total_chunks manifest) []).
Proof.
  apply (C1_snapshot_vectors_aligned_with_chunks Demo.world Demo.embed_text
           "docs" 512 50 "out" Demo.empty_state).
  - intros texts. reflexivity.
  - vm_compute. discriminate.
Defined.

(** C10: two runs of [ingest_documents] that differ in [chunk_overlap] alone
    return the same result, hand the same texts to the embedding model, read
    the clock as often, and leave the same files, the index and the chunk
    records among them, but for the manifest, which is the same up to its
    [chunk_overlap] field. The chunks themselves come from [load_chunks],
    which takes the chunk size and no overlap. *)
Theorem C10_chunk_overlap_only_in_manifest (w : World) (source : string)
    (chunk_size overlap1 overlap2 : Z) (output_path : string) (st : State) :
  let run1 := ingest_documents w source chunk_size overlap1 output_path st in
  let run2 := ingest_documents w source chunk_size overlap2 output_path st in
  fst run1 = fst run2 /\
  embed_calls (snd run1) = embed_calls (snd run2) /\
  clock (snd run1) = clock (snd run2) /\
  files (snd run1) !! index_file output_path
  = files (snd run2) !! index_file output_path /\
  files (snd run1) !! chunks_file output_path
  = files (snd run2) !! chunks_file output_path /\
  (forall p,
      p <> metadata_file output_path ->
      files (snd run1) !! p = files (snd run2) !! p) /\
  erase_overlap <$> files (snd run1) !! metadata_file output_path
  = erase_overlap <$> files (snd run2) !! metadata_file output_path.
Proof.
  intros run1 run2.
  assert (Hrest :
    fst run1 = fst run2 /\
    embed_calls (snd run1) = embed_calls (snd run2) /\
    clock (snd run1) = clock (snd run2) /\
    (forall p,
        p <> metadata_file output_path ->
        files (snd run1) !! p = files (snd run2) !! p) /\
    erase_overlap <$> files (snd run1) !! metadata_file output_path
    = erase_overlap <$> files (snd run2) !! metadata_file output_path).
  { subst run1 run2. unfold ingest_documents.
    destruct (load_chunks w source chunk_size st) as [cs st'].
    destruct cs as [|c cs]; [repeat split|].
    destruct (embed w (map content (c :: cs))) as [|row rows];
      [repeat split|].
    cbn [fst snd files clock embed_calls write_file tick log_embed].
    repeat split.
    - intros p Hp. now rewrite !(lookup_insert_ne _ (metadata_file _)).
    - now rewrite !lookup_insert_eq. }
  destruct Hrest as (H1 & H2 & H3 & H4 & H5).
  destruct (snapshot_paths_distinct output_path) as (_ & Hi & Hc).
  repeat split; auto.
Qed.

(** ** RAGRetriever.retrieve: threshold and top-k *)

Lemma length_list_upto {A} (l : list A) (k : Z) :
  Z.of_nat (length (Py.list_upto l k))
  = Py.slice_index (Z.of_nat (length l)) k.
Proof.
  unfold Py.list_upto. rewrite length_take.
  pose proof (slice_index_nonneg (Z.of_nat (length l)) k ltac:(lia)). lia.
Qed.

Lemma list_upto_le {A} (l : list A) (k : Z) :
  0 <= k -> Z.of_nat (length (Py.list_upto l k)) <= k.
Proof.
  intros Hk. rewrite length_list_upto. unfold Py.slice_index.
  destruct (k <? 0) eqn:E; lia.
Qed.

Lemma list_upto_mono {A B} (l1 : list A) (l2 : list B) (k : Z) :
  (length l2 <= length l1)%nat ->
  (length (Py.list_upto l2 k) <= length (Py.list_upto l1 k))%nat.
Proof.
  intros H.
  pose proof (length_list_upto l1 k). pose proof (length_list_upto l2 k).
  unfold Py.slice_index in *. destruct (k <? 0) eqn:E; lia.
Qed.

Lemma list_upto_all {A} (l : list A) (k : Z) :
  Z.of_nat (length l) <= k -> Py.list_upto l k = l.
Proof.
  intros H. unfold Py.list_upto, Py.slice_index.
  destruct (k <? 0) eqn:E; [lia|]. apply take_ge. lia.
Qed.

Section Retrieve.

Import RAGRetriever.

Variable w : World.
Variable self : t.

(** What [retrieve] returns in terms of the pairs found by the search. *)
Lemma retrieve_Ok query top_k threshold rerank results :
  retrieve w self query top_k threshold rerank = Ok results ->
  let found := omap (candidate self threshold)
                 (hits w self query top_k rerank) in
  results
  = Py.list_upto
      (if rerank && (Z.of_nat (length found) >? top_k)
       then _rerank query found top_k else found)
      top_k.
Proof.
  unfold retrieve, hits.
  destruct (index self); [|discriminate].
  destruct (embedding_model self) as [model|]; [|discriminate].
  destruct (model [query]); [discriminate|].
  intros H. injection H as <-. reflexivity.
Qed.

(** Whether [retrieve] returns does not depend on the threshold. *)
Lemma retrieve_Ok_any_threshold query top_k t1 t2 rerank results :
  retrieve w self query top_k t1 rerank = Ok results ->
  exists results', retrieve w self query top_k t2 rerank = Ok results'.
Proof.
  unfold retrieve.
  destruct (index self); [|discriminate].
  destruct (embedding_model self) as [model|]; [|discriminate].
  destruct (model [query]); [discriminate|]. eauto.
Qed.

Lemma candidate_score threshold pair r :
  candidate self threshold pair = Some r ->
  (threshold <= RetrievalResult.score r)%Qc.
Proof.
  unfold candidate. destruct pair as [dist idx].
  destruct (_ || _); [discriminate|].
  destruct (chunks self !! Z.to_nat idx); [|discriminate].
  destruct (bool_decide _) eqn:E; [|discriminate].
  intros H. injection H as <-. apply bool_decide_eq_true in E. exact E.
Qed.

(** A pair kept under a threshold is kept under every lower one. *)
Lemma candidate_lower t1 t2 pair r :
  (t1 <= t2)%Qc ->
  candidate self t2 pair = Some r -> candidate self t1 pair = Some r.
Proof.
  intros Hle. unfold candidate. destruct pair as [dist idx].
  destruct (_ || _); [discriminate|].
  destruct (chunks self !! Z.to_nat idx); [|discriminate].
  destruct (bool_decide (t2 <= _)%Qc) eqn:E; [|discriminate].
  apply bool_decide_eq_true in E.
  rewrite bool_decide_eq_true_2; [auto|].
  eapply Qcle_trans; eauto.
Qed.

Lemma candidates_lower_length t1 t2 (found : list (Qc * Z)) :
  (t1 <= t2)%Qc ->
  (length (omap (candidate self t2) found)
   <= length (omap (candidate self t1) found))%nat.
Proof.
  intros Hle. induction found as [|pair found IH]; [reflexivity|].
  cbn [omap list_omap].
  destruct (candidate self t2 pair) as [r|] eqn:E2.
  - rewrite (candidate_lower t1 t2 pair r Hle E2). simpl. lia.
  - destruct (candidate self t1 pair); simpl; lia.
Qed.

Lemma candidates_score threshold (found : list (Qc * Z)) :
  Forall (fun r => (threshold <= RetrievalResult.score r)%Qc)
    (omap (candidate self threshold) found).
Proof.
  apply Forall_forall. intros r Hr.
  apply list_elem_of_omap in Hr.
  destruct Hr as (pair & _ & Hc). eapply candidate_score; eauto.
Qed.

(** In-range pairs whose similarity meets the threshold all give a
    result. *)
Lemma candidates_all_kept threshold (found : list (Qc * Z)) :
  Forall (fun pair => in_range self pair = true ->
                      (threshold <= similarity (fst pair))%Qc) found ->
  length (omap (candidate self threshold) found)
  = length (List.filter (in_range self) found).
Proof.
  induction 1 as [|pair found Hp _ IH]; [reflexivity|].
  cbn [omap list_omap List.filter]. unfold candidate at 1, in_range at 1.
  destruct pair as [dist idx]. cbn [fst snd] in *.
  unfold in_range in Hp. cbn [snd] in Hp.
  destruct ((idx <? 0) || (idx >=? Z.of_nat (length (chunks self)))) eqn:E;
    cbn [negb] in *; [exact IH|].
  destruct (lookup_lt_is_Some_2 (chunks self) (Z.to_nat idx)) as [chunk Hc];
    [lia|].
  rewrite Hc, bool_decide_eq_true_2 by auto. simpl. now rewrite IH.
Qed.

End Retrieve.

(** C5: for a fixed retriever, query and [top_k], without rerank, when
    [retrieve] returns under a threshold [t1] it returns under every
    threshold [t2 >= t1], with at most as many results, each of similarity
    at least [t2]. *)
Theorem C5_threshold_monotone (w : World) (self : RAGRetriever.t)
    (query : string) (top_k : Z) (t1 t2 : Qc)
    (results1 : list RetrievalResult.t) :
  (t1 <= t2)%Qc ->
  RAGRetriever.retrieve w self query top_k t1 false = Ok results1 ->
  exists results2,
    RAGRetriever.retrieve w self query top_k t2 false = Ok results2 /\
    (length results2 <= length results1)%nat /\
    Forall (fun r => (t2 <= RetrievalResult.score r)%Qc) results2.
Proof.
  intros Hle H1.
  destruct (retrieve_Ok_any_threshold w self query top_k t1 t2 false _ H1)
    as [results2 H2].
  exists results2. split; [exact H2|].
  apply retrieve_Ok in H1. apply retrieve_Ok in H2.
  cbn [andb] in H1, H2. subst results1 results2. split.
  - apply list_upto_mono, candidates_lower_length, Hle.
  - unfold Py.list_upto. apply Forall_take, candidates_score.
Qed.

(** Thresholds 0 and 1/10 over the three demo chunks. *)
Lemma C5_threshold_monotone_witness :
  exists results2,
    RAGRetriever.retrieve Demo.world Demo.retriever "beta zz" 5
      (Q2Qc (1 # 10)) false = Ok results2 /\
    (length results2
     <= length
          match RAGRetriever.retrieve Demo.world Demo.retriever "beta zz" 5
                  0%Qc false with
          | Ok l => l
          | Raise _ => []
          end)%nat /\
    Forall (fun r => (Q2Qc (1 # 10) <= RetrievalResult.score r)%Qc) results2.
Proof.
  apply (C5_threshold_monotone Demo.world Demo.retriever "beta zz" 5
           0%Qc (Q2Qc (1 # 10))).
  - vm_compute. discriminate.
  - vm_compute. reflexivity.
Defined.

(** C6: for [top_k >= 1], whatever the threshold and the rerank flag, a call
    of [retrieve] that returns gives at most [top_k] results. When moreover
    the retriever holds [n < top_k] chunks, the search reports each of their
    positions once (and no other position in range), and the similarity of
    each meets the threshold, exactly [n] results are returned. *)
Theorem C6_top_k_bound (w : World) (self : RAGRetriever.t) (query : string)
    (top_k : Z) (threshold : Qc) (rerank : bool)
    (results : list RetrievalResult.t) :
  1 <= top_k ->
  RAGRetriever.retrieve w self query top_k threshold rerank = Ok results ->
  Z.of_nat (length results) <= top_k /\
  (let found := RAGRetriever.hits w self query top_k rerank in
   let n := length (RAGRetriever.chunks self) in
   Z.of_nat n < top_k ->
   Permutation (map snd (List.filter (RAGRetriever.in_range self) found))
     (map Z.of_nat (seq 0 n)) ->
   Forall (fun pair =>
             RAGRetriever.in_range self pair = true ->
             (threshold <= RAGRetriever.similarity (fst pair))%Qc) found ->
   length results = n).
Proof.
  intros Hk Hret. apply retrieve_Ok in Hret. cbv zeta in Hret. split.
  - subst results. apply list_upto_le. lia.
  - intros found n Hn Hperm Hthr.
    assert (Hlen : length (omap (RAGRetriever.candidate self threshold) found)
                   = n).
    { rewrite (candidates_all_kept self threshold found Hthr).
      apply Permutation_length in Hperm.
      rewrite !length_map, length_seq in Hperm. exact Hperm. }
    fold found in Hret. rewrite Hlen in Hret.
    replace (Z.of_nat n >? top_k) with false in Hret by lia.
    rewrite andb_false_r in Hret. subst results.
    rewrite list_upto_all; [exact Hlen | lia].
Qed.

(** An index of two chunks asked for five results returns exactly two, with
    and without rerank. *)
Lemma C6_two_chunks_top_5_witness :
  length
    match RAGRetriever.retrieve Demo.world Demo.retriever2 "alpha" 5 0%Qc true
    with Ok l => l | Raise _ => [] end
  = 2%nat /\
  length
    match RAGRetriever.retrieve Demo.world Demo.retriever2 "alpha" 5 0%Qc false
    with Ok l => l | Raise _ => [] end
  = 2%nat.
Proof.
  split.
  - refine (proj2 (C6_top_k_bound Demo.world Demo.retriever2 "alpha" 5 0%Qc
                     true _ _ _) _ _ _).
    + lia.
    + vm_compute. reflexivity.
    + vm_compute. reflexivity.
    + vm_compute. reflexivity.
    + repeat constructor; intros _; vm_compute; discriminate.
  - refine (proj2 (C6_top_k_bound Demo.world Demo.retriever2 "alpha" 5 0%Qc
                     false _ _ _) _ _ _).
    + lia.
    + vm_compute. reflexivity.
    + vm_compute. reflexivity.
    + vm_compute. reflexivity.
    + repeat constructor; intros _; vm_compute; discriminate.
Defined.

(** ** Descending stable sort *)

Section SortedDesc.

Context {A : Type}.
Variable key : A -> Qc.

Local Abbreviation desc := (Py.desc key).
Local Abbreviation strict_desc := (Py.strict_desc key).

Lemma insert_desc_perm (x : A) (l : list A) :
  Permutation (Py.insert_desc key x l) (x :: l).
Proof.
  induction l as [|y l IH]; simpl; [reflexivity|].
  destruct (bool_decide _); [reflexivity|].
  rewrite IH. apply perm_swap.
Qed.

Lemma sorted_desc_perm (l : list A) : Permutation (Py.sorted_desc key l) l.
Proof.
  induction l as [|x l IH]; simpl; [reflexivity|].
  rewrite insert_desc_perm. now rewrite IH.
Qed.

Lemma insert_desc_sorted (x : A) (l : list A) :
  StronglySorted desc l -> StronglySorted desc (Py.insert_desc key x l).
Proof.
  induction 1 as [|y l Hl IH Hy]; simpl.
  - repeat constructor.
  - destruct (bool_decide (key y <= key x)%Qc) eqn:E.
    + apply bool_decide_eq_true in E.
      constructor; [now constructor|].
      constructor; [exact E|].
      eapply Forall_impl; [exact Hy|].
      intros z Hz. unfold desc in *. eapply Qcle_trans; eauto.
    + apply bool_decide_eq_false in E.
      constructor; [exact IH|].
      rewrite insert_desc_perm. constructor; [|exact Hy].
      unfold desc. apply Qclt_le_weak, Qcnot_le_lt, E.
Qed.

Lemma sorted_desc_sorted (l : list A) : StronglySorted desc (Py.sorted_desc key l).
Proof.
  induction l as [|x l IH]; simpl; [constructor|].
  now apply insert_desc_sorted.
Qed.

(** A list already in descending order is left as it is. *)
Lemma sorted_desc_id (l : list A) :
  StronglySorted desc l -> Py.sorted_desc key l = l.
Proof.
  induction 1 as [|x l Hl IH Hx]; simpl; [reflexivity|].
  rewrite IH. destruct l as [|y l]; simpl; [reflexivity|].
  apply Forall_cons in Hx as [Hy _].
  now rewrite bool_decide_eq_true_2.
Qed.

(** Two arrangements of the same elements, one descending, one strictly
    descending, are the same list. *)
Lemma sorted_unique (l1 l2 : list A) :
  Permutation l1 l2 ->
  StronglySorted desc l1 -> StronglySorted strict_desc l2 -> l1 = l2.
Proof.
  revert l2. induction l1 as [|a l1 IH]; intros l2 Hp H1 H2.
  - apply Permutation_nil in Hp. now subst.
  - destruct l2 as [|b l2].
    { symmetry in Hp. now apply Permutation_nil_cons in Hp. }
    apply StronglySorted_inv in H1 as [H1 Ha].
    apply StronglySorted_inv in H2 as [H2 Hb].
    assert (Hab : a = b).
    { assert (Hin : a ∈ b :: l2) by (rewrite <- Hp; left).
      apply elem_of_cons in Hin as [Heq|Hin]; [exact Heq|].
      assert (Hin' : b ∈ a :: l1) by (rewrite Hp; left).
      apply elem_of_cons in Hin' as [Heq|Hin']; [now symmetry|].
      rewrite Forall_forall in Ha. rewrite Forall_forall in Hb.
      specialize (Ha b Hin'). specialize (Hb a Hin).
      unfold desc, strict_desc in *.
      exfalso. eapply Qclt_not_le; eauto. }
    subst b. f_equal. apply IH; auto.
    eapply Permutation_cons_inv; eauto.
Qed.

Lemma sorted_desc_unique (l l' : list A) :
  Permutation l l' -> StronglySorted strict_desc l' ->
  Py.sorted_desc key l = l'.
Proof.
  intros Hp Hs. apply sorted_unique; [|apply sorted_desc_sorted|exact Hs].
  now rewrite sorted_desc_perm.
Qed.

(** Inserting before a tail of smaller or equal keys, and after a head of
    greater keys. *)
Lemma insert_desc_app_l (x : A) (l1 l2 : list A) :
  Forall (fun y => (key y <= key x)%Qc) l2 ->
  Py.insert_desc key x (l1 ++ l2) = Py.insert_desc key x l1 ++ l2.
Proof.
  intros H2. induction l1 as [|a l1 IH]; simpl.
  - destruct H2 as [|y l2 Hy _]; simpl; [reflexivity|].
    now rewrite bool_decide_eq_true_2.
  - destruct (bool_decide _); [reflexivity|]. now rewrite IH.
Qed.

Lemma insert_desc_app_r (x : A) (l1 l2 : list A) :
  Forall (fun y => (key x < key y)%Qc) l1 ->
  Py.insert_desc key x (l1 ++ l2) = l1 ++ Py.insert_desc key x l2.
Proof.
  induction 1 as [|a l1 Ha _ IH]; simpl; [reflexivity|].
  rewrite bool_decide_eq_false_2 by (now apply Qclt_not_le).
  now rewrite IH.
Qed.

(** The elements of key [0] of a list of non-negative keys stay behind the
    others, in their original order. *)
Lemma sorted_desc_split (l : list A) :
  Forall (fun x => (0 <= key x)%Qc) l ->
  Py.sorted_desc key l
  = Py.sorted_desc key (List.filter (fun x => bool_decide (0 < key x)%Qc) l)
    ++ List.filter (fun x => negb (bool_decide (0 < key x)%Qc)) l.
Proof.
  induction 1 as [|x l Hx Hl IH]; [reflexivity|].
  cbn [Py.sorted_desc List.filter]. rewrite IH. clear IH.
  set (pos := List.filter (fun x => bool_decide (0 < key x)%Qc) l).
  set (zero := List.filter (fun x => negb (bool_decide (0 < key x)%Qc)) l).
  assert (Hzero : Forall (fun y => key y = 0%Qc) zero).
  { apply Forall_forall. intros y Hy. unfold zero in Hy.
    apply list_elem_of_In, filter_In in Hy as [Hy Hb].
    apply negb_true_iff, bool_decide_eq_false in Hb.
    rewrite Forall_forall in Hl.
    apply list_elem_of_In in Hy. specialize (Hl y Hy).
    apply Qcle_antisym; [|exact Hl]. now apply Qcnot_lt_le. }
  assert (Hpos : Forall (fun y => (0 < key y)%Qc) (Py.sorted_desc key pos)).
  { apply Forall_forall. intros y Hy. rewrite sorted_desc_perm in Hy.
    unfold pos in Hy. apply list_elem_of_In, filter_In in Hy as [_ Hb].
    now apply bool_decide_eq_true in Hb. }
  destruct (bool_decide (0 < key x)%Qc) eqn:E; cbn [negb Py.sorted_desc].
  - apply bool_decide_eq_true in E. apply insert_desc_app_l.
    eapply Forall_impl; [exact Hzero|]. intros y Hy. cbn beta in Hy.
    rewrite Hy. now apply Qclt_le_weak.
  - apply bool_decide_eq_false in E.
    assert (Hx0 : key x = 0%Qc)
      by (apply Qcle_antisym; [now apply Qcnot_lt_le | exact Hx]).
    rewrite insert_desc_app_r by (now rewrite Hx0).
    f_equal. destruct zero as [|y zero']; [reflexivity|]. simpl.
    apply Forall_cons in Hzero as [Hy _].
    rewrite bool_decide_eq_true_2; [reflexivity|].
    rewrite Hx0, Hy. apply Qcle_refl.
Qed.

End SortedDesc.

(** Sorting by a key of a projection is sorting the projections. *)
Lemma sorted_desc_map {A B} (f : A -> B) (key : B -> Qc) (l : list A) :
  map f (Py.sorted_desc (fun x => key (f x)) l) = Py.sorted_desc key (map f l).
Proof.
  induction l as [|x l IH]; simpl; [reflexivity|].
  rewrite <- IH. clear IH.
  induction (Py.sorted_desc (fun x => key (f x)) l) as [|y s IHs]; simpl;
    [reflexivity|].
  destruct (bool_decide _); simpl; [reflexivity|]. now rewrite IHs.
Qed.

(** For a stop that is not negative, [l[:stop]] is the first [stop]
    elements. *)
Lemma list_upto_take {A} (l : list A) (k : Z) :
  0 <= k -> Py.list_upto l k = take (Z.to_nat k) l.
Proof.
  intros Hk. unfold Py.list_upto, Py.slice_index.
  destruct (k <? 0) eqn:E; [lia|].
  destruct (Z.le_gt_cases k (Z.of_nat (length l))) as [Hle|Hgt].
  - now rewrite Z.min_l by lia.
  - rewrite Z.min_r by lia. rewrite Nat2Z.id.
    rewrite !take_ge; [reflexivity| lia | lia].
Qed.

(** Where every element has an image, [omap] goes through a prefix. *)
Lemma omap_take {A B} (f : A -> option B) (l : list A) (n : nat) :
  Forall (fun x => is_Some (f x)) l ->
  omap f (take n l) = take n (omap f l).
Proof.
  intros Hall. revert n. induction Hall as [|x l [y Hy] _ IH]; intros n.
  - now destruct n.
  - destruct n as [|n]; [reflexivity|].
    cbn [take omap list_omap]. rewrite Hy. cbn [take]. now rewrite IH.
Qed.

Lemma omap_length_le {A B} (f : A -> option B) (l : list A) :
  (length (omap f l) <= length l)%nat.
Proof.
  induction l as [|x l IH]; [reflexivity|].
  cbn [omap list_omap]. destruct (f x); simpl; lia.
Qed.

(** Two descending arrangements of the same numbers are the same list. *)
Lemma descending_unique (l1 l2 : list Qc) :
  Permutation l1 l2 ->
  StronglySorted (fun a b => (b <= a)%Qc) l1 ->
  StronglySorted (fun a b => (b <= a)%Qc) l2 -> l1 = l2.
Proof.
  revert l2. induction l1 as [|a l1 IH]; intros l2 Hp H1 H2.
  - apply Permutation_nil in Hp. now subst.
  - destruct l2 as [|b l2].
    { symmetry in Hp. now apply Permutation_nil_cons in Hp. }
    apply StronglySorted_inv in H1 as [H1 Ha].
    apply StronglySorted_inv in H2 as [H2 Hb].
    assert (Hab : a = b).
    { assert (Hin : a ∈ b :: l2) by (rewrite <- Hp; left).
      apply elem_of_cons in Hin as [Heq|Hin]; [exact Heq|].
      assert (Hin' : b ∈ a :: l1) by (rewrite Hp; left).
      apply elem_of_cons in Hin' as [Heq|Hin']; [now symmetry|].
      rewrite Forall_forall in Ha. rewrite Forall_forall in Hb.
      apply Qcle_antisym; auto. }
    subst b. f_equal. apply IH; auto.
    eapply Permutation_cons_inv; eauto.
Qed.

Lemma sorted_keys {A} (key : A -> Qc) (l : list A) :
  StronglySorted (Py.desc key) l ->
  StronglySorted (fun a b => (b <= a)%Qc) (map key l).
Proof.
  induction 1 as [|x l _ IH Hx]; simpl; constructor; [exact IH|].
  apply Forall_forall. intros q Hq.
  apply list_elem_of_fmap in Hq as (y & -> & Hy).
  rewrite Forall_forall in Hx. now apply Hx.
Qed.

(** Two descending arrangements of the same elements show the same keys,
    place by place: they differ in the order of elements of equal key
    only. *)
Lemma sorted_same_keys {A} (key : A -> Qc) (l1 l2 : list A) :
  Permutation l1 l2 ->
  StronglySorted (Py.desc key) l1 -> StronglySorted (Py.desc key) l2 ->
  map key l1 = map key l2.
Proof.
  intros Hp H1 H2. apply descending_unique.
  - now apply Permutation_map.
  - now apply sorted_keys.
  - now apply sorted_keys.
Qed.

(** ** HybridRetriever.retrieve at the two ends of the weight *)

(** With weight 1 and a threshold of 1/2 the hybrid result holds a keyword
    hit that semantic retrieval does not return; with weight 0 three
    chunks of equal keyword score come out in semantic order, which is not
    the order of the keyword search. *)
Lemma C4_hybrid_boundaries_differ :
  ~ HybridRetriever.weight_one_is_semantic Demo.world Demo.retriever
      "beta gamma" 2 (Q2Qc (1 # 2)) false /\
  ~ HybridRetriever.weight_zero_is_keyword Demo.world Demo.retriever
      "gamma alpha zzzzz" 3 0%Qc false.
Proof.
  split.
  - unfold HybridRetriever.weight_one_is_semantic. intros H.
    apply (f_equal (fun r => match r with
                             | Ok l => length l
                             | Raise _ => 0%nat
                             end)) in H.
    vm_compute in H. discriminate H.
  - unfold HybridRetriever.weight_zero_is_keyword. intros [results [H1 H2]].
    apply (f_equal (fun r => match r with
                             | Ok l => map RetrievalResult.id l
                             | Raise _ => []
                             end)) in H1.
    cbv beta iota in H1. rewrite H2 in H1. clear H2.
    vm_compute in H1. discriminate H1.
Qed.

(** *** Dictionaries in insertion order *)

Section DictFacts.

Context {V : Type}.
Implicit Types (M : PyDict V) (k : string) (v : V).

Lemma dict_get_None M k : dict_get M k = None <-> k ∉ map fst M.
Proof.
  induction M as [|[k' v'] M IH]; simpl.
  - split; [intros _; apply not_elem_of_nil | reflexivity].
  - rewrite not_elem_of_cons. destruct (String.eqb_spec k' k) as [->|Hne].
    + split; [discriminate | intros [H _]; congruence].
    + rewrite IH. split; [intros H; split; congruence | intros [_ H]; exact H].
Qed.

Lemma dict_get_Some_elem M k v : dict_get M k = Some v -> (k, v) ∈ M.
Proof.
  induction M as [|[k' v'] M IH]; simpl; [discriminate|].
  destruct (String.eqb_spec k' k) as [->|Hne].
  - intros H. injection H as ->. left.
  - intros H. right. auto.
Qed.

Lemma dict_get_unique M k v v' :
  NoDup (map fst M) -> dict_get M k = Some v -> (k, v') ∈ M -> v' = v.
Proof.
  induction M as [|[k0 v0] M IH]; simpl; [discriminate|].
  intros Hnd Hget Hin. apply NoDup_cons in Hnd as [Hk0 Hnd].
  destruct (String.eqb_spec k0 k) as [->|Hne].
  - injection Hget as ->. apply elem_of_cons in Hin as [Heq|Hin];
      [congruence|].
    exfalso. apply Hk0. apply list_elem_of_fmap. exists (k, v'). auto.
  - apply elem_of_cons in Hin as [Heq|Hin]; [congruence|]. auto.
Qed.

Lemma dict_set_fresh M k v :
  dict_get M k = None -> dict_set M k v = M ++ [(k, v)].
Proof.
  induction M as [|[k' v'] M IH]; simpl; [reflexivity|].
  destruct (String.eqb k' k); [discriminate|].
  intros H. now rewrite IH.
Qed.

Lemma dict_set_present M k v e :
  NoDup (map fst M) -> dict_get M k = Some e ->
  dict_set M k v
  = map (fun en => if String.eqb (fst en) k then (fst en, v) else en) M.
Proof.
  induction M as [|[k' v'] M IH]; simpl; [discriminate|].
  intros Hnd Hget. apply NoDup_cons in Hnd as [Hk' Hnd].
  destruct (String.eqb_spec k' k) as [->|Hne].
  - f_equal. symmetry. erewrite map_ext_in; [apply map_id|].
    intros [k2 v2] Hin. simpl.
    destruct (String.eqb_spec k2 k) as [->|]; [|reflexivity].
    exfalso. apply Hk'. apply list_elem_of_fmap. exists (k, v2).
    split; [reflexivity|]. now apply list_elem_of_In.
  - f_equal. auto.
Qed.

Lemma dict_set_present_keys M k v e :
  NoDup (map fst M) -> dict_get M k = Some e ->
  map fst (dict_set M k v) = map fst M.
Proof.
  intros Hnd Hget. rewrite (dict_set_present M k v e Hnd Hget).
  rewrite map_map. apply map_ext. intros [k' v']. simpl.
  destruct (String.eqb k' k); reflexivity.
Qed.

End DictFacts.

Section Merge.

Import HybridRetriever.

Local Abbreviation RR := RetrievalResult.t.
Local Abbreviation rid := RetrievalResult.id.

Variable weight : Qc.

Lemma merge_semantic_from (S : list RR) (M : PyDict RR) :
  NoDup (map fst M ++ map rid S) ->
  fold_left
    (fun result_map r => dict_set result_map (rid r) (scaled r weight)) S M
  = M ++ map (fun r => (rid r, scaled r weight)) S.
Proof.
  revert M. induction S as [|r S IH]; intros M Hnd; simpl.
  - now rewrite app_nil_r.
  - rewrite dict_set_fresh.
    + rewrite IH; [now rewrite <- app_assoc|].
      rewrite map_app. simpl. now rewrite <- app_assoc.
    + apply dict_get_None. apply NoDup_app in Hnd as (_ & Hdis & _).
      intros Hin. apply (Hdis _ Hin). left.
Qed.

(** The first loop lists the semantic results, scaled, in their order. *)
Lemma merge_semantic_nodup (S : list RR) :
  NoDup (map rid S) ->
  merge_semantic weight S = map (fun r => (rid r, scaled r weight)) S.
Proof. intros Hnd. unfold merge_semantic. now rewrite merge_semantic_from. Qed.

Lemma by_id_get_None (K : list RR) (k : string) :
  k ∉ map rid K -> dict_get (by_id K) k = None.
Proof.
  intros H. apply dict_get_None. unfold by_id. now rewrite map_map.
Qed.

(** The second loop updates the entries in place and puts the new ones
    behind, in the order of the keyword results. *)
Lemma merge_keyword_spec (K : list RR) :
  NoDup (map rid K) ->
  forall M : PyDict RR,
    NoDup (map fst M) ->
    merge_keyword weight K M
    = map (add_keyword weight K) M
      ++ map (fun r => (rid r, scaled r (1 - weight)%Qc))
           (List.filter (fresh_in M) K).
Proof.
  unfold merge_keyword.
  induction K as [|r K IH]; intros HK M HM.
  - simpl. rewrite app_nil_r. symmetry. apply map_id.
  - apply NoDup_cons in HK as [Hr HK]. cbn [fold_left].
    destruct (dict_get M (rid r)) as [e|] eqn:E.
    + rewrite IH;
        [|exact HK|now rewrite (dict_set_present_keys M _ _ e HM E)].
      assert (Hfresh : forall r', fresh_in
                          (dict_set M (rid r)
                             (add_score e
                                (RetrievalResult.score r * (1 - weight))%Qc)) r'
                        = fresh_in M r').
      { intros r'. unfold fresh_in.
        now rewrite (dict_set_present_keys M _ _ e HM E). }
      cbn [List.filter].
      assert (Hnot : fresh_in M r = false).
      { unfold fresh_in. rewrite bool_decide_eq_true_2; [reflexivity|].
        apply dict_get_Some_elem in E. apply list_elem_of_fmap.
        now exists (rid r, e). }
      rewrite Hnot. f_equal.
      * rewrite (dict_set_present M _ _ e HM E), map_map.
        apply map_ext_in. intros [k v] Hin. cbn [fst snd].
        unfold add_keyword. cbn [fst snd by_id map dict_get].
        destruct (String.eqb_spec k (rid r)) as [->|Hne].
        -- rewrite String.eqb_refl. cbn [fst snd].
           rewrite by_id_get_None by exact Hr.
           apply list_elem_of_In in Hin.
           now rewrite (dict_get_unique M (rid r) e v HM E Hin).
        -- destruct (String.eqb_spec (rid r) k); [congruence|]. reflexivity.
      * f_equal. apply filter_ext. intros r'. apply Hfresh.
    + rewrite dict_set_fresh by exact E.
      assert (HM' : NoDup (map fst (M ++ [(rid r,
                                           scaled r (1 - weight)%Qc)]))).
      { rewrite map_app. apply NoDup_app. split; [exact HM|]. split.
        - intros k Hk Hk'. apply list_elem_of_singleton in Hk'. subst k.
          now apply dict_get_None in E.
        - apply NoDup_singleton. }
      rewrite IH by auto.
      assert (Hfr : fresh_in M r = true).
      { unfold fresh_in. rewrite bool_decide_eq_false_2; [reflexivity|].
        now apply dict_get_None. }
      cbn [List.filter]. rewrite Hfr, map_app. cbn [map].
      rewrite <- app_assoc. f_equal.
      * apply map_ext_in. intros [k v] Hin. unfold add_keyword.
        cbn [fst snd by_id map dict_get].
        destruct (String.eqb_spec (rid r) k) as [<-|Hne]; [|reflexivity].
        exfalso. apply dict_get_None in E. apply E.
        apply list_elem_of_fmap. exists (rid r, v).
        split; [reflexivity|]. now apply list_elem_of_In.
      * unfold add_keyword at 1. cbn [fst snd].
        rewrite by_id_get_None by exact Hr. cbn [app]. f_equal. f_equal.
        apply filter_ext_in. intros r' Hin. unfold fresh_in.
        rewrite map_app. cbn [map fst].
        f_equal. apply bool_decide_ext. rewrite elem_of_app.
        rewrite list_elem_of_singleton.
        split; [|auto]. intros [H|H]; [exact H|].
        exfalso. apply Hr. rewrite <- H. apply list_elem_of_fmap.
        exists r'. split; [reflexivity|]. now apply list_elem_of_In.
Qed.

End Merge.

Section HybridBoundaries.

Import HybridRetriever.

Local Abbreviation RR := RetrievalResult.t.
Local Abbreviation rid := RetrievalResult.id.
Local Abbreviation rscore := RetrievalResult.score.

Lemma one_minus_one : (1 - 1)%Qc = 0%Qc.
Proof. apply Qcplus_opp_r. Qed.

Lemma one_minus_zero : (1 - 0)%Qc = 1%Qc.
Proof. apply Qc_is_canon. reflexivity. Qed.

Lemma scaled_one (r : RR) : scaled r 1 = r.
Proof. destruct r. unfold scaled. simpl. now rewrite Qcmult_1_r. Qed.

Lemma scaled_zero (r : RR) : scaled r 0 = zero_score r.
Proof. unfold scaled, zero_score. now rewrite Qcmult_0_r. Qed.

Lemma add_score_zero (r : RR) (x : Qc) : add_score r (x * 0) = r.
Proof.
  destruct r. unfold add_score. simpl.
  now rewrite Qcmult_0_r, Qcplus_0_r.
Qed.

Lemma by_id_keys (l : list RR) : map fst (by_id l) = map rid l.
Proof. unfold by_id. rewrite map_map. reflexivity. Qed.

Lemma by_id_values (l : list RR) : dict_values (by_id l) = l.
Proof. unfold dict_values, by_id. rewrite map_map. apply map_id. Qed.

Lemma fresh_in_by_id (S : list RR) (r : RR) :
  fresh_in (by_id S) r = negb (has_id S r).
Proof. unfold fresh_in, has_id. now rewrite by_id_keys. Qed.

(** With weight 1 the merged dictionary lists the semantic results as they
    are, then the keyword hits that are new, with score 0. *)
Lemma merged_values_weight_one (S K : list RR) :
  NoDup (map rid S) -> NoDup (map rid K) ->
  dict_values (merge_keyword 1 K (merge_semantic 1 S))
  = semantic_then_keyword S K.
Proof.
  intros HS HK.
  rewrite merge_semantic_nodup by exact HS.
  rewrite (map_ext _ (fun r => (rid r, r)))
    by (intros r; now rewrite scaled_one).
  change (map (fun r => (rid r, r)) S) with (by_id S).
  rewrite merge_keyword_spec; [|exact HK|now rewrite by_id_keys].
  unfold dict_values, semantic_then_keyword.
  rewrite map_app, !map_map. f_equal.
  - rewrite <- (by_id_values S) at 2. unfold dict_values.
    apply map_ext. intros en. unfold add_keyword.
    destruct (dict_get (by_id K) (fst en)); [|reflexivity].
    cbn [snd]. now rewrite one_minus_one, add_score_zero.
  - rewrite (filter_ext _ _ (fresh_in_by_id S)).
    apply map_ext. intros r. cbn [snd].
    now rewrite one_minus_one, scaled_zero.
Qed.

Lemma zero_scores_sorted (l : list RR) :
  StronglySorted (Py.desc rscore) (map zero_score l).
Proof.
  induction l as [|r l IH]; simpl; constructor; [exact IH|].
  apply Forall_forall. intros z Hz. apply list_elem_of_fmap in Hz.
  destruct Hz as (r' & -> & _). unfold Py.desc. simpl. apply Qcle_refl.
Qed.

(** Semantic results in descending order of non-negative scores stay in
    front of the entries of score 0. *)
Lemma semantic_then_keyword_sorted (S K : list RR) :
  StronglySorted (Py.desc rscore) S ->
  Forall (fun r => (0 <= rscore r)%Qc) S ->
  Py.sorted_desc rscore (semantic_then_keyword S K)
  = semantic_then_keyword S K.
Proof.
  intros Hs Hpos. apply sorted_desc_id. unfold semantic_then_keyword.
  apply StronglySorted_app_2; [|exact Hs|apply zero_scores_sorted].
  intros s z Hin Hz. apply list_elem_of_fmap in Hz.
  destruct Hz as (r' & -> & _). unfold Py.desc. simpl.
  rewrite Forall_forall in Hpos. now apply Hpos.
Qed.

End HybridBoundaries.

Section HybridWeightZero.

Import HybridRetriever.

Local Abbreviation RR := RetrievalResult.t.
Local Abbreviation rid := RetrievalResult.id.
Local Abbreviation rscore := RetrievalResult.score.

Variables S K : list RR.
Hypothesis S_ids : NoDup (map rid S).
Hypothesis K_ids : NoDup (map rid K).
Hypothesis K_pos : Forall (fun r => (0 < rscore r)%Qc) K.

Local Abbreviation kw := (fun s : RR => (rid s, keyword_score_of K (rid s))).
Local Abbreviation positive := (fun x : string * Qc => bool_decide (0 < snd x)%Qc).
Local Abbreviation new_hits := (List.filter (fun r => negb (has_id S r)) K).

(** With weight 0 the merged dictionary lists the semantic results with
    their keyword scores, then the keyword hits that are new. *)
Lemma merged_values_weight_zero :
  map id_score (dict_values (merge_keyword 0 K (merge_semantic 0 S)))
  = map kw S ++ map id_score new_hits.
Proof.
  rewrite merge_semantic_nodup by exact S_ids.
  rewrite (map_ext _ (fun r => (rid r, zero_score r)))
    by (intros r; now rewrite scaled_zero).
  assert (Hkeys : map fst (map (fun r => (rid r, zero_score r)) S) = map rid S)
    by (now rewrite map_map).
  rewrite merge_keyword_spec; [|exact K_ids|now rewrite Hkeys].
  unfold dict_values. rewrite !map_app, !map_map. f_equal.
  - apply map_ext. intros s. unfold add_keyword, keyword_score_of.
    cbn [fst snd]. destruct (dict_get (by_id K) (rid s)); [|reflexivity].
    unfold id_score, add_score, zero_score. cbn.
    now rewrite one_minus_zero, Qcmult_1_r, Qcplus_0_l.
  - rewrite (filter_ext _ (fun r => negb (has_id S r)))
      by (intros r; unfold fresh_in, has_id; now rewrite Hkeys).
    apply map_ext. intros r. cbn [snd].
    now rewrite one_minus_zero, scaled_one.
Qed.

Lemma by_id_elem (i : string) (r : RR) :
  (i, r) ∈ by_id K <-> r ∈ K /\ rid r = i.
Proof.
  unfold by_id. rewrite list_elem_of_fmap. split.
  - intros (r' & Heq & Hin). injection Heq as -> ->. auto.
  - intros [Hin <-]. eauto.
Qed.

Lemma keyword_hit (s : RR) :
  has_id K s = true ->
  exists r, r ∈ K /\ rid r = rid s /\ keyword_score_of K (rid s) = rscore r.
Proof.
  unfold has_id, keyword_score_of. intros H. apply bool_decide_eq_true in H.
  destruct (dict_get (by_id K) (rid s)) as [r|] eqn:E.
  - apply dict_get_Some_elem, by_id_elem in E as [Hin Hid]. eauto.
  - apply dict_get_None in E. now rewrite by_id_keys in E.
Qed.

Lemma keyword_score_elem (r : RR) :
  r ∈ K -> keyword_score_of K (rid r) = rscore r.
Proof.
  intros Hin. unfold keyword_score_of.
  assert (Hel : (rid r, r) ∈ by_id K) by (now apply by_id_elem).
  destruct (dict_get (by_id K) (rid r)) as [r2|] eqn:E.
  - rewrite (dict_get_unique (by_id K) (rid r) r2 r); auto.
    now rewrite by_id_keys.
  - apply dict_get_None in E. exfalso. apply E.
    apply list_elem_of_fmap. now exists (rid r, r).
Qed.

Lemma keyword_miss (s : RR) :
  has_id K s = false -> keyword_score_of K (rid s) = 0%Qc.
Proof.
  unfold has_id, keyword_score_of. intros H. apply bool_decide_eq_false in H.
  now rewrite by_id_get_None.
Qed.

Lemma keyword_score_positive (s : RR) :
  has_id K s = true -> (0 < keyword_score_of K (rid s))%Qc.
Proof.
  intros H. destruct (keyword_hit s H) as (r & Hin & _ & ->).
  rewrite Forall_forall in K_pos. now apply K_pos.
Qed.

Lemma positive_kw (s : RR) : positive (kw s) = has_id K s.
Proof.
  cbn [snd]. destruct (has_id K s) eqn:E.
  - apply bool_decide_eq_true_2. now apply keyword_score_positive.
  - rewrite keyword_miss by exact E. apply bool_decide_eq_false_2.
    intros H. now apply Qclt_not_eq in H.
Qed.

Lemma filter_positive_kw :
  List.filter positive (map kw S) = map kw (List.filter (has_id K) S) /\
  List.filter (fun x => negb (positive x)) (map kw S)
  = map (fun r => (rid r, 0%Qc))
      (List.filter (fun r => negb (has_id K r)) S).
Proof.
  clear S_ids. induction S as [|s S' IH]; [auto|].
  destruct IH as [IH1 IH2]. cbn [map List.filter].
  rewrite positive_kw. cbn [snd] in *. rewrite IH1, IH2.
  destruct (has_id K s) eqn:E; cbn [negb map]; [auto|].
  now rewrite keyword_miss.
Qed.

Lemma filter_positive_hits (l : list RR) :
  Forall (fun r => (0 < rscore r)%Qc) l ->
  List.filter positive (map id_score l) = map id_score l /\
  List.filter (fun x => negb (positive x)) (map id_score l) = [].
Proof.
  induction 1 as [|r l Hr _ [IH1 IH2]]; [auto|].
  cbn [map List.filter id_score snd] in *.
  rewrite bool_decide_eq_true_2 by exact Hr. cbn [negb].
  now rewrite IH1, IH2.
Qed.

Lemma new_hits_positive : Forall (fun r => (0 < rscore r)%Qc) new_hits.
Proof.
  apply Forall_forall. intros r Hr.
  apply list_elem_of_In, filter_In in Hr as [Hr _].
  rewrite Forall_forall in K_pos. apply K_pos. now apply list_elem_of_In.
Qed.

Lemma filter_partition {A} (p : A -> bool) (l : list A) :
  Permutation l (List.filter p l ++ List.filter (fun x => negb (p x)) l).
Proof.
  induction l as [|x l IH]; [reflexivity|]. cbn [List.filter].
  destruct (p x); cbn [negb app].
  - now constructor.
  - rewrite <- Permutation_middle. now constructor.
Qed.

Lemma NoDup_map_filter {A B} (f : A -> B) (p : A -> bool) (l : list A) :
  NoDup (map f l) -> NoDup (map f (List.filter p l)).
Proof.
  induction l as [|x l IH]; [auto|]. cbn [map List.filter].
  intros H. apply NoDup_cons in H as [Hx H].
  destruct (p x); [|auto]. cbn [map]. apply NoDup_cons. split; [|auto].
  intros Hin. apply Hx. apply list_elem_of_fmap in Hin as (y & Hy & Hin).
  apply list_elem_of_fmap. exists y. split; [exact Hy|].
  apply list_elem_of_In, filter_In in Hin as [Hin _].
  now apply list_elem_of_In.
Qed.

(** The hits that are semantic results too, listed from either side. *)
Lemma common_hits_perm :
  Permutation (map kw (List.filter (has_id K) S))
    (map id_score (List.filter (has_id S) K)).
Proof.
  apply NoDup_Permutation.
  - apply (NoDup_fmap_1 fst). rewrite <- list_fmap_compose.
    apply (NoDup_map_filter rid (has_id K) S S_ids).
  - apply (NoDup_fmap_1 fst). rewrite <- list_fmap_compose.
    apply (NoDup_map_filter rid (has_id S) K K_ids).
  - intros [i q]. rewrite !list_elem_of_fmap. split.
    + intros (s & Heq & Hin). injection Heq as -> ->.
      apply list_elem_of_In, filter_In in Hin as [Hin Hhas].
      destruct (keyword_hit s Hhas) as (r & Hr & Hid & Hsc).
      exists r. split; [unfold id_score; congruence|].
      apply list_elem_of_In, filter_In. split; [now apply list_elem_of_In|].
      unfold has_id. apply bool_decide_eq_true_2. rewrite Hid.
      apply list_elem_of_fmap. exists s. split; [reflexivity|].
      now apply list_elem_of_In.
    + intros (r & Heq & Hin). injection Heq as -> ->.
      apply list_elem_of_In, filter_In in Hin as [Hin Hhas].
      apply list_elem_of_In in Hin.
      unfold has_id in Hhas. apply bool_decide_eq_true in Hhas.
      apply list_elem_of_fmap in Hhas as (s & Hid & Hs).
      assert (HasK : has_id K s = true).
      { unfold has_id. apply bool_decide_eq_true_2. rewrite <- Hid.
        apply list_elem_of_fmap. eauto. }
      exists s. split.
      * unfold id_score. rewrite <- Hid.
        now rewrite (keyword_score_elem r Hin).
      * apply list_elem_of_In, filter_In.
        split; [now apply list_elem_of_In | exact HasK].
Qed.

Lemma id_scores_sorted (l : list RR) :
  StronglySorted (Py.desc rscore) l ->
  StronglySorted (Py.desc snd) (map id_score l).
Proof.
  induction 1 as [|r l _ IH Hr]; simpl; constructor; [exact IH|].
  apply Forall_forall. intros x Hx.
  apply list_elem_of_fmap in Hx as (r' & -> & Hr').
  rewrite Forall_forall in Hr. now apply Hr.
Qed.

(** With weight 0 the sort puts the keyword hits first, in descending order
    of their keyword scores, and the other semantic results behind, in
    their order. The hits come in the order of the keyword results up to
    the order among hits of equal score, and in that very order when the
    keyword scores are strictly descending. *)
Lemma ranking_weight_zero :
  StronglySorted (Py.desc rscore) K ->
  exists ranked : list string,
    map rid
      (Py.sorted_desc rscore
         (dict_values (merge_keyword 0 K (merge_semantic 0 S))))
    = ranked ++ map rid (List.filter (fun r => negb (has_id K r)) S) /\
    Permutation ranked (map rid K) /\
    map (keyword_score_of K) ranked = map rscore K /\
    (StronglySorted (Py.strict_desc rscore) K -> ranked = map rid K).
Proof.
  intros Hsorted.
  set (hits :=
    Py.sorted_desc snd
      (map kw (List.filter (has_id K) S) ++ map id_score new_hits)).
  assert (Hperm : Permutation hits (map id_score K)).
  { unfold hits. rewrite sorted_desc_perm, common_hits_perm, <- map_app.
    apply Permutation_map. symmetry. apply filter_partition. }
  assert (Hvalues :
    map id_score
      (Py.sorted_desc rscore
         (dict_values (merge_keyword 0 K (merge_semantic 0 S))))
    = hits ++ map (fun r => (rid r, 0%Qc))
                (List.filter (fun r => negb (has_id K r)) S)).
  { rewrite (sorted_desc_map id_score snd), merged_values_weight_zero.
    destruct filter_positive_kw as [Hp1 Hz1].
    destruct (filter_positive_hits new_hits new_hits_positive) as [Hp2 Hz2].
    rewrite sorted_desc_split.
    - rewrite !List.filter_app. cbn [snd] in *.
      now rewrite Hp1, Hz1, Hp2, Hz2, app_nil_r.
    - apply Forall_app. split.
      + apply Forall_forall. intros x Hx.
        apply list_elem_of_fmap in Hx as (s & -> & _). cbn [snd].
        destruct (has_id K s) eqn:E.
        * apply Qclt_le_weak. now apply keyword_score_positive.
        * rewrite keyword_miss by exact E. apply Qcle_refl.
      + apply Forall_forall. intros x Hx.
        apply list_elem_of_fmap in Hx as (r & -> & Hr).
        apply Qclt_le_weak. pose proof new_hits_positive as Hn.
        rewrite Forall_forall in Hn. now apply Hn. }
  exists (map fst hits). split; [|split; [|split]].
  - apply (f_equal (map fst)) in Hvalues.
    rewrite map_app, !map_map in Hvalues. exact Hvalues.
  - apply (Permutation_map fst) in Hperm.
    now rewrite map_map in Hperm.
  - rewrite map_map.
    transitivity (map snd hits).
    + apply map_ext_in. intros p Hp. apply list_elem_of_In in Hp.
      rewrite Hperm in Hp. apply list_elem_of_fmap in Hp as (r & -> & Hr).
      now apply keyword_score_elem.
    + rewrite (sorted_same_keys snd hits (map id_score K) Hperm).
      * now rewrite map_map.
      * apply sorted_desc_sorted.
      * now apply id_scores_sorted.
  - intros Hstrict.
    rewrite (sorted_unique snd hits (map id_score K) Hperm).
    + now rewrite map_map.
    + apply sorted_desc_sorted.
    + clear -Hstrict. induction Hstrict as [|r l _ IH Hr]; simpl;
        constructor; [exact IH|].
      apply Forall_forall. intros x Hx.
      apply list_elem_of_fmap in Hx as (r' & -> & Hr').
      rewrite Forall_forall in Hr. now apply Hr.
Qed.

End HybridWeightZero.

(** *** Keyword scores are positive *)

Lemma of_int_pos (z : Z) : 0 < z -> (0 < RAGRetriever.of_int z)%Qc.
Proof.
  intros Hz. unfold Qclt, RAGRetriever.of_int. cbn [this Q2Qc].
  rewrite !Qred_correct. unfold Qlt. simpl. lia.
Qed.

Lemma of_int_div_pos (m n : Z) :
  0 < m -> 0 < n -> (0 < RAGRetriever.of_int m / RAGRetriever.of_int n)%Qc.
Proof.
  intros Hm Hn. unfold Qcdiv.
  rewrite <- (Qcmult_0_l (/ RAGRetriever.of_int n)).
  apply Qcmult_lt_compat_r; [|now apply of_int_pos].
  pose proof (of_int_pos n Hn) as Hp. unfold Qclt in *.
  change (this (/ RAGRetriever.of_int n)%Qc)
    with (Qred (/ this (RAGRetriever.of_int n))).
  rewrite Qred_correct. now apply Qinv_lt_0_compat.
Qed.

Lemma inter_size_le (a b : list string) :
  Py.inter_size a b <= Z.of_nat (length a).
Proof. unfold Py.inter_size. pose proof (List.filter_length_le (fun x => existsb (String.eqb x) b) a). lia. Qed.

Lemma list_upto_elem {A} (l : list A) (k : Z) (x : A) :
  x ∈ Py.list_upto l k -> x ∈ l.
Proof.
  unfold Py.list_upto. apply subseteq_take.
Qed.

Lemma keyword_scores_positive (self : RAGRetriever.t) (query : string)
    (top_k : Z) :
  Forall (fun r => (0 < RetrievalResult.score r)%Qc)
    (HybridRetriever._keyword_search self query top_k).
Proof.
  apply Forall_forall. intros r Hr. unfold HybridRetriever._keyword_search in Hr.
  apply list_elem_of_omap in Hr as ([idx sc] & Hp & Hr).
  destruct (RAGRetriever.chunks self !! Z.to_nat idx); [|discriminate].
  injection Hr as <-. cbn [RetrievalResult.score result_of_chunk].
  apply list_upto_elem in Hp. rewrite sorted_desc_perm in Hp.
  apply list_elem_of_omap in Hp as ([i chunk] & _ & Hp).
  set (m := Py.inter_size _ _) in Hp.
  destruct (m >? 0) eqn:E; [|discriminate].
  injection Hp as _ <-.
  pose proof (inter_size_le (words query)
    (Py.set_of (Py.split_ws (Py.lower (default EmptyString (rec_content chunk))))))
    as Hle.
  fold m in Hle. apply of_int_div_pos; lia.
Qed.

(** *** Truncation *)

Lemma list_upto_map {A B} (f : A -> B) (l : list A) (k : Z) :
  map f (Py.list_upto l k) = Py.list_upto (map f l) k.
Proof.
  unfold Py.list_upto. rewrite length_map. symmetry. apply List.firstn_map.
Qed.

Lemma list_upto_app_le {A} (l1 l2 : list A) (k : Z) :
  0 <= k <= Z.of_nat (length l1) ->
  Py.list_upto (l1 ++ l2) k = Py.list_upto l1 k.
Proof.
  intros Hk. unfold Py.list_upto, Py.slice_index. rewrite length_app.
  destruct (k <? 0) eqn:E; [lia|].
  replace (Z.to_nat (Z.min k (Z.of_nat (length l1 + length l2))))
    with (Z.to_nat k) by lia.
  replace (Z.to_nat (Z.min k (Z.of_nat (length l1)))) with (Z.to_nat k) by lia.
  apply take_app_le. lia.
Qed.

Lemma omap_sorted {A B} (keyA : A -> Qc) (keyB : B -> Qc)
    (f : A -> option B) (l : list A) :
  (forall a b, f a = Some b -> keyB b = keyA a) ->
  StronglySorted (Py.desc keyA) l ->
  StronglySorted (Py.desc keyB) (omap f l).
Proof.
  intros Hkey. induction 1 as [|a l Hl IH Ha]; [constructor|].
  cbn [omap list_omap]. destruct (f a) as [b|] eqn:E; [|exact IH].
  constructor; [exact IH|].
  apply Forall_forall. intros b' Hb'.
  apply list_elem_of_omap in Hb' as (a' & Ha' & Hf').
  rewrite Forall_forall in Ha. specialize (Ha a' Ha').
  unfold Py.desc in *. now rewrite (Hkey _ _ E), (Hkey _ _ Hf').
Qed.

Lemma take_sorted {A} (R : A -> A -> Prop) (n : nat) (l : list A) :
  StronglySorted R l -> StronglySorted R (take n l).
Proof.
  intros Hs. rewrite <- (take_drop n l) in Hs.
  now apply StronglySorted_app_1_l in Hs.
Qed.

Lemma keyword_result_score (self : RAGRetriever.t) (p : Z * Qc)
    (r : RetrievalResult.t) :
  (let (idx, score) := p in
   match RAGRetriever.chunks self !! Z.to_nat idx with
   | Some chunk => Some (result_of_chunk chunk idx score)
   | None => None
   end) = Some r ->
  RetrievalResult.score r = snd p.
Proof.
  destruct p as [idx sc].
  destruct (RAGRetriever.chunks self !! Z.to_nat idx); [|discriminate].
  intros H. now injection H as <-.
Qed.

(** *** The keyword search asked for fewer hits *)

Lemma keyword_search_sorted (self : RAGRetriever.t) (query : string)
    (top_k : Z) :
  StronglySorted (Py.desc RetrievalResult.score)
    (HybridRetriever._keyword_search self query top_k).
Proof.
  unfold HybridRetriever._keyword_search.
  apply (omap_sorted snd RetrievalResult.score).
  - intros p r. apply keyword_result_score.
  - unfold Py.list_upto. apply take_sorted, sorted_desc_sorted.
Qed.

(** Every scored position is the position of a chunk record. *)
Lemma keyword_positions (self : RAGRetriever.t) (query : string) :
  Forall (fun p : Z * Qc =>
            is_Some (let (idx, score) := p in
                     match RAGRetriever.chunks self !! Z.to_nat idx with
                     | Some chunk => Some (result_of_chunk chunk idx score)
                     | None => None
                     end))
    (Py.sorted_desc snd
       (omap (fun ic : nat * ChunkRecord =>
            let (i, chunk) := ic in
            let content := Py.lower (default EmptyString (rec_content chunk)) in
            let content_words := Py.set_of (Py.split_ws content) in
            let matches := Py.inter_size (words query) content_words in
            if matches >? 0
            then Some (Z.of_nat i,
                       (RAGRetriever.of_int matches
                        / RAGRetriever.of_int
                            (Z.of_nat (length (words query))))%Qc)
            else None)
         (imap pair (RAGRetriever.chunks self)))).
Proof.
  apply Forall_forall. intros [idx sc] Hp. rewrite sorted_desc_perm in Hp.
  apply list_elem_of_omap in Hp as ([i chunk] & Hic & Hp).
  cbv zeta in Hp.
  destruct (Py.inter_size _ _ >? 0); [|discriminate]. injection Hp as <- _.
  apply elem_of_lookup_imap in Hic as (i' & chunk' & Heq & Hlook).
  injection Heq as -> ->. rewrite Nat2Z.id, Hlook. eauto.
Qed.

(** Asked for [top_k] hits, the keyword search gives the first [top_k] of
    the hits it gives when asked for twice as many. *)
Lemma keyword_search_prefix (self : RAGRetriever.t) (query : string)
    (top_k : Z) :
  0 <= top_k ->
  HybridRetriever._keyword_search self query top_k
  = Py.list_upto (HybridRetriever._keyword_search self query (top_k * 2)) top_k.
Proof.
  intros Hk. pose proof (keyword_positions self query) as Hall.
  unfold HybridRetriever._keyword_search.
  set (scores := Py.sorted_desc snd _) in *.
  rewrite !list_upto_take by lia.
  rewrite !omap_take by exact Hall.
  rewrite take_take. f_equal. lia.
Qed.

(** *** The semantic search asked for fewer results *)

(** When the index reports for [top_k] the first [top_k] pairs of what it
    reports for [top_k * 2], and [retrieve] fills its [top_k] places, the
    results of the wider call start with those of the narrow one. *)
Lemma retrieve_prefix_of_wider (w : World) (self : RAGRetriever.t)
    (query : string) (top_k : Z) (threshold : Qc)
    (direct semantic : list RetrievalResult.t) :
  RAGRetriever.retrieve w self query top_k threshold false = Ok direct ->
  RAGRetriever.retrieve w self query (top_k * 2) threshold false
  = Ok semantic ->
  RAGRetriever.hits w self query top_k false
  = Py.list_upto (RAGRetriever.hits w self query (top_k * 2) false) top_k ->
  Z.of_nat (length direct) = top_k ->
  exists rest, semantic = direct ++ rest.
Proof.
  intros Hdirect Hsem Hhits Hlen.
  apply retrieve_Ok in Hdirect. apply retrieve_Ok in Hsem.
  cbv zeta in Hdirect, Hsem. cbn [andb] in Hdirect, Hsem.
  assert (Hk : 0 <= top_k) by lia.
  set (wide := RAGRetriever.hits w self query (top_k * 2) false) in *.
  rewrite Hhits in Hdirect.
  rewrite !list_upto_take in Hdirect by lia.
  rewrite list_upto_take in Hsem by lia.
  set (n := Z.to_nat top_k) in *.
  set (first := omap (RAGRetriever.candidate self threshold) (take n wide))
    in *.
  assert (Hfirst : direct = first).
  { pose proof (omap_length_le (RAGRetriever.candidate self threshold)
                  (take n wide)) as Hle.
    fold first in Hle. rewrite length_take in Hle.
    assert (Hn : length direct = n) by lia.
    rewrite Hdirect in Hn. rewrite length_take in Hn.
    rewrite Hdirect. apply take_ge. lia. }
  rewrite <- (take_drop n wide) in Hsem. rewrite omap_app in Hsem.
  fold first in Hsem. rewrite <- Hfirst in Hsem.
  rewrite take_app in Hsem.
  rewrite (take_ge direct) in Hsem by lia.
  eauto.
Qed.

(** C4 (amended): let [semantic] be the results of the semantic search of
    the hybrid call ([top_k * 2], the threshold, no rerank) and [keyword]
    those of its keyword search, each without a repeated id.

    With [semantic_weight = 1.0], when the semantic results come in
    descending order of non-negative scores, the hybrid result is the list
    of the semantic results, unchanged, followed by the keyword hits that
    are not among them with score 0, cut to [top_k]. It is the result of
    [retrieve(query, top_k, threshold, rerank=False)] whenever that call
    fills its [top_k] places and the index reports for [top_k] the first
    [top_k] pairs of what it reports for [top_k * 2].

    With [semantic_weight = 0.0] the ids of the hybrid result are the first
    [top_k] of: the ids of the keyword hits, in the order of the keyword
    results up to the order among hits of equal keyword score, followed by
    the ids of the semantic results that are no keyword hit. When there are
    at least [top_k] keyword hits, the keyword scores of the returned ids
    are, place by place, the scores of [_keyword_search(query, top_k)]; and
    when the keyword scores are strictly descending the returned ids are
    the ids of [_keyword_search(query, top_k)], in its order. *)
Theorem C4_hybrid_weight_boundaries (w : World) (self : RAGRetriever.t)
    (query : string) (top_k : Z) (threshold : Qc) (rerank : bool)
    (semantic : list RetrievalResult.t) :
  let keyword := HybridRetriever._keyword_search self query (top_k * 2) in
  let only_semantic :=
    List.filter (fun r => negb (HybridRetriever.has_id keyword r)) semantic in
  RAGRetriever.retrieve w self query (top_k * 2) threshold false = Ok semantic ->
  NoDup (map RetrievalResult.id semantic) ->
  NoDup (map RetrievalResult.id keyword) ->
  (StronglySorted (Py.desc RetrievalResult.score) semantic ->
   Forall (fun r => (0 <= RetrievalResult.score r)%Qc) semantic ->
   HybridRetriever.retrieve w self query top_k threshold rerank 1%Qc
   = Ok (Py.list_upto (HybridRetriever.semantic_then_keyword semantic keyword)
           top_k) /\
   (forall direct,
      RAGRetriever.retrieve w self query top_k threshold false = Ok direct ->
      RAGRetriever.hits w self query top_k false
      = Py.list_upto (RAGRetriever.hits w self query (top_k * 2) false)
          top_k ->
      Z.of_nat (length direct) = top_k ->
      HybridRetriever.retrieve w self query top_k threshold rerank 1%Qc
      = Ok direct)) /\
  (exists (results : list RetrievalResult.t) (ranked : list string),
     HybridRetriever.retrieve w self query top_k threshold rerank 0%Qc
     = Ok results /\
     map RetrievalResult.id results
     = Py.list_upto (ranked ++ map RetrievalResult.id only_semantic) top_k /\
     Permutation ranked (map RetrievalResult.id keyword) /\
     map (HybridRetriever.keyword_score_of keyword) ranked
     = map RetrievalResult.score keyword /\
     (StronglySorted (Py.strict_desc RetrievalResult.score) keyword ->
      ranked = map RetrievalResult.id keyword) /\
     (0 <= top_k <= Z.of_nat (length keyword) ->
      map (HybridRetriever.keyword_score_of keyword)
        (map RetrievalResult.id results)
      = map RetrievalResult.score
          (HybridRetriever._keyword_search self query top_k) /\
      (StronglySorted (Py.strict_desc RetrievalResult.score) keyword ->
       map RetrievalResult.id results
       = map RetrievalResult.id
           (HybridRetriever._keyword_search self query top_k)))).
Proof.
  intros keyword only_semantic Hsem HS HK. split.
  - intros Hsorted Hpos.
    assert (Heq :
      HybridRetriever.retrieve w self query top_k threshold rerank 1%Qc
      = Ok (Py.list_upto
              (HybridRetriever.semantic_then_keyword semantic keyword) top_k)).
    { unfold HybridRetriever.retrieve. rewrite Hsem. fold keyword.
      rewrite merged_values_weight_one by assumption.
      now rewrite semantic_then_keyword_sorted. }
    split; [exact Heq|]. intros direct Hdirect Hhits Hlen. rewrite Heq.
    destruct (retrieve_prefix_of_wider w self query top_k threshold direct
                semantic Hdirect Hsem Hhits Hlen) as [rest ->].
    unfold HybridRetriever.semantic_then_keyword.
    rewrite <- app_assoc, list_upto_app_le by lia.
    now rewrite list_upto_all by lia.
  - destruct (ranking_weight_zero semantic keyword HS HK
                (keyword_scores_positive self query (top_k * 2))
                (keyword_search_sorted self query (top_k * 2)))
      as (ranked & Hids & Hperm & Hscores & Hstrict).
    set (results :=
      Py.list_upto
        (Py.sorted_desc RetrievalResult.score
           (dict_values
              (HybridRetriever.merge_keyword 0 keyword
                 (HybridRetriever.merge_semantic 0 semantic)))) top_k).
    assert (Hres : map RetrievalResult.id results
                   = Py.list_upto
                       (ranked ++ map RetrievalResult.id only_semantic) top_k).
    { unfold results. rewrite list_upto_map. now rewrite Hids. }
    exists results, ranked.
    split; [unfold HybridRetriever.retrieve; rewrite Hsem; reflexivity|].
    split; [exact Hres|]. split; [exact Hperm|]. split; [exact Hscores|].
    split; [exact Hstrict|]. intros Hk.
    assert (Hlen : length ranked = length keyword).
    { rewrite (Permutation_length Hperm). apply length_map. }
    assert (Hcut : map RetrievalResult.id results = Py.list_upto ranked top_k).
    { rewrite Hres. apply list_upto_app_le. lia. }
    rewrite Hcut, keyword_search_prefix by lia. fold keyword. split.
    + now rewrite !list_upto_map, Hscores.
    + intros Hs. now rewrite (Hstrict Hs), list_upto_map.
Qed.

Ltac by_computation :=
  vm_compute; first [reflexivity | discriminate | exact I].

Ltac sorted_by_computation :=
  vm_compute; repeat constructor; by_computation.

(** Four calls over the three demo chunks. With weight 1: under a threshold
    of 1/2, which one semantic result passes, a keyword hit is appended;
    under the threshold 0 the narrow semantic call fills its two places and
    the hybrid result is that call's. With weight 0: a query whose three
    hits tie at 1/3, and one whose keyword scores are 3/4, 2/4 and 1/4. *)
Lemma C4_hybrid_weight_boundaries_witness :
  (let semantic :=
     match RAGRetriever.retrieve Demo.world Demo.retriever "beta gamma" (2 * 2)
             (Q2Qc (1 # 2)) false with
     | Ok l => l
     | Raise _ => []
     end in
   let keyword :=
     HybridRetriever._keyword_search Demo.retriever "beta gamma" (2 * 2) in
   HybridRetriever.retrieve Demo.world Demo.retriever "beta gamma" 2
     (Q2Qc (1 # 2)) false 1%Qc
   = Ok (Py.list_upto (HybridRetriever.semantic_then_keyword semantic keyword)
           2)) /\
  HybridRetriever.retrieve Demo.world Demo.retriever "beta gamma" 2 0%Qc false
    1%Qc
  = RAGRetriever.retrieve Demo.world Demo.retriever "beta gamma" 2 0%Qc false /\
  (let keyword :=
     HybridRetriever._keyword_search Demo.retriever "gamma alpha zzzzz" (3 * 2)
   in
   exists (results : list RetrievalResult.t) (ranked : list string),
     HybridRetriever.retrieve Demo.world Demo.retriever "gamma alpha zzzzz" 3
       0%Qc false 0%Qc = Ok results /\
     map RetrievalResult.id results = Py.list_upto (ranked ++ []) 3 /\
     Permutation ranked (map RetrievalResult.id keyword) /\
     map (HybridRetriever.keyword_score_of keyword) ranked
     = map RetrievalResult.score keyword /\
     map (HybridRetriever.keyword_score_of keyword)
       (map RetrievalResult.id results)
     = map RetrievalResult.score
         (HybridRetriever._keyword_search Demo.retriever "gamma alpha zzzzz"
            3)) /\
  (exists results : list RetrievalResult.t,
     HybridRetriever.retrieve Demo.world Demo.retriever
       "beta gamma delta alpha" 2 0%Qc false 0%Qc = Ok results /\
     map RetrievalResult.id results
     = map RetrievalResult.id
         (HybridRetriever._keyword_search Demo.retriever
            "beta gamma delta alpha" 2)).
Proof.
  split; [|split; [|split]].
  - intros semantic keyword.
    refine (proj1 (proj1
      (C4_hybrid_weight_boundaries Demo.world Demo.retriever "beta gamma" 2
         (Q2Qc (1 # 2)) false semantic _ _ _) _ _)).
    + by_computation.
    + apply (bool_decide_unpack _). by_computation.
    + apply (bool_decide_unpack _). by_computation.
    + sorted_by_computation.
    + sorted_by_computation.
  - refine (eq_trans (proj2 (proj1
      (C4_hybrid_weight_boundaries Demo.world Demo.retriever "beta gamma" 2
         0%Qc false
         match RAGRetriever.retrieve Demo.world Demo.retriever "beta gamma"
                 (2 * 2) 0%Qc false with
         | Ok l => l
         | Raise _ => []
         end _ _ _) _ _)
        match RAGRetriever.retrieve Demo.world Demo.retriever "beta gamma" 2
                0%Qc false with
        | Ok l => l
        | Raise _ => []
        end _ _ _) _).
    + by_computation.
    + apply (bool_decide_unpack _). by_computation.
    + apply (bool_decide_unpack _). by_computation.
    + sorted_by_computation.
    + sorted_by_computation.
    + by_computation.
    + by_computation.
    + by_computation.
    + by_computation.
  - intros keyword.
    destruct (proj2
      (C4_hybrid_weight_boundaries Demo.world Demo.retriever
         "gamma alpha zzzzz" 3 0%Qc false
         match RAGRetriever.retrieve Demo.world Demo.retriever
                 "gamma alpha zzzzz" (3 * 2) 0%Qc false with
         | Ok l => l
         | Raise _ => []
         end ltac:(by_computation)
         ltac:(apply (bool_decide_unpack _); by_computation)
         ltac:(apply (bool_decide_unpack _); by_computation)))
      as (results & ranked & Hres & Hids & Hperm & Hscores & _ & Hcut).
    exists results, ranked.
    split; [exact Hres|]. split; [exact Hids|]. split; [exact Hperm|].
    split; [exact Hscores|]. apply Hcut. clear.
    vm_compute. split; intros H; discriminate H.
  - destruct (proj2
      (C4_hybrid_weight_boundaries Demo.world Demo.retriever
         "beta gamma delta alpha" 2 0%Qc false
         match RAGRetriever.retrieve Demo.world Demo.retriever
                 "beta gamma delta alpha" (2 * 2) 0%Qc false with
         | Ok l => l
         | Raise _ => []
         end ltac:(by_computation)
         ltac:(apply (bool_decide_unpack _); by_computation)
         ltac:(apply (bool_decide_unpack _); by_computation)))
      as (results & ranked & Hres & _ & _ & _ & _ & Hcut).
    exists results. split; [exact Hres|]. clear Hres.
    apply Hcut; clear; [|sorted_by_computation].
    vm_compute. split; intros H; discriminate H.
Defined.

(** ** The flat index meets the search contract used above *)

Lemma imap_positions {A} (g : A -> Qc) (l : list A) (o : nat) :
  map snd (imap (fun i v => (g v, Z.of_nat (o + i))) l)
  = map Z.of_nat (seq o (length l)).
Proof.
  revert o. induction l as [|x l IH]; intros o; [reflexivity|].
  cbn [imap map seq length snd]. f_equal; [lia|].
  rewrite <- IH. f_equal. apply imap_ext. intros i y _. cbn.
  do 2 f_equal. lia.
Qed.

Lemma padding_out_of_range (self : RAGRetriever.t) (a b : nat) :
  List.filter (RAGRetriever.in_range self) (take a (repeat (0%Qc, -1) b)) = [].
Proof.
  revert a. induction b as [|b IH]; intros a;
    [cbn [repeat]; now rewrite take_nil|].
  destruct a as [|a]; [reflexivity|]. cbn [repeat take List.filter].
  unfold RAGRetriever.in_range at 1. cbn [snd]. apply IH.
Qed.

(** Asked for at least as many neighbours as it stores vectors, the flat
    index reports every position once, and [-1] in the places left. *)
Lemma flat_search_reports_every_position (self : RAGRetriever.t)
    (index : FaissIndex) (query : Vec) (k : Z) :
  length (RAGRetriever.chunks self) = length (xb index) ->
  Z.of_nat (length (xb index)) <= k ->
  Permutation
    (map snd
       (List.filter (RAGRetriever.in_range self) (flat_search index query k)))
    (map Z.of_nat (seq 0 (length (RAGRetriever.chunks self)))).
Proof.
  intros Hlen Hk. unfold flat_search.
  set (scored := imap (fun i v => (l2_sqr query v, Z.of_nat i)) (xb index)).
  set (nearest := Py.sorted_desc (fun p : Qc * Z => (- fst p)%Qc) scored).
  assert (Hpos : map snd scored = map Z.of_nat (seq 0 (length (xb index))))
    by (apply (imap_positions (l2_sqr query) (xb index) 0)).
  assert (Hperm : Permutation nearest scored) by apply sorted_desc_perm.
  assert (Hn : length nearest = length (xb index)).
  { rewrite (Permutation_length Hperm). unfold scored. apply length_imap. }
  rewrite take_app, List.filter_app, map_app.
  rewrite take_ge by lia.
  assert (Hin : List.filter (RAGRetriever.in_range self) nearest = nearest).
  { apply forallb_filter_id. apply forallb_forall. intros [dist idx] Hp.
    assert (Hidx : idx ∈ map snd scored).
    { apply list_elem_of_fmap. exists (dist, idx). split; [reflexivity|].
      rewrite <- Hperm. now apply list_elem_of_In. }
    rewrite Hpos in Hidx. apply list_elem_of_fmap in Hidx as (i & -> & Hi).
    apply list_elem_of_In, in_seq in Hi.
    unfold RAGRetriever.in_range. cbn [snd]. lia. }
  assert (Hout :
    List.filter (RAGRetriever.in_range self)
      (take (Z.to_nat k - length nearest) (repeat (0%Qc, -1) (Z.to_nat k)))
    = []).
  { apply padding_out_of_range. }
  rewrite Hin, Hout, app_nil_r, Hlen, <- Hpos.
  now apply Permutation_map.
Qed.

Lemma take_repeat {A} (x : A) (m a : nat) :
  (m <= a)%nat -> take m (repeat x a) = repeat x m.
Proof.
  revert a. induction m as [|m IH]; intros a Hle; [reflexivity|].
  destruct a as [|a]; [lia|]. cbn [repeat take]. f_equal. apply IH. lia.
Qed.

(** Asked for [k] neighbours, the flat index reports the first [k] pairs of
    what it reports when asked for twice as many. *)
Lemma flat_search_prefix (index : FaissIndex) (query : Vec) (k : Z) :
  0 <= k ->
  flat_search index query k = Py.list_upto (flat_search index query (k * 2)) k.
Proof.
  intros Hk. rewrite list_upto_take by exact Hk. unfold flat_search.
  set (nearest := Py.sorted_desc _ _).
  rewrite take_take. replace (Z.to_nat k `min` Z.to_nat (k * 2))%nat
    with (Z.to_nat k) by lia.
  rewrite !take_app. f_equal.
  rewrite !take_repeat by lia. reflexivity.
Qed.

(** So a world whose index search is the flat one meets the hypothesis on
    the reported pairs made for the hybrid retrieval with weight 1. *)
Lemma flat_hits_prefix (w : World) (self : RAGRetriever.t) (query : string)
    (top_k : Z) :
  search w = flat_search -> 0 <= top_k ->
  RAGRetriever.hits w self query top_k false
  = Py.list_upto (RAGRetriever.hits w self query (top_k * 2) false) top_k.
Proof.
  intros Hsearch Hk. unfold RAGRetriever.hits. rewrite Hsearch.
  destruct (RAGRetriever.index self) as [index|];
    [|now rewrite list_upto_take by exact Hk; rewrite take_nil].
  destruct (RAGRetriever.embedding_model self) as [model|];
    [|now rewrite list_upto_take by exact Hk; rewrite take_nil].
  destruct (model [query]) as [|query_embedding rest];
    [now rewrite list_upto_take by exact Hk; rewrite take_nil|].
  now apply flat_search_prefix.
Qed.

(** * Further properties *)

(** ** Dictionaries: reading what was set *)

Lemma dict_get_set_eq {V} (M : PyDict V) (k : string) (v : V) :
  dict_get (dict_set M k v) k = Some v.
Proof.
  induction M as [|[k' v'] M IH]; simpl.
  - now rewrite String.eqb_refl.
  - destruct (String.eqb k' k) eqn:E; simpl; now rewrite E.
Qed.

Lemma dict_get_set_ne {V} (M : PyDict V) (k k' : string) (v : V) :
  k <> k' -> dict_get (dict_set M k v) k' = dict_get M k'.
Proof.
  intros Hne. induction M as [|[k0 v0] M IH]; simpl.
  - destruct (String.eqb_spec k k'); [congruence|reflexivity].
  - destruct (String.eqb_spec k0 k) as [->|Hk]; simpl.
    + destruct (String.eqb_spec k k'); [congruence|reflexivity].
    + destruct (String.eqb k0 k'); [reflexivity|exact IH].
Qed.

Lemma dict_set_keys {V} (M : PyDict V) (k : string) (v : V) :
  map fst (dict_set M k v)
  = map fst M ++ match dict_get M k with Some _ => [] | None => [k] end.
Proof.
  induction M as [|[k' v'] M IH]; simpl; [reflexivity|].
  destruct (String.eqb k' k); simpl; [now rewrite app_nil_r|].
  now rewrite IH.
Qed.

(** ** Chunks numbered in order *)

Lemma numbered_nil doc_id mdf : numbered doc_id mdf [].
Proof. split; reflexivity. Qed.

Lemma numbered_snoc doc_id mdf (l : list Chunk) (c : Chunk) :
  numbered doc_id mdf l ->
  id c = chunk_id doc_id (Z.of_nat (length l)) ->
  metadata c = mdf (Z.of_nat (length l)) ->
  numbered doc_id mdf (l ++ [c]).
Proof.
  intros [Hid Hmd] Hc Hm. unfold numbered.
  rewrite !map_app, List.length_app, Nat.add_1_r, seq_S, !map_app.
  cbn [map Nat.add]. now rewrite Hid, Hmd, Hc, Hm.
Qed.

(** ** FixedSizeChunker: what a finished run returns *)

Section FixedSizeRun.

Import FixedSizeChunker.

Variable self : t.
Variables text doc_id : string.
Variable md : Dict.

Local Abbreviation run_inv := (fixed_inv text doc_id md).
Local Abbreviation win_inv := (windows_inv text).

Lemma fixed_inv_body (st : Locals) :
  run_inv st -> run_inv (body self text doc_id md st).
Proof.
  unfold fixed_inv. intros (Hidx & Hnum & Hall). unfold body.
  set (end1 := if _ <? _ then _ else _).
  set (chunk_text := Py.strip (Py.slice text (start st) end1)).
  destruct (Py.truthy chunk_text) eqn:E; cbn [chunks chunk_idx];
    [|repeat split; auto; apply Hnum].
  split; [rewrite List.length_app; simpl; lia|]. split.
  - apply numbered_snoc; [exact Hnum| |]; cbn [id metadata]; now rewrite Hidx.
  - apply Forall_app. split; [exact Hall|]. constructor; [|constructor].
    cbn [content start_index end_index]. split; [|reflexivity].
    intros Hempty. fold chunk_text in Hempty. unfold Py.truthy in E.
    now rewrite Hempty in E.
Qed.

Lemma fixed_inv_loop (fuel : nat) (st : Locals) (l : list Chunk) :
  run_inv st -> loop fuel self text doc_id md st = Some l ->
  exists st', chunks st' = l /\ run_inv st'.
Proof.
  revert st. induction fuel as [|fuel IH]; intros st Hinv; simpl;
    destruct (start st <? Py.len text); try discriminate.
  - intros H. injection H as <-. eauto.
  - intros H. eapply IH; [|exact H]. now apply fixed_inv_body.
  - intros H. injection H as <-. eauto.
Qed.

(** With an overlap of zero or less the start advances, and the loop
    ends. *)
Lemma loop_ends_nonpositive_overlap (fuel : nat) (st : Locals) :
  overlap self <= 0 -> 0 < chunk_size self ->
  (Z.to_nat (Py.len text - start st) <= fuel)%nat ->
  exists l, loop fuel self text doc_id md st = Some l.
Proof.
  intros Ho Hc. revert st.
  induction fuel as [|fuel IH]; intros st Hf; simpl;
    destruct (start st <? Py.len text) eqn:E; eauto; try lia.
  apply IH. pose proof (body_start_gt self text doc_id md st Hc). lia.
Qed.

Lemma windows_inv_body (st : Locals) :
  overlap self <= 0 -> 0 < chunk_size self -> start st < Py.len text ->
  win_inv st -> win_inv (body self text doc_id md st).
Proof.
  unfold windows_inv. intros Ho Hc Hs (H0 & Hall & Hsorted).
  pose proof (body_start_gt self text doc_id md st Hc Hs) as Hgt.
  pose proof (body_start_le self text doc_id md st) as Hle.
  unfold body in *. cbn [start] in Hgt, Hle.
  set (end1 := if _ <? _ then _ else _) in *.
  assert (Hold : Forall (fun c => 0 <= start_index c < end_index c /\
                                  end_index c <= Py.len text /\
                                  end_index c <= end1 - overlap self)
                   (chunks st)).
  { eapply Forall_impl; [exact Hall|]. cbn beta. intros c H. lia. }
  destruct (Py.truthy _); cbn [chunks start chunk_idx].
  - split; [lia|]. split.
    + apply Forall_app. split; [exact Hold|]. constructor; [|constructor].
      cbn [start_index end_index]. lia.
    + apply StronglySorted_app_2; [|exact Hsorted|repeat constructor].
      intros a b Ha Hb. apply list_elem_of_singleton in Hb. subst b.
      cbn [start_index]. rewrite Forall_forall in Hall.
      specialize (Hall a Ha). lia.
  - split; [lia|]. split; [exact Hold|exact Hsorted].
Qed.

Lemma windows_inv_loop (fuel : nat) (st : Locals) (l : list Chunk) :
  overlap self <= 0 -> 0 < chunk_size self ->
  win_inv st -> loop fuel self text doc_id md st = Some l ->
  exists st', chunks st' = l /\ win_inv st'.
Proof.
  intros Ho Hc. revert st. induction fuel as [|fuel IH]; intros st Hinv; simpl;
    destruct (start st <? Py.len text) eqn:E; try discriminate.
  - intros H. injection H as <-. eauto.
  - intros H. eapply IH; [|exact H]. apply windows_inv_body; auto. lia.
  - intros H. injection H as <-. eauto.
Qed.

End FixedSizeRun.

(** X1: for a positive chunk size, [FixedSizeChunker.chunk] returns (after
    some number of iterations) exactly when the text is empty or the
    overlap is zero or negative; on a non-empty text every overlap of one
    or more keeps the loop running for ever. *)
Theorem X1_fixed_chunker_returns_iff (self : FixedSizeChunker.t)
    (text doc_id : string) (metadata : option Dict) :
  0 < FixedSizeChunker.chunk_size self ->
  (exists fuel l,
      FixedSizeChunker.chunk fuel self text doc_id metadata = Some l) <->
  (text = EmptyString \/ FixedSizeChunker.overlap self <= 0).
Proof.
  intros Hc. split.
  - intros (fuel & l & Hrun).
    destruct (String.eqb_spec text EmptyString) as [->|Hne]; [now left|].
    right. destruct (Z.le_gt_cases (FixedSizeChunker.overlap self) 0) as [H|H];
      [exact H|].
    rewrite FixedSizeChunker_diverges in Hrun by (auto; lia). discriminate.
  - intros [->|Ho].
    + exists 0%nat, []. reflexivity.
    + exists (String.length text).
      apply loop_ends_nonpositive_overlap; auto.
      unfold FixedSizeChunker.init, Py.len. simpl. lia.
Qed.

Lemma X1_fixed_chunker_returns_witness :
  (exists fuel l,
      FixedSizeChunker.chunk fuel Demo.fixed10 Demo.two_sentences "d" None
      = Some l) <->
  (Demo.two_sentences = EmptyString
   \/ FixedSizeChunker.overlap Demo.fixed10 <= 0).
Proof.
  apply (X1_fixed_chunker_returns_iff Demo.fixed10 Demo.two_sentences "d" None).
  reflexivity.
Defined.

(** X2: the chunks a finished run of [FixedSizeChunker.chunk] returns are
    numbered in order (ids [doc_id_chunk_0], [doc_id_chunk_1], ..., the
    caller's metadata with [chunk_index] set to the same number), and each
    has a non-empty content, the stripped text between its [start_index]
    and its [end_index]. *)
Theorem X2_fixed_chunks_numbered_and_cut (fuel : nat)
    (self : FixedSizeChunker.t) (text doc_id : string)
    (metadata : option Dict) (l : list Chunk) :
  FixedSizeChunker.chunk fuel self text doc_id metadata = Some l ->
  numbered doc_id
    (fun i => dict_set (or_empty metadata) "chunk_index" (VInt i)) l /\
  Forall (fun c =>
            content c <> EmptyString /\
            content c = Py.strip (Py.slice text (start_index c) (end_index c)))
    l.
Proof.
  intros Hrun. unfold FixedSizeChunker.chunk in Hrun.
  apply fixed_inv_loop in Hrun as (st & <- & _ & Hnum & Hall); [auto|].
  split; [reflexivity|]. split; [apply numbered_nil|constructor].
Qed.

Lemma X2_fixed_chunks_witness :
  let l :=
    match FixedSizeChunker.chunk 34 Demo.fixed10 Demo.two_sentences "d" None
    with Some l => l | None => [] end in
  numbered "d" (fun i => dict_set (or_empty None) "chunk_index" (VInt i)) l /\
  Forall (fun c =>
            content c <> EmptyString /\
            content c
            = Py.strip
                (Py.slice Demo.two_sentences (start_index c) (end_index c)))
    l.
Proof.
  apply (X2_fixed_chunks_numbered_and_cut 34 Demo.fixed10 Demo.two_sentences
           "d" None).
  vm_compute. reflexivity.
Defined.

(** X3: with an overlap of zero or less and a positive chunk size,
    [FixedSizeChunker.chunk] returns within [len(text)] iterations, and the
    windows of its chunks lie inside the text, each with
    [0 <= start_index < end_index <= len(text)], one after the other: a
    chunk ends at or before the start of every later one. *)
Theorem X3_fixed_windows_in_order (self : FixedSizeChunker.t)
    (text doc_id : string) (metadata : option Dict) :
  FixedSizeChunker.overlap self <= 0 ->
  0 < FixedSizeChunker.chunk_size self ->
  exists l,
    FixedSizeChunker.chunk (String.length text) self text doc_id metadata
    = Some l /\
    Forall (fun c => 0 <= start_index c < end_index c /\
                     end_index c <= Py.len text) l /\
    StronglySorted (fun a b => end_index a <= start_index b) l.
Proof.
  intros Ho Hc.
  destruct (loop_ends_nonpositive_overlap self text doc_id (or_empty metadata)
              (String.length text) FixedSizeChunker.init Ho Hc) as [l Hl].
  { unfold FixedSizeChunker.init, Py.len. simpl. lia. }
  exists l. split; [exact Hl|].
  apply windows_inv_loop in Hl as (st & <- & _ & Hall & Hsorted); auto.
  - split; [|exact Hsorted]. eapply Forall_impl; [exact Hall|].
    cbn beta. intros c H. lia.
  - split; [reflexivity|]. split; constructor.
Qed.

Lemma X3_fixed_windows_witness :
  exists l,
    FixedSizeChunker.chunk (String.length Demo.two_sentences) Demo.fixed10
      Demo.two_sentences "d" None = Some l /\
    Forall (fun c => 0 <= start_index c < end_index c /\
                     end_index c <= Py.len Demo.two_sentences) l /\
    StronglySorted (fun a b => end_index a <= start_index b) l.
Proof.
  apply (X3_fixed_windows_in_order Demo.fixed10 Demo.two_sentences "d" None).
  - vm_compute. discriminate.
  - reflexivity.
Defined.

(** ** SemanticChunker and CodeAwareChunker: numbering *)

Lemma numbered_each doc_id mdf (l : list Chunk) :
  numbered doc_id mdf l ->
  Forall (fun c => exists i, id c = chunk_id doc_id i /\ metadata c = mdf i) l.
Proof.
  intros [Hid Hmd]. apply Forall_forall. intros c Hc.
  apply list_elem_of_lookup in Hc as [n Hn].
  assert (Hlt : (n < length l)%nat) by (eapply lookup_lt_Some; eauto).
  exists (Z.of_nat n). split.
  - apply (f_equal (fun x => x !! n)) in Hid.
    rewrite !list_lookup_fmap, Hn, lookup_seq_lt in Hid by exact Hlt.
    simpl in Hid. congruence.
  - apply (f_equal (fun x => x !! n)) in Hmd.
    rewrite !list_lookup_fmap, Hn, lookup_seq_lt in Hmd by exact Hlt.
    simpl in Hmd. congruence.
Qed.

Section SemanticNumbering.

Import SemanticChunker.

Variable self : t.
Variables text doc_id : string.
Variable md : Dict.

Local Abbreviation inv := (semantic_inv doc_id md).

Lemma semantic_inv_flush (st : Locals) :
  inv st -> inv (flush_if_min self doc_id md st).
Proof.
  unfold semantic_inv. intros [Hidx Hnum]. unfold flush_if_min.
  destruct (_ >=? _); [|auto]. cbn [chunks chunk_idx].
  split; [rewrite List.length_app; simpl; lia|].
  apply numbered_snoc; [exact Hnum| |]; cbn [id metadata]; now rewrite Hidx.
Qed.

Lemma semantic_inv_add_unit (sep : string) (st : Locals) (unit : string) :
  inv st -> inv (add_unit self text doc_id md sep st unit).
Proof.
  intros Hinv. unfold add_unit. destruct (_ >? _); [|exact Hinv].
  apply (semantic_inv_flush st Hinv).
Qed.

Lemma semantic_inv_fold_units (sep : string) (units : list string)
    (st : Locals) :
  inv st -> inv (fold_left (add_unit self text doc_id md sep) units st).
Proof.
  revert st. induction units as [|u units IH]; intros st Hinv; [exact Hinv|].
  apply IH. now apply semantic_inv_add_unit.
Qed.

Lemma semantic_inv_sections (sections : list string) (st : Locals) :
  inv st -> inv (fold_left (section_step self text doc_id md) sections st).
Proof.
  revert st. induction sections as [|s sections IH]; intros st Hinv;
    [exact Hinv|].
  apply IH. unfold section_step. destruct (_ >? _).
  - now apply semantic_inv_fold_units.
  - now apply semantic_inv_add_unit.
Qed.

End SemanticNumbering.


(** X4: the chunks [SemanticChunker.chunk] returns are numbered in order:
    the i-th has the id [doc_id_chunk_i] and the caller's metadata with
    [chunk_index] set to [i]; every other key of the caller's metadata
    reads as the caller gave it. *)
Theorem X4_semantic_chunks_numbered (self : SemanticChunker.t)
    (text doc_id : string) (meta : option Dict) :
  let l := SemanticChunker.chunk self text doc_id meta in
  numbered doc_id (fun i => dict_set (or_empty meta) "chunk_index" (VInt i)) l /\
  Forall (fun c => forall k,
              k <> "chunk_index" ->
              dict_get (metadata c) k = dict_get (or_empty meta) k) l.
Proof.
  intros l.
  assert (Hnum : numbered doc_id
                   (fun i => dict_set (or_empty meta) "chunk_index" (VInt i)) l).
  { subst l. unfold SemanticChunker.chunk.
    destruct (semantic_inv_sections self text doc_id (or_empty meta)
                (SemanticChunker.split_sections text) SemanticChunker.init)
      as [Hidx Hnum].
    { split; [reflexivity|apply numbered_nil]. }
    fold (SemanticChunker.after_sections self text doc_id (or_empty meta))
      in Hidx, Hnum.
    destruct (_ >=? _); [|exact Hnum].
    apply numbered_snoc; [exact Hnum| |];
      cbn [id metadata SemanticChunker.last_chunk]; now rewrite Hidx. }
  split; [exact Hnum|].
  eapply Forall_impl; [apply (numbered_each _ _ _ Hnum)|].
  cbn beta. intros c (i & _ & Hmd) k Hk. rewrite Hmd.
  apply dict_get_set_ne. congruence.
Qed.

(** X5: a text that is one section (no heading after a newline) and fits
    [max_chunk_size] gives one chunk, the stripped text with the offsets 0
    and [len(text)], when [len(text) + 1] reaches [min_chunk_size] (the
    buffer holds a newline before the text), and no chunk at all below
    that. *)
Theorem X5_semantic_single_section (self : SemanticChunker.t)
    (text doc_id : string) (meta : option Dict) :
  SemanticChunker.split_sections text = [text] ->
  Py.len text <= SemanticChunker.max_chunk_size self ->
  SemanticChunker.chunk self text doc_id meta
  = if Py.len text + 1 >=? SemanticChunker.min_chunk_size self
    then [mkChunk (chunk_id doc_id 0) (Py.strip text)
            (dict_set (or_empty meta) "chunk_index" (VInt 0)) 0 (Py.len text)]
    else [].
Proof.
  intros Hone Hfit.
  unfold SemanticChunker.chunk, SemanticChunker.after_sections.
  rewrite Hone. cbn [fold_left]. unfold SemanticChunker.section_step.
  replace (Py.len text >? SemanticChunker.max_chunk_size self) with false
    by lia.
  unfold SemanticChunker.add_unit.
  change (Py.len (SemanticChunker.current_chunk SemanticChunker.init))
    with 0.
  replace (0 + Py.len text >? SemanticChunker.max_chunk_size self) with false
    by lia.
  cbn [SemanticChunker.current_chunk SemanticChunker.init
       SemanticChunker.chunks SemanticChunker.current_start
       SemanticChunker.chunk_idx].
  change (EmptyString +:+ SemanticChunker.nl +:+ text)
    with (String SemanticChunker.newline text).
  replace (Py.len (String SemanticChunker.newline text))
    with (Py.len text + 1) by (unfold Py.len; cbn [String.length]; lia).
  destruct (_ >=? _); reflexivity.
Qed.

Lemma X5_semantic_single_section_witness :
  SemanticChunker.chunk (SemanticChunker.mk 10 3) "hello" "doc" None
  = if Py.len "hello" + 1 >=? 3
    then [mkChunk (chunk_id "doc" 0) (Py.strip "hello")
            (dict_set (or_empty None) "chunk_index" (VInt 0)) 0
            (Py.len "hello")]
    else [].
Proof.
  apply (X5_semantic_single_section (SemanticChunker.mk 10 3) "hello" "doc"
           None).
  - reflexivity.
  - vm_compute. discriminate.
Defined.

(** ** CodeAwareChunker *)

Section CodeNumbering.

Import CodeAwareChunker.

Variable self : t.
Variable doc_id : string.
Variable md : Dict.

Local Abbreviation inv := (code_inv doc_id md).

Lemma code_inv_flush (st : Locals) : inv st -> inv (flush doc_id md st).
Proof.
  unfold code_inv. intros (Hidx & Hnum & Hall). unfold flush.
  destruct (Py.truthy _) eqn:E; [|auto]. cbn [chunks chunk_idx].
  split; [rewrite List.length_app; simpl; lia|]. split.
  - apply numbered_snoc; [exact Hnum| |]; cbn [id metadata]; now rewrite Hidx.
  - apply Forall_app. split; [exact Hall|]. repeat constructor.
    cbn [content]. intros Hempty. unfold Py.truthy in E.
    now rewrite Hempty in E.
Qed.

Lemma code_inv_sections (sections : list string) (st : Locals) :
  inv st -> inv (fold_left (section_step self doc_id md) sections st).
Proof.
  revert st. induction sections as [|s sections IH]; intros st Hinv;
    [exact Hinv|].
  apply IH. unfold section_step. destruct (_ >? _); [|exact Hinv].
  apply (code_inv_flush st Hinv).
Qed.

End CodeNumbering.

(** X6: the chunks [CodeAwareChunker.chunk] returns are numbered in order
    (ids [doc_id_chunk_i], metadata with [chunk_index] set to [i] and
    [type] set to "code"), none has an empty content, and all report the
    offsets [start_index = end_index = 0]. *)
Theorem X6_code_chunks (self : CodeAwareChunker.t) (text doc_id : string)
    (meta : option Dict) :
  let l := CodeAwareChunker.chunk self text doc_id meta in
  numbered doc_id (CodeAwareChunker.code_metadata (or_empty meta)) l /\
  Forall (fun c =>
            content c <> EmptyString /\
            start_index c = 0 /\ end_index c = 0 /\
            dict_get (metadata c) "type" = Some (VStr "code")) l.
Proof.
  intros l. subst l. unfold CodeAwareChunker.chunk.
  assert (Hinit : code_inv doc_id (or_empty meta) CodeAwareChunker.init).
  { split; [reflexivity|]. split; [apply numbered_nil|constructor]. }
  destruct (code_inv_flush doc_id (or_empty meta) _
              (code_inv_sections self doc_id (or_empty meta)
                 (CodeAwareChunker.split_definitions text)
                 CodeAwareChunker.init Hinit))
    as (_ & Hnum & Hall).
  split; [exact Hnum|].
  pose proof (numbered_each _ _ _ Hnum) as Hmd.
  rewrite Forall_forall in Hall, Hmd. apply Forall_forall. intros c Hc.
  destruct (Hall c Hc) as (H1 & H2 & H3).
  destruct (Hmd c Hc) as (i & _ & Hi).
  repeat split; auto. rewrite Hi. apply dict_get_set_eq.
Qed.

Lemma append_cons (a : ascii) (s1 s2 : string) :
  String a s1 +:+ s2 = String a (s1 +:+ s2).
Proof. reflexivity. Qed.

Lemma len_append (s1 s2 : string) : Py.len (s1 +:+ s2) = Py.len s1 + Py.len s2.
Proof.
  unfold Py.len. induction s1 as [|a s1 IH]; [reflexivity|].
  rewrite append_cons. cbn [String.length]. lia.
Qed.

Lemma append_assoc_string (s1 s2 s3 : string) :
  (s1 +:+ s2) +:+ s3 = s1 +:+ (s2 +:+ s3).
Proof.
  induction s1 as [|a s1 IH]; [reflexivity|].
  rewrite !append_cons. now rewrite IH.
Qed.

Lemma append_nil_r (s : string) : s +:+ EmptyString = s.
Proof.
  induction s as [|a s IH]; [reflexivity|]. rewrite append_cons. now rewrite IH.
Qed.

Lemma split_definitions_cons (s : string) :
  exists h t, CodeAwareChunker.split_definitions s = h :: t.
Proof.
  destruct s as [|c r]; cbn [CodeAwareChunker.split_definitions]; [eauto|].
  destruct (_ && _); [eauto|].
  destruct (CodeAwareChunker.split_definitions r); simpl; eauto.
Qed.

(** Gluing the sections gives back at most the characters of the text. *)
Lemma glued_len (text : string) : Py.len (glued text) <= Py.len text.
Proof.
  unfold glued. induction text as [|c r IH]; [reflexivity|].
  cbn [CodeAwareChunker.split_definitions].
  assert (Hr : Py.len (String c r) = Py.len r + 1)
    by (unfold Py.len; cbn [String.length]; lia).
  destruct (_ && _).
  - cbn [fold_right]. change (EmptyString +:+ ?x) with x. lia.
  - destruct (split_definitions_cons r) as (h & t & Hsplit).
    rewrite Hsplit in *. cbn [SemanticChunker.cons_first fold_right] in *.
    rewrite append_cons.
    replace (Py.len (String c (h +:+ fold_right String.append EmptyString t)))
      with (Py.len (h +:+ fold_right String.append EmptyString t) + 1)
      by (unfold Py.len; cbn [String.length]; lia).
    lia.
Qed.

Lemma code_sections_fit (self : CodeAwareChunker.t) (doc_id : string)
    (md : Dict) (sections : list string) (cur : string) :
  Py.len cur + Py.len (fold_right String.append EmptyString sections)
  <= CodeAwareChunker.max_chunk_size self ->
  fold_left (CodeAwareChunker.section_step self doc_id md) sections
    (CodeAwareChunker.mkLocals [] cur 0)
  = CodeAwareChunker.mkLocals []
      (cur +:+ fold_right String.append EmptyString sections) 0.
Proof.
  revert cur. induction sections as [|s sections IH]; intros cur Hfit.
  - cbn [fold_left fold_right]. now rewrite append_nil_r.
  - cbn [fold_left fold_right] in *. rewrite len_append in Hfit.
    pose proof (len_nonneg (fold_right String.append EmptyString sections)).
    unfold CodeAwareChunker.section_step at 2.
    cbn [CodeAwareChunker.current_chunk CodeAwareChunker.chunks
         CodeAwareChunker.chunk_idx].
    replace (Py.len cur + Py.len s >? CodeAwareChunker.max_chunk_size self)
      with false by lia.
    rewrite IH by (rewrite len_append; lia).
    now rewrite append_assoc_string.
Qed.

(** X7: a code text that fits [max_chunk_size] is never cut and never
    dropped unless blank: [CodeAwareChunker.chunk] returns the one chunk of
    its sections glued together and stripped (the newline before each
    [def], [class], [function], [const] or [export] is gone), and no chunk
    when that is empty. *)
Theorem X7_code_text_that_fits (self : CodeAwareChunker.t)
    (text doc_id : string) (meta : option Dict) :
  Py.len text <= CodeAwareChunker.max_chunk_size self ->
  CodeAwareChunker.chunk self text doc_id meta
  = if Py.truthy (Py.strip (glued text))
    then [mkChunk (chunk_id doc_id 0) (Py.strip (glued text))
            (CodeAwareChunker.code_metadata (or_empty meta) 0) 0 0]
    else [].
Proof.
  intros Hfit. unfold CodeAwareChunker.chunk, CodeAwareChunker.init.
  pose proof (glued_len text) as Hlen. unfold glued in *.
  rewrite code_sections_fit by (change (Py.len EmptyString) with 0; lia).
  change (EmptyString +:+ ?x) with x.
  unfold CodeAwareChunker.flush.
  cbn [CodeAwareChunker.current_chunk CodeAwareChunker.chunks
       CodeAwareChunker.chunk_idx].
  destruct (Py.truthy _); reflexivity.
Qed.

Lemma X7_code_text_that_fits_witness :
  CodeAwareChunker.chunk CodeAwareChunker.default Demo.two_definitions "doc"
    None
  = if Py.truthy (Py.strip (glued Demo.two_definitions))
    then [mkChunk (chunk_id "doc" 0) (Py.strip (glued Demo.two_definitions))
            (CodeAwareChunker.code_metadata (or_empty None) 0) 0 0]
    else [].
Proof.
  apply (X7_code_text_that_fits CodeAwareChunker.default Demo.two_definitions
           "doc" None).
  vm_compute. discriminate.
Defined.

(** X8: [get_chunker] raises the error "Unknown chunking strategy: <name>"
    exactly for the names other than "fixed", "semantic" and "code",
    whatever the keyword arguments; and the call of [ingest_documents],
    [get_chunker("semantic", max_chunk_size=chunk_size)], gives the
    semantic chunker of that maximum with the default minimum of 100. *)
Theorem X8_get_chunker_unknown_strategy (strategy : string)
    (kwargs : PyDict Z) :
  (get_chunker strategy kwargs
   = inl (ValueError ("Unknown chunking strategy: " +:+ strategy)) <->
   strategy <> "fixed" /\ strategy <> "semantic" /\ strategy <> "code") /\
  (forall chunk_size,
      get_chunker "semantic" [("max_chunk_size", chunk_size)]
      = inr (Semantic (get_semantic_chunker chunk_size))).
Proof.
  split; [|reflexivity].
  unfold get_chunker.
  destruct (String.eqb_spec strategy "fixed") as [->|H1].
  { split; [|intros (H & _); congruence]. destruct (accepts _ _); discriminate. }
  destruct (String.eqb_spec strategy "semantic") as [->|H2].
  { split; [|intros (_ & H & _); congruence].
    destruct (accepts _ _); discriminate. }
  destruct (String.eqb_spec strategy "code") as [->|H3].
  { split; [|intros (_ & _ & H); congruence].
    destruct (accepts _ _); discriminate. }
  split; auto.
Qed.

(** ** OpenAIEmbedding: the batches *)

Lemma fold_left_app_concat {A B} (g : A -> list B) (l : list A)
    (acc : list B) :
  fold_left (fun acc x => acc ++ g x) l acc = acc ++ concat (map g l).
Proof.
  revert acc. induction l as [|x l IH]; intros acc; simpl.
  - now rewrite app_nil_r.
  - now rewrite IH, app_assoc.
Qed.

Lemma embed_as_batches (self : OpenAIEmbedding.t) (texts : list string) :
  OpenAIEmbedding.embed self texts
  = concat (map (OpenAIEmbedding.create self (OpenAIEmbedding.model self))
              (embed_batches texts)).
Proof.
  unfold OpenAIEmbedding.embed, embed_batches.
  rewrite map_map.
  apply (fold_left_app_concat
           (fun i => OpenAIEmbedding.create self (OpenAIEmbedding.model self)
                       (Py.list_slice texts i (i + OpenAIEmbedding.batch_size)))).
Qed.

(** X9: [OpenAIEmbedding.embed] hands the provider the texts in batches that
    put together are the list of texts, in order; no batch is empty and none
    has more than 100 texts (so an empty list makes no call), and the result
    is the provider's answers to the batches, one after the other. *)
Theorem X9_embed_batches (self : OpenAIEmbedding.t) (texts : list string) :
  concat (embed_batches texts) = texts /\
  Forall (fun batch => (1 <= length batch <= 100)%nat) (embed_batches texts) /\
  OpenAIEmbedding.embed self texts
  = concat (map (OpenAIEmbedding.create self (OpenAIEmbedding.model self))
              (embed_batches texts)).
Proof.
  split; [|split; [|apply embed_as_batches]].
  - unfold embed_batches, Py.range_step, OpenAIEmbedding.batch_size.
    destruct (range_step_count (length texts) 100 ltac:(lia)) as [H1 H2].
    change 100 with (Z.of_nat 100).
    pose proof (fold_batches string (fun batch => batch) (fun s => s) 100
                  ltac:(lia)
                  ltac:(intros batch _ _; symmetry; apply map_id)
                  texts _ H1) as Hfold.
    rewrite (fold_left_app_concat
               (fun i => Py.list_slice texts i (i + Z.of_nat 100))) in Hfold.
    cbn [app] in Hfold. rewrite Hfold, map_id. apply take_ge. exact H2.
  - unfold embed_batches, Py.range_step, OpenAIEmbedding.batch_size.
    destruct (range_step_count (length texts) 100 ltac:(lia)) as [H1 _].
    apply Forall_forall. intros batch Hb.
    apply list_elem_of_fmap in Hb as (i & -> & Hi).
    apply list_elem_of_fmap in Hi as (j & -> & Hj).
    apply list_elem_of_In, in_seq in Hj.
    assert (Hlt : (j * 100 < length texts)%nat) by (destruct H1; nia).
    replace (Z.of_nat j * 100) with (Z.of_nat (j * 100)) by lia.
    pose proof (list_slice_batch texts (j * 100) 100 Hlt) as Hslice.
    change (Z.of_nat 100) with 100 in Hslice. rewrite Hslice.
    rewrite length_take, length_drop. lia.
Qed.

(** X10: the property [dimensions] of an OpenAI embedding model is 3072 for
    "text-embedding-3-large" and 1536 for every other model name, in the
    table or not. *)
Theorem X10_openai_dimensions (self : OpenAIEmbedding.t) :
  dimensions_of self
  = if String.eqb (OpenAIEmbedding.model self) "text-embedding-3-large"
    then 3072 else 1536.
Proof.
  unfold dimensions_of, kwarg, openai_dimensions. cbn [dict_get].
  rewrite !(String.eqb_sym _ (OpenAIEmbedding.model self)).
  destruct (String.eqb_spec (OpenAIEmbedding.model self)
              "text-embedding-3-small") as [->|H1]; [reflexivity|].
  destruct (String.eqb (OpenAIEmbedding.model self) "text-embedding-3-large");
    [reflexivity|].
  destruct (String.eqb (OpenAIEmbedding.model self) "text-embedding-ada-002");
    reflexivity.
Qed.

(** ** RAGRetriever.retrieve: what the results are *)

Lemma of_int_nonneg (z : Z) : 0 <= z -> (0 <= RAGRetriever.of_int z)%Qc.
Proof.
  intros Hz. unfold Qcle, RAGRetriever.of_int. cbn [this Q2Qc].
  rewrite !Qred_correct. unfold Qle. simpl. lia.
Qed.

Lemma boost_nonneg (a b : list string) :
  (0 <= RAGRetriever.of_int (Py.inter_size a b) * RAGRetriever.keyword_boost)%Qc.
Proof.
  rewrite <- (Qcmult_0_l RAGRetriever.keyword_boost).
  apply Qcmult_le_compat_r.
  - apply of_int_nonneg. unfold Py.inter_size. lia.
  - unfold Qcle. vm_compute. discriminate.
Qed.

Section RetrieveResults.

Import RAGRetriever.

Variable w : World.
Variable self : t.

Lemma candidate_from_chunk threshold pair r :
  candidate self threshold pair = Some r -> from_chunk self r.
Proof.
  unfold candidate. destruct pair as [dist idx].
  destruct (_ || _) eqn:E; [discriminate|].
  destruct (chunks self !! Z.to_nat idx) as [chunk|] eqn:Hc; [|discriminate].
  destruct (bool_decide _); [|discriminate].
  intros H. injection H as <-. exists (Z.to_nat idx), chunk.
  rewrite Z2Nat.id by lia. repeat split; auto.
Qed.

(** The properties of results that [_rerank] keeps: those of the id, the
    content and the metadata, and a lower bound of the score. *)
Lemma rerank_keeps (P : RetrievalResult.t -> Prop) query results top_k :
  (forall r x,
      P r -> (0 <= x)%Qc ->
      P (RetrievalResult.mk (RetrievalResult.id r) (RetrievalResult.content r)
           (RetrievalResult.score r + x)%Qc (RetrievalResult.metadata r))) ->
  Forall P results -> Forall P (_rerank query results top_k).
Proof.
  intros Hstep Hall. unfold _rerank, Py.list_upto.
  apply Forall_take. rewrite sorted_desc_perm.
  apply Forall_forall. intros r Hr.
  apply list_elem_of_fmap in Hr as (r0 & -> & Hr0).
  rewrite Forall_forall in Hall. apply Hstep; [now apply Hall|].
  apply boost_nonneg.
Qed.

Lemma retrieve_keeps (P : RetrievalResult.t -> Prop) query top_k threshold
    rerank results :
  (forall r x,
      P r -> (0 <= x)%Qc ->
      P (RetrievalResult.mk (RetrievalResult.id r) (RetrievalResult.content r)
           (RetrievalResult.score r + x)%Qc (RetrievalResult.metadata r))) ->
  (forall pair r, candidate self threshold pair = Some r -> P r) ->
  retrieve w self query top_k threshold rerank = Ok results ->
  Forall P results.
Proof.
  intros Hstep Hcand Hret. apply retrieve_Ok in Hret. cbv zeta in Hret.
  subst results. unfold Py.list_upto at 1. apply Forall_take.
  assert (Hfound : Forall P (omap (candidate self threshold)
                               (hits w self query top_k rerank))).
  { apply Forall_forall. intros r Hr.
    apply list_elem_of_omap in Hr as (pair & _ & Hc). eauto. }
  destruct (_ && _); [|exact Hfound]. now apply rerank_keeps.
Qed.

End RetrieveResults.

(** X11: every result [retrieve] returns, with or without rerank, has a
    score of at least the threshold: the rerank only adds to the
    similarity. *)
Theorem X11_retrieve_scores_meet_threshold (w : World)
    (self : RAGRetriever.t) (query : string) (top_k : Z) (threshold : Qc)
    (rerank : bool) (results : list RetrievalResult.t) :
  RAGRetriever.retrieve w self query top_k threshold rerank = Ok results ->
  Forall (fun r => (threshold <= RetrievalResult.score r)%Qc) results.
Proof.
  apply retrieve_keeps.
  - intros r x Hr Hx. cbn [RetrievalResult.score].
    eapply Qcle_trans; [exact Hr|].
    rewrite <- (Qcplus_0_r (RetrievalResult.score r)) at 1.
    now apply Qcplus_le_mono_l.
  - apply candidate_score.
Qed.

Lemma X11_retrieve_scores_witness :
  Forall (fun r => (Q2Qc (1 # 10) <= RetrievalResult.score r)%Qc)
    match RAGRetriever.retrieve Demo.world Demo.retriever "beta zz" 2
            (Q2Qc (1 # 10)) true with
    | Ok l => l
    | Raise _ => []
    end.
Proof.
  apply (X11_retrieve_scores_meet_threshold Demo.world Demo.retriever
           "beta zz" 2 (Q2Qc (1 # 10)) true).
  vm_compute. reflexivity.
Defined.

(** X12: every result [retrieve] returns shows a chunk record of the
    retriever at a position in range, with the record's id (or
    [chunk_<position>] for a record without id), content and metadata:
    positions the search reports outside the records never reach the
    caller. *)
Theorem X12_retrieve_results_are_chunks (w : World) (self : RAGRetriever.t)
    (query : string) (top_k : Z) (threshold : Qc) (rerank : bool)
    (results : list RetrievalResult.t) :
  RAGRetriever.retrieve w self query top_k threshold rerank = Ok results ->
  Forall (from_chunk self) results.
Proof.
  apply retrieve_keeps.
  - intros r x Hr _. exact Hr.
  - apply candidate_from_chunk.
Qed.

Lemma X12_retrieve_results_witness :
  Forall (from_chunk Demo.retriever)
    match RAGRetriever.retrieve Demo.world Demo.retriever "beta zz" 2 0%Qc true
    with
    | Ok l => l
    | Raise _ => []
    end.
Proof.
  apply (X12_retrieve_results_are_chunks Demo.world Demo.retriever "beta zz" 2
           0%Qc true).
  vm_compute. reflexivity.
Defined.

(** X13: when rerank is asked for and more than [top_k >= 0] hits pass the
    threshold, [retrieve] returns exactly [top_k] results, in descending
    order of score. *)
Theorem X13_rerank_sorts_and_cuts (w : World) (self : RAGRetriever.t)
    (query : string) (top_k : Z) (threshold : Qc)
    (results : list RetrievalResult.t) :
  0 <= top_k ->
  top_k < Z.of_nat (length (omap (RAGRetriever.candidate self threshold)
                              (RAGRetriever.hits w self query top_k true))) ->
  RAGRetriever.retrieve w self query top_k threshold true = Ok results ->
  Z.of_nat (length results) = top_k /\
  StronglySorted (Py.desc RetrievalResult.score) results.
Proof.
  intros Hk Hmany Hret. apply retrieve_Ok in Hret. cbv zeta in Hret.
  set (found := omap _ _) in *. cbn [andb] in Hret.
  replace (Z.of_nat (length found) >? top_k) with true in Hret by lia.
  subst results. unfold RAGRetriever._rerank.
  set (boosted := map _ found).
  assert (Hlen : length (Py.sorted_desc RetrievalResult.score boosted)
                 = length found).
  { rewrite (Permutation_length (sorted_desc_perm _ _)). apply length_map. }
  assert (Hcut : Py.list_upto
                   (Py.sorted_desc RetrievalResult.score boosted) top_k
                 = take (Z.to_nat top_k)
                     (Py.sorted_desc RetrievalResult.score boosted)).
  { unfold Py.list_upto, Py.slice_index. rewrite Hlen.
    destruct (top_k <? 0) eqn:E; [lia|]. f_equal. lia. }
  rewrite Hcut.
  assert (Hidem : Py.list_upto
                    (take (Z.to_nat top_k)
                       (Py.sorted_desc RetrievalResult.score boosted)) top_k
                  = take (Z.to_nat top_k)
                      (Py.sorted_desc RetrievalResult.score boosted)).
  { apply list_upto_all. rewrite length_take. lia. }
  rewrite Hidem. split.
  - rewrite length_take. lia.
  - pose proof (sorted_desc_sorted RetrievalResult.score boosted) as Hs.
    rewrite <- (take_drop (Z.to_nat top_k)) in Hs.
    now apply StronglySorted_app_1_l in Hs.
Qed.

Lemma X13_rerank_witness :
  let results :=
    match RAGRetriever.retrieve Demo.world Demo.retriever "beta zz" 2 0%Qc true
    with
    | Ok l => l
    | Raise _ => []
    end in
  Z.of_nat (length results) = 2 /\
  StronglySorted (Py.desc RetrievalResult.score) results.
Proof.
  apply (X13_rerank_sorts_and_cuts Demo.world Demo.retriever "beta zz" 2 0%Qc).
  - lia.
  - vm_compute. reflexivity.
  - vm_compute. reflexivity.
Defined.

(** ** HybridRetriever: keyword search and fusion *)

Lemma of_int_div_le_1 (m n : Z) :
  0 < n -> m <= n -> (RAGRetriever.of_int m / RAGRetriever.of_int n <= 1)%Qc.
Proof.
  intros Hn Hm. unfold Qcle, Qcdiv, Qcmult, Qcinv, RAGRetriever.of_int.
  cbn [this Q2Qc]. rewrite !Qred_correct.
  apply Qle_shift_div_r.
  - unfold Qlt. simpl. lia.
  - unfold Qle. simpl. lia.
Qed.

(** X14: the results of [_keyword_search] come in descending order of
    score, every score is above 0 and at most 1 (the fraction of the query
    words found in the chunk), and for [top_k >= 0] there are at most
    [top_k] of them. *)
Theorem X14_keyword_search_ranking (self : RAGRetriever.t) (query : string)
    (top_k : Z) :
  let results := HybridRetriever._keyword_search self query top_k in
  StronglySorted (Py.desc RetrievalResult.score) results /\
  Forall (fun r => (0 < RetrievalResult.score r)%Qc /\
                   (RetrievalResult.score r <= 1)%Qc) results /\
  (0 <= top_k -> Z.of_nat (length results) <= top_k).
Proof.
  intros results. subst results. split; [|split].
  - unfold HybridRetriever._keyword_search.
    apply (omap_sorted snd RetrievalResult.score).
    + intros p r. apply keyword_result_score.
    + unfold Py.list_upto. apply take_sorted, sorted_desc_sorted.
  - pose proof (keyword_scores_positive self query top_k) as Hpos.
    rewrite Forall_forall in Hpos. apply Forall_forall. intros r Hr.
    split; [now apply Hpos|].
    unfold HybridRetriever._keyword_search in Hr.
    apply list_elem_of_omap in Hr as ([idx sc] & Hp & Hr).
    apply (keyword_result_score self (idx, sc)) in Hr.
    cbn [snd] in Hr. rewrite Hr.
    apply list_upto_elem in Hp. rewrite sorted_desc_perm in Hp.
    apply list_elem_of_omap in Hp as ([i chunk] & _ & Hp).
    set (m := Py.inter_size _ _) in Hp.
    destruct (m >? 0) eqn:E; [|discriminate].
    injection Hp as _ <-.
    pose proof (inter_size_le (words query)
      (Py.set_of
         (Py.split_ws (Py.lower (default EmptyString (rec_content chunk))))))
      as Hle.
    fold m in Hle. apply of_int_div_le_1; lia.
  - intros Hk. unfold HybridRetriever._keyword_search.
    set (picked := Py.list_upto _ top_k).
    assert (Hlen : Z.of_nat (length picked) <= top_k)
      by (apply list_upto_le; exact Hk).
    etransitivity; [|exact Hlen].
    assert (Hle : forall (f : Z * Qc -> option RetrievalResult.t) l,
               (length (omap f l) <= length l)%nat).
    { intros f l. induction l as [|x l IH]; [reflexivity|].
      cbn [omap list_omap]. destruct (f x); simpl; lia. }
    specialize (Hle (fun p : Z * Qc =>
                       let (idx, score) := p in
                       match RAGRetriever.chunks self !! Z.to_nat idx with
                       | Some chunk => Some (result_of_chunk chunk idx score)
                       | None => None
                       end) picked).
    lia.
Qed.

Lemma X14_keyword_search_ranking_witness :
  Z.of_nat
    (length (HybridRetriever._keyword_search Demo.retriever "beta gamma" 1))
  <= 1.
Proof.
  apply (proj2 (proj2
    (X14_keyword_search_ranking Demo.retriever "beta gamma" 1))).
  lia.
Defined.

Lemma omap_none {A B} (f : A -> option B) (l : list A) :
  (forall x, f x = None) -> omap f l = [].
Proof.
  intros H. induction l as [|x l IH]; [reflexivity|].
  cbn [omap list_omap]. now rewrite H.
Qed.

(** X15: a query without a word (empty, or whitespace only) matches no
    chunk: [_keyword_search] returns the empty list, whatever the index. *)
Theorem X15_keyword_search_no_words (self : RAGRetriever.t) (query : string)
    (top_k : Z) :
  words query = [] ->
  HybridRetriever._keyword_search self query top_k = [].
Proof.
  intros Hw. unfold HybridRetriever._keyword_search. rewrite Hw.
  rewrite (omap_none _ (imap pair (RAGRetriever.chunks self)));
    [|intros [i chunk]; reflexivity].
  cbn [Py.sorted_desc]. unfold Py.list_upto. now rewrite take_nil.
Qed.

Lemma X15_keyword_search_no_words_witness :
  HybridRetriever._keyword_search Demo.retriever "   " 5 = [].
Proof.
  apply (X15_keyword_search_no_words Demo.retriever "   " 5).
  vm_compute. reflexivity.
Defined.

Section Keyed.

Import HybridRetriever.

Local Abbreviation RR := RetrievalResult.t.
Local Abbreviation rid := RetrievalResult.id.

Lemma dict_set_elem {V} (M : PyDict V) (k : string) (v : V)
    (entry : string * V) :
  entry ∈ dict_set M k v -> entry = (k, v) \/ entry ∈ M.
Proof.
  induction M as [|[k' v'] M IH]; simpl.
  - intros H. apply list_elem_of_singleton in H. now left.
  - destruct (String.eqb_spec k' k) as [->|Hne]; intros H;
      apply elem_of_cons in H as [H|H].
    + now left.
    + right. now right.
    + right. rewrite H. left.
    + destruct (IH H); [now left|]. right. now right.
Qed.

Lemma keyed_set (M : PyDict RR) (r : RR) :
  keyed M -> keyed (dict_set M (rid r) r).
Proof.
  intros [Hnd Hall]. split.
  - rewrite dict_set_keys. destruct (dict_get M (rid r)) eqn:E.
    + now rewrite app_nil_r.
    + apply NoDup_app. split; [exact Hnd|]. split; [|apply NoDup_singleton].
      intros k Hk Hk'. apply list_elem_of_singleton in Hk'. subst k.
      now apply dict_get_None in E.
  - apply Forall_forall. intros entry He.
    apply dict_set_elem in He as [->|He]; [reflexivity|].
    rewrite Forall_forall in Hall. now apply Hall.
Qed.

Lemma keyed_merge_semantic (weight : Qc) (S : list RR) (M : PyDict RR) :
  keyed M ->
  keyed (fold_left
           (fun result_map r => dict_set result_map (rid r) (scaled r weight))
           S M).
Proof.
  revert M. induction S as [|r S IH]; intros M HM; [exact HM|].
  cbn [fold_left]. apply IH. apply (keyed_set M (scaled r weight) HM).
Qed.

Lemma keyed_merge_keyword (weight : Qc) (K : list RR) (M : PyDict RR) :
  keyed M -> keyed (merge_keyword weight K M).
Proof.
  unfold merge_keyword. revert M.
  induction K as [|r K IH]; intros M HM; [exact HM|].
  cbn [fold_left]. apply IH.
  destruct (dict_get M (rid r)) as [entry|] eqn:E.
  - assert (Hid : rid entry = rid r).
    { apply dict_get_Some_elem in E. destruct HM as [_ Hall].
      rewrite Forall_forall in Hall. apply (Hall _ E). }
    rewrite <- Hid at 1.
    apply (keyed_set M (add_score entry _) HM).
  - apply (keyed_set M (scaled r _) HM).
Qed.

Lemma keyed_values_nodup (M : PyDict RR) :
  keyed M -> NoDup (map rid (dict_values M)).
Proof.
  intros [Hnd Hall]. unfold dict_values. rewrite map_map.
  rewrite (map_ext_in _ fst); [exact Hnd|].
  intros entry He. rewrite Forall_forall in Hall.
  apply Hall. now apply list_elem_of_In.
Qed.

End Keyed.

(** X16: the results of [HybridRetriever.retrieve] never show an id twice,
    whatever the index holds; they come in descending order of fused
    score, and for [top_k >= 0] there are at most [top_k] of them. *)
Theorem X16_hybrid_results_distinct_and_sorted (w : World)
    (self : RAGRetriever.t) (query : string) (top_k : Z) (threshold : Qc)
    (rerank : bool) (semantic_weight : Qc)
    (results : list RetrievalResult.t) :
  HybridRetriever.retrieve w self query top_k threshold rerank semantic_weight
  = Ok results ->
  NoDup (map RetrievalResult.id results) /\
  StronglySorted (Py.desc RetrievalResult.score) results /\
  (0 <= top_k -> Z.of_nat (length results) <= top_k).
Proof.
  unfold HybridRetriever.retrieve.
  destruct (RAGRetriever.retrieve w self query (top_k * 2) threshold false)
    as [semantic|]; [|discriminate].
  intros H. injection H as <-.
  set (values := dict_values _).
  assert (Hnd : NoDup (map RetrievalResult.id values)).
  { apply keyed_values_nodup, keyed_merge_keyword.
    apply keyed_merge_semantic. split; constructor. }
  split; [|split].
  - unfold Py.list_upto. rewrite <- List.firstn_map.
    eapply sublist_NoDup; [|apply sublist_take].
    assert (Hperm :
      Permutation
        (map RetrievalResult.id (Py.sorted_desc RetrievalResult.score values))
        (map RetrievalResult.id values))
      by (apply Permutation_map, sorted_desc_perm).
    now rewrite Hperm.
  - unfold Py.list_upto. apply take_sorted, sorted_desc_sorted.
  - apply list_upto_le.
Qed.

Lemma X16_hybrid_results_witness :
  let results :=
    match HybridRetriever.retrieve Demo.world Demo.retriever "beta gamma" 2
            0%Qc true (Q2Qc (7 # 10)) with
    | Ok l => l
    | Raise _ => []
    end in
  NoDup (map RetrievalResult.id results) /\
  StronglySorted (Py.desc RetrievalResult.score) results /\
  (0 <= 2 -> Z.of_nat (length results) <= 2).
Proof.
  apply (X16_hybrid_results_distinct_and_sorted Demo.world Demo.retriever
           "beta gamma" 2 0%Qc true (Q2Qc (7 # 10))).
  vm_compute. reflexivity.
Defined.

(** ** Ingestion: where chunks come from, and the outcomes of a run *)

Lemma semantic_chunk_numbered (self : SemanticChunker.t)
    (text doc_id : string) (meta : option Dict) :
  numbered doc_id (fun i => dict_set (or_empty meta) "chunk_index" (VInt i))
    (SemanticChunker.chunk self text doc_id meta).
Proof.
  unfold SemanticChunker.chunk.
  destruct (semantic_inv_sections self text doc_id (or_empty meta)
              (SemanticChunker.split_sections text) SemanticChunker.init)
    as [Hidx Hnum].
  { split; [reflexivity|apply numbered_nil]. }
  fold (SemanticChunker.after_sections self text doc_id (or_empty meta))
    in Hidx, Hnum.
  destruct (_ >=? _); [|exact Hnum].
  apply numbered_snoc; [exact Hnum| |];
    cbn [id metadata SemanticChunker.last_chunk]; now rewrite Hidx.
Qed.

Section ChunkSources.

Variable w : World.
Variable chunker : SemanticChunker.t.

Lemma ingest_file_from_file (file_path file_type : string) (st : State) :
  Forall (from_file w file_path)
    (fst (ingest_file w file_path (SemanticChunker.chunk chunker) file_type
            st)).
Proof.
  unfold ingest_file.
  destruct (read_text w file_path) as [text|] eqn:Hread; [|constructor].
  destruct (Py.truthy (Py.strip text)) eqn:Hblank; cbn [negb fst];
    [|constructor].
  eapply Forall_impl; [apply numbered_each, semantic_chunk_numbered|].
  cbn beta. intros c (i & Hid & Hmd). exists text, i.
  split; [exact Hread|]. split.
  { intros Hempty. unfold Py.truthy in Hblank. now rewrite Hempty in Hblank. }
  split; [exact Hid|]. rewrite Hmd. cbn [or_empty].
  split; [|split].
  - rewrite dict_get_set_ne by discriminate. reflexivity.
  - rewrite dict_get_set_ne by discriminate. reflexivity.
  - apply dict_get_set_eq.
Qed.

Lemma ingest_directory_from_files (dir_path : string) (st : State) :
  Forall (fun c => exists path,
              (In path (rglob w dir_path) /\
               existsb (fun pattern => Py.contains path pattern)
                 default_exclude_patterns = false /\
               in_list (Py.lower (path_suffix path)) default_extensions = true /\
               is_file w path = true) /\
              from_file w path c)
    (fst (ingest_directory w dir_path (SemanticChunker.chunk chunker) None None
            st)).
Proof.
  unfold ingest_directory. cbn [or_default].
  set (P := fun c => exists path, _ /\ from_file w path c).
  assert (Hgen : forall paths acc st0,
             (forall p, In p paths -> In p (rglob w dir_path)) ->
             Forall P acc ->
             Forall P
               (fst (fold_left
                       (fun (acc : list Chunk * State) file_path =>
                          let (all_chunks, st) := acc in
                          if existsb (fun pattern => Py.contains file_path pattern)
                               default_exclude_patterns
                          then acc
                          else if negb (in_list (Py.lower (path_suffix file_path))
                                          default_extensions)
                          then acc
                          else if is_file w file_path then
                            let (chunks, st') :=
                              ingest_file w file_path
                                (SemanticChunker.chunk chunker) "auto" st in
                            (all_chunks ++ chunks, st')
                          else acc)
                       paths (acc, st0)))).
  { induction paths as [|p paths IH]; intros acc st0 Hsub Hacc; [exact Hacc|].
    cbn [fold_left].
    assert (Hsub' : forall q, In q paths -> In q (rglob w dir_path))
      by (intros q Hq; apply Hsub; now right).
    destruct (existsb _ default_exclude_patterns) eqn:E1; [now apply IH|].
    destruct (in_list _ default_extensions) eqn:E2; cbn [negb];
      [|now apply IH].
    destruct (is_file w p) eqn:E3; [|now apply IH].
    pose proof (ingest_file_from_file p "auto" st0) as Hfile.
    destruct (ingest_file w p (SemanticChunker.chunk chunker) "auto" st0)
      as [cs st'].
    apply IH; [exact Hsub'|]. apply Forall_app. split; [exact Hacc|].
    eapply Forall_impl; [exact Hfile|]. cbn beta. intros c Hc.
    exists p. split; [|exact Hc]. repeat split; auto. apply Hsub. now left. }
  apply Hgen; [auto|constructor].
Qed.

End ChunkSources.

(** X17: every chunk [ingest_documents] works on was cut from an eligible
    file: the source itself, in the spelling of [Path(source)], when it is
    a file, otherwise a path of the walk below it that holds none of the
    excluded patterns (as a substring), ends in an allowed extension and is
    a file. That file reads as text that is not
    blank, and the chunk carries the path as [source], the length of the
    text as [size], its number as [chunk_index], and an id made of the
    first 12 characters of the path's digest and that number. *)
Theorem X17_chunks_come_from_eligible_files (w : World) (source : string)
    (chunk_size : Z) (st : State) :
  Forall (fun c => exists path, eligible w source path /\ from_file w path c)
    (fst (load_chunks w source chunk_size st)).
Proof.
  unfold load_chunks, eligible.
  destruct (is_file w (path_str w source)).
  - eapply Forall_impl; [apply ingest_file_from_file|].
    cbn beta. intros c Hc. exists (path_str w source). auto.
  - apply ingest_directory_from_files.
Qed.

Lemma remove_dups_bounds {A} `{EqDecision A} (l : list A) :
  (length (remove_dups l) <= length l)%nat /\
  (l <> [] -> 1 <= length (remove_dups l))%nat.
Proof.
  split.
  - induction l as [|x l IH]; [reflexivity|]. cbn [remove_dups].
    destruct (decide_rel _ x l); simpl; lia.
  - destruct l as [|x l]; [congruence|]. intros _.
    assert (Hx : x ∈ remove_dups (x :: l))
      by (apply elem_of_remove_dups; left).
    destruct (remove_dups (x :: l)); [inversion Hx|simpl; lia].
Qed.

Section Outcomes.

Variable w : World.
Variables source output_path : string.
Variables chunk_size chunk_overlap : Z.
Variable st : State.

Let loaded := load_chunks w source chunk_size st.
Let run := ingest_documents w source chunk_size chunk_overlap output_path st.

(** The two outcomes of a run that writes nothing. *)
Lemma ingest_documents_nothing_written :
  (fst loaded = [] ->
   fst run = Ok (mkResult 0 0 ["No documents found"]) /\
   snd run = snd loaded) /\
  (fst loaded <> [] -> embed w (map content (fst loaded)) = [] ->
   fst run = Raise IndexError /\
   snd run = log_embed (map content (fst loaded)) (snd loaded)).
Proof.
  subst run loaded. unfold ingest_documents.
  destruct (load_chunks w source chunk_size st) as [cs st']. cbn [fst snd].
  split.
  - intros ->. auto.
  - intros Hne Hemb. destruct cs as [|c cs]; [congruence|].
    rewrite Hemb. auto.
Qed.

End Outcomes.

(** X18: a run of [ingest_documents] that returns without an error entry
    counts at least one document and at most as many documents as chunks,
    and its chunk count is the number of chunks cut from the source. *)
Theorem X18_ingest_counts (w : World) (source : string)
    (chunk_size chunk_overlap : Z) (output_path : string) (st : State)
    (result : IngestResult) :
  fst (ingest_documents w source chunk_size chunk_overlap output_path st)
  = Ok result ->
  errors result = [] ->
  1 <= documents result <= chunks result /\
  chunks result
  = Z.of_nat (length (fst (load_chunks w source chunk_size st))).
Proof.
  intros Hrun Herr.
  destruct (ingest_documents_nothing_written w source output_path chunk_size
              chunk_overlap st) as [Hempty Hfail].
  destruct (fst (load_chunks w source chunk_size st)) as [|c cs] eqn:Hcs.
  { destruct (Hempty eq_refl) as [H _]. rewrite H in Hrun.
    injection Hrun as <-. discriminate. }
  destruct (embed w (map content (c :: cs))) as [|row rows] eqn:Hemb.
  { destruct (Hfail ltac:(discriminate) eq_refl) as [H _].
    rewrite H in Hrun. discriminate. }
  pose proof (ingest_documents_snapshot w source output_path chunk_size
                chunk_overlap st row rows) as Hsnap.
  rewrite Hcs in Hsnap. destruct (Hsnap ltac:(discriminate) Hemb) as [H _].
  rewrite H in Hrun. clear H Hsnap Hempty Hfail.
  assert (Hres : result
                 = mkResult
                     (Z.of_nat
                        (length
                           (remove_dups
                              (map (fun c0 => dict_get (metadata c0) "source")
                                 (c :: cs)))))
                     (Z.of_nat (length (c :: cs))) []) by congruence.
  rewrite Hres. cbn [documents chunks].
  split; [|reflexivity].
  destruct (remove_dups_bounds
              (map (fun c0 => dict_get (metadata c0) "source") (c :: cs)))
    as [Hle Hge].
  rewrite length_map in Hle. specialize (Hge ltac:(discriminate)). lia.
Qed.

Lemma X18_ingest_counts_witness :
  let result :=
    match fst (ingest_documents Demo.world "docs" 512 50 "out"
                 Demo.empty_state) with
    | Ok r => r
    | Raise _ => mkResult 0 0 []
    end in
  1 <= documents result <= chunks result /\
  chunks result
  = Z.of_nat (length (fst (load_chunks Demo.world "docs" 512 Demo.empty_state))).
Proof.
  apply (X18_ingest_counts Demo.world "docs" 512 50 "out" Demo.empty_state).
  - vm_compute. reflexivity.
  - vm_compute. reflexivity.
Defined.



(** ** From ingestion to retrieval *)

Section RoundTrip.

Variable w : World.
Variables source output_path : string.
Variables chunk_size chunk_overlap : Z.
Variable st : State.

Let loaded := load_chunks w source chunk_size st.
Let run := ingest_documents w source chunk_size chunk_overlap output_path st.

(** A run that returns without an error entry found chunks and got rows. *)
Lemma ingest_success_cases (result : IngestResult) :
  fst run = Ok result -> errors result = [] ->
  fst loaded <> [] /\
  exists row rows, embed w (map content (fst loaded)) = row :: rows.
Proof.
  intros Hrun Herr.
  destruct (ingest_documents_nothing_written w source output_path chunk_size
              chunk_overlap st) as [Hempty Hfail].
  fold loaded in Hempty, Hfail. fold run in Hempty, Hfail.
  destruct (fst loaded) as [|c cs] eqn:Hcs.
  { destruct (Hempty eq_refl) as [H _]. rewrite H in Hrun.
    injection Hrun as <-. discriminate. }
  split; [discriminate|].
  destruct (embed w (map content (c :: cs))) as [|row rows] eqn:Hemb; [|eauto].
  destruct (Hfail ltac:(discriminate) eq_refl) as [H _].
  rewrite H in Hrun. discriminate.
Qed.

(** The retriever built on the files of such a run. *)
Lemma ingest_then_load (row : Vec) (rows : list Vec) :
  fst loaded <> [] ->
  embed w (map content (fst loaded)) = row :: rows ->
  RAGRetriever.__init__ w (files (snd run)) output_path
  = Ok (RAGRetriever.mk output_path
          (Some (mkIndex (length row) (astype_float32 w (row :: rows))))
          (map chunk_record (fst loaded)) (Some (embed w))).
Proof.
  intros Hne Hemb.
  destruct (ingest_documents_snapshot w source output_path chunk_size
              chunk_overlap st row rows Hne Hemb)
    as (_ & Hi & Hc & _).
  fold run in Hi, Hc.
  unfold RAGRetriever.__init__, RAGRetriever._load_index.
  cbn [RAGRetriever.vector_path]. now rewrite Hi, Hc.
Qed.

End RoundTrip.

(** X20: after a run of [ingest_documents] that returns without an error
    entry, a retriever built on the output path loads: it holds the index
    that was written (the float32 rows of the embeddings) and one record
    per chunk, in order, as many as the run reported; [get_stats] reports
    that number, the dimension of the index and the path, which are the
    [total_chunks] and [dimensions] of the manifest; and the stats endpoint
    reports no [last_updated], a key [get_stats] does not have. *)
Theorem X20_snapshot_round_trip (w : World) (source : string)
    (chunk_size chunk_overlap : Z) (output_path : string) (st : State)
    (result : IngestResult) (env_model : option string) :
  let run :=
    ingest_documents w source chunk_size chunk_overlap output_path st in
  let loaded := fst (load_chunks w source chunk_size st) in
  fst run = Ok result -> errors result = [] ->
  exists retriever index manifest,
    RAGRetriever.__init__ w (files (snd run)) output_path = Ok retriever /\
    RAGRetriever.index retriever = Some index /\
    xb index = astype_float32 w (embed w (map content loaded)) /\
    RAGRetriever.chunks retriever = map chunk_record loaded /\
    Z.of_nat (length (RAGRetriever.chunks retriever)) = chunks result /\
    files (snd run) !! metadata_file output_path
    = Some (ManifestFile manifest) /\
    get_stats w env_model retriever
    = [("total_chunks", VInt (total_chunks manifest));
       ("embedding_model", VStr (default "unknown" env_model));
       ("dimensions", VInt (Z.of_nat (dimensions manifest)));
       ("vector_path", VStr (path_str w output_path))] /\
    dict_get (Router.rag_stats w env_model (Some retriever)) "last_updated"
    = Some None.
Proof.
  intros run loaded Hrun Herr.
  destruct (ingest_success_cases w source output_path chunk_size chunk_overlap
              st result Hrun Herr) as (Hne & row & rows & Hemb).
  pose proof (ingest_then_load w source output_path chunk_size chunk_overlap
                st row rows Hne Hemb) as Hload.
  destruct (ingest_documents_snapshot w source output_path chunk_size
              chunk_overlap st row rows Hne Hemb)
    as (Hres & _ & _ & Hm & _).
  fold run in Hload, Hres, Hm. fold loaded in Hload, Hres, Hm, Hemb.
  eexists _, _, _. split; [exact Hload|].
  cbn [RAGRetriever.index RAGRetriever.chunks xb].
  split; [reflexivity|]. split; [now rewrite Hemb|].
  split; [reflexivity|]. split.
  { rewrite Hres in Hrun. injection Hrun as <-. cbn [chunks].
    now rewrite length_map. }
  split; [exact Hm|]. split; [|reflexivity].
  unfold get_stats.
  cbn [RAGRetriever.index RAGRetriever.chunks RAGRetriever.vector_path d
       total_chunks dimensions].
  now rewrite length_map.
Qed.

Lemma X20_snapshot_round_trip_witness :
  let run := ingest_documents Demo.world "./docs/" 512 50 "out" Demo.empty_state
  in
  let loaded := fst (load_chunks Demo.world "./docs/" 512 Demo.empty_state) in
  exists retriever index manifest,
    RAGRetriever.__init__ Demo.world (files (snd run)) "out" = Ok retriever /\
    RAGRetriever.index retriever = Some index /\
    xb index
    = astype_float32 Demo.world (embed Demo.world (map content loaded)) /\
    RAGRetriever.chunks retriever = map chunk_record loaded /\
    Z.of_nat (length (RAGRetriever.chunks retriever))
    = chunks (mkResult 1 1 []) /\
    files (snd run) !! metadata_file "out" = Some (ManifestFile manifest) /\
    get_stats Demo.world None retriever
    = [("total_chunks", VInt (total_chunks manifest));
       ("embedding_model", VStr (default "unknown" None));
       ("dimensions", VInt (Z.of_nat (dimensions manifest)));
       ("vector_path", VStr "out")] /\
    dict_get (Router.rag_stats Demo.world None (Some retriever))
      "last_updated"
    = Some None.
Proof.
  apply (X20_snapshot_round_trip Demo.world "./docs/" 512 50 "out"
           Demo.empty_state (mkResult 1 1 []) None).
  - vm_compute. reflexivity.
  - reflexivity.
Defined.

(** X21: a retriever built on the snapshot of such a run returns only what
    was ingested: every result of [retrieve] has the id, the content and the
    metadata of one of the chunks of the run. *)
Theorem X21_fresh_snapshot_returns_ingested_chunks (w : World)
    (source : string) (chunk_size chunk_overlap : Z) (output_path : string)
    (st : State) (result : IngestResult) (retriever : RAGRetriever.t)
    (query : string) (top_k : Z) (threshold : Qc) (rerank : bool)
    (results : list RetrievalResult.t) :
  let run :=
    ingest_documents w source chunk_size chunk_overlap output_path st in
  fst run = Ok result -> errors result = [] ->
  RAGRetriever.__init__ w (files (snd run)) output_path = Ok retriever ->
  RAGRetriever.retrieve w retriever query top_k threshold rerank = Ok results ->
  Forall (fun r => exists c,
              In c (fst (load_chunks w source chunk_size st)) /\
              RetrievalResult.id r = id c /\
              RetrievalResult.content r = content c /\
              RetrievalResult.metadata r = metadata c) results.
Proof.
  intros run Hrun Herr Hinit Hret.
  destruct (ingest_success_cases w source output_path chunk_size chunk_overlap
              st result Hrun Herr) as (Hne & row & rows & Hemb).
  pose proof (ingest_then_load w source output_path chunk_size chunk_overlap
                st row rows Hne Hemb) as Hload.
  fold run in Hload. rewrite Hload in Hinit. injection Hinit as <-.
  assert (Hfrom : Forall (from_chunk
                            (RAGRetriever.mk output_path
                               (Some (mkIndex (length row)
                                        (astype_float32 w (row :: rows))))
                               (map chunk_record
                                  (fst (load_chunks w source chunk_size st)))
                               (Some (embed w)))) results).
  { eapply retrieve_keeps; [| |exact Hret].
    - intros r x Hr _. exact Hr.
    - apply candidate_from_chunk. }
  eapply Forall_impl; [exact Hfrom|]. cbn beta.
  intros r (idx & chunk & Hidx & Hid & Hcontent & Hmeta).
  cbn [RAGRetriever.chunks] in Hidx. rewrite list_lookup_fmap in Hidx.
  destruct (fst (load_chunks w source chunk_size st) !! idx) as [c|] eqn:Hc;
    [|discriminate].
  injection Hidx as <-. exists c.
  split; [apply list_elem_of_In; eapply list_elem_of_lookup_2; eauto|].
  auto.
Qed.

Lemma X21_fresh_snapshot_witness :
  let run := ingest_documents Demo.world "docs" 512 50 "out" Demo.empty_state in
  Forall (fun r => exists c,
              In c (fst (load_chunks Demo.world "docs" 512 Demo.empty_state)) /\
              RetrievalResult.id r = id c /\
              RetrievalResult.content r = content c /\
              RetrievalResult.metadata r = metadata c)
    match
      match RAGRetriever.__init__ Demo.world (files (snd run)) "out" with
      | Ok retriever =>
          RAGRetriever.retrieve Demo.world retriever "snapshot" 3 0%Qc true
      | Raise e => Raise e
      end
    with
    | Ok l => l
    | Raise _ => []
    end.
Proof.
  intros run.
  refine (X21_fresh_snapshot_returns_ingested_chunks Demo.world "docs" 512 50
            "out" Demo.empty_state (mkResult 1 1 [])
            match RAGRetriever.__init__ Demo.world (files (snd run)) "out" with
            | Ok retriever => retriever
            | Raise _ => Demo.retriever
            end
            "snapshot" 3 0%Qc true _ _ _ _ _).
  - vm_compute. reflexivity.
  - reflexivity.
  - vm_compute. reflexivity.
  - vm_compute. reflexivity.
Defined.

(** ** The endpoints *)

Lemma retrieved_chunks (results : list RetrievalResult.t) :
  map Router.retrieved_chunk results = results.
Proof.
  induction results as [|r results IH]; [reflexivity|].
  cbn [map]. rewrite IH. now destruct r.
Qed.

(** X22: what a response of the query endpoint holds. A response comes
    from a retriever with a loaded index only; it repeats the query, holds
    at most [top_k] chunks (for [top_k >= 0]; validation asks for 1 to 20),
    and every chunk has a score of at least the threshold and shows a chunk
    record of the retriever. *)
Theorem X22_rag_query_response (w : World) (str_exn : Exn -> string)
    (latency : Z) (rag_retriever : option RAGRetriever.t)
    (body : Router.QueryRequest) (response : Router.QueryResponse) :
  0 <= Router.top_k body ->
  Router.rag_query w str_exn latency rag_retriever body
  = Router.Response response ->
  exists retriever,
    rag_retriever = Some retriever /\
    RAGRetriever.index retriever <> None /\
    Router.response_query response = Router.query body /\
    Router.latency_ms response = latency /\
    Z.of_nat (length (Router.response_chunks response)) <= Router.top_k body /\
    Forall (fun r => (Router.threshold body <= RetrievalResult.score r)%Qc /\
                     from_chunk retriever r)
      (Router.response_chunks response).
Proof.
  intros Hk. unfold Router.rag_query.
  destruct rag_retriever as [retriever|]; [|discriminate].
  destruct (RAGRetriever.retrieve w retriever (Router.query body)
              (Router.top_k body) (Router.threshold body) (Router.rerank body))
    as [results|e] eqn:Hret; [|discriminate].
  intros H. injection H as <-. exists retriever.
  cbn [Router.response_query Router.latency_ms Router.response_chunks].
  rewrite retrieved_chunks.
  split; [reflexivity|]. split.
  { intros Hnone. unfold RAGRetriever.retrieve in Hret.
    now rewrite Hnone in Hret. }
  split; [reflexivity|]. split; [reflexivity|]. split.
  - apply retrieve_Ok in Hret. rewrite Hret. now apply list_upto_le.
  - eapply retrieve_keeps; [| |exact Hret].
    + intros r x [Hr Hfrom] Hx. split; [|exact Hfrom].
      cbn [RetrievalResult.score].
      eapply Qcle_trans; [exact Hr|].
      rewrite <- (Qcplus_0_r (RetrievalResult.score r)) at 1.
      now apply Qcplus_le_mono_l.
    + intros pair r Hc. split.
      * eapply candidate_score; eauto.
      * eapply candidate_from_chunk; eauto.
Qed.

Lemma X22_rag_query_response_witness :
  exists retriever,
    Some Demo.retriever = Some retriever /\
    RAGRetriever.index retriever <> None /\
    Router.response_query
      (Router.mkQueryResponse "beta zz"
         match RAGRetriever.retrieve Demo.world Demo.retriever "beta zz" 2
                 (Q2Qc (1 # 10)) true with
         | Ok l => l
         | Raise _ => []
         end 7)
    = Router.query (Router.mkQuery "beta zz" 2 (Q2Qc (1 # 10)) true) /\
    Router.latency_ms
      (Router.mkQueryResponse "beta zz"
         match RAGRetriever.retrieve Demo.world Demo.retriever "beta zz" 2
                 (Q2Qc (1 # 10)) true with
         | Ok l => l
         | Raise _ => []
         end 7)
    = 7 /\
    Z.of_nat
      (length
         (Router.response_chunks
            (Router.mkQueryResponse "beta zz"
               match RAGRetriever.retrieve Demo.world Demo.retriever "beta zz"
                       2 (Q2Qc (1 # 10)) true with
               | Ok l => l
               | Raise _ => []
               end 7)))
    <= Router.top_k (Router.mkQuery "beta zz" 2 (Q2Qc (1 # 10)) true) /\
    Forall (fun r =>
              (Router.threshold (Router.mkQuery "beta zz" 2 (Q2Qc (1 # 10)) true)
               <= RetrievalResult.score r)%Qc /\
              from_chunk retriever r)
      (Router.response_chunks
         (Router.mkQueryResponse "beta zz"
            match RAGRetriever.retrieve Demo.world Demo.retriever "beta zz" 2
                    (Q2Qc (1 # 10)) true with
            | Ok l => l
            | Raise _ => []
            end 7)).
Proof.
  apply (X22_rag_query_response Demo.world (fun _ => "error") 7
           (Some Demo.retriever)
           (Router.mkQuery "beta zz" 2 (Q2Qc (1 # 10)) true)).
  - vm_compute. discriminate.
  - vm_compute. reflexivity.
Defined.

(** X23: a retriever built where no index file exists answers at both
    endpoints as follows: every query gets status 500 with the text of
    RuntimeError("Index not loaded"), not the 503 of a missing retriever;
    and the stats report status [initialized] with 0 chunks, 0 dimensions
    and no [last_updated]. *)
Theorem X23_missing_index_at_the_endpoints (w : World)
    (fs : gmap string File) (vector_path : string) (str_exn : Exn -> string)
    (latency : Z) (body : Router.QueryRequest) (env_model : option string) :
  fs !! index_file vector_path = None ->
  exists retriever,
    RAGRetriever.__init__ w fs vector_path = Ok retriever /\
    Router.rag_query w str_exn latency (Some retriever) body
    = Router.HTTPException 500 (str_exn (RuntimeError "Index not loaded")) /\
    Router.rag_stats w env_model (Some retriever)
    = [("status", Some (VStr "initialized"));
       ("total_chunks", Some (VInt 0));
       ("embedding_model", Some (VStr (default "unknown" env_model)));
       ("vector_dimensions", Some (VInt 0));
       ("last_updated", None)].
Proof.
  intros Hmissing. eexists. split.
  - unfold RAGRetriever.__init__, RAGRetriever._load_index.
    cbn [RAGRetriever.vector_path]. now rewrite Hmissing.
  - split; reflexivity.
Qed.

Lemma X23_missing_index_witness :
  exists retriever,
    RAGRetriever.__init__ Demo.world ∅ "./data/vectors" = Ok retriever /\
    Router.rag_query Demo.world (fun _ => "Index not loaded") 0
      (Some retriever) (Router.mkQuery "beta" 5 0%Qc true)
    = Router.HTTPException 500 "Index not loaded" /\
    Router.rag_stats Demo.world None (Some retriever)
    = [("status", Some (VStr "initialized"));
       ("total_chunks", Some (VInt 0));
       ("embedding_model", Some (VStr "unknown"));
       ("vector_dimensions", Some (VInt 0));
       ("last_updated", None)].
Proof.
  apply (X23_missing_index_at_the_endpoints Demo.world ∅ "./data/vectors"
           (fun _ => "Index not loaded") 0 (Router.mkQuery "beta" 5 0%Qc true)
           None).
  apply lookup_empty.
Defined.


